(** * inshorts-news-data-syncer: the date normaliser and the bulk ingestion
    pipeline, embedded in Rocq.

    The development follows the Go sources:
    - [utils/time.go] (package utils): [NormalizeToESDate], on top of a model
      of the parts of Go's [time] package that it calls ([time.Parse],
      [Time.UTC], [Time.Format]);
    - [main.go] (package main, the entry point with the bulk API):
      [flushBulk], [bulkIndex], [createMappingsSettings], [loadArticles] and
      [main], with the Elasticsearch client, the file system and
      [encoding/json] as an explicit environment;
    - [cmd/main.go]: its [createMappingsSettings].

    Go [int] values are [Z]; Go strings are [string] (sequences of bytes). *)

From Stdlib Require Import ZArith Lia List String Ascii Bool Arith.
Import ListNotations.

Local Open Scope string_scope.
Local Open Scope Z_scope.

(** ** Errors and results *)

(** The Go [error] values that the program creates or passes on.  Errors
    coming from the libraries are opaque to the program; they carry a text. *)
Inductive error : Type :=
| ParseError (layout value layoutElem valueElem message : string)
    (* *time.ParseError *)
| MarshalError (msg : string)          (* json.Marshal *)
| TransportError (msg : string)        (* es.Bulk, req.Do: no response *)
| DecodeError (msg : string)           (* json.NewDecoder(...).Decode *)
| BulkItemFailed (detail : list (string * string))
    (* fmt.Errorf("bulk item failed: %+v", action.Error) *)
| ClientInitError (msg : string)       (* elasticsearch.NewClient *)
| FileNotFound (path : string) (cause : error)
    (* fmt.Errorf("file not found at path %s: %w", path, err) *)
| ReadError (msg : string)             (* os.ReadFile *)
| UnmarshalError (msg : string).       (* json.Unmarshal *)

(** A Go result pair [(v, err)]: [Ok v] is [(v, nil)], [Err e] is a non-nil
    error (the value component is then the zero value). *)
Inductive Result (A : Type) : Type :=
| Ok (a : A)
| Err (e : error).
Arguments Ok {A} a.
Arguments Err {A} e.

Definition is_ok {A} (r : Result A) : bool :=
  match r with Ok _ => true | Err _ => false end.

(** ** Byte strings *)

Fixpoint drop (n : nat) (s : string) : string :=
  match n, s with
  | O, _ => s
  | S n', String _ s' => drop n' s'
  | S _, EmptyString => EmptyString
  end.

Definition take (n : nat) (s : string) : string := substring 0 n s.

Definition dq : string := String (ascii_of_nat 34) EmptyString.  (* the double quote *)
Definition nl : string := String (ascii_of_nat 10) EmptyString.  (* "\n" *)

Definition byte_val (c : ascii) : Z := Z.of_N (N_of_ascii c).

Definition is_digit (c : ascii) : bool :=
  (48 <=? byte_val c) && (byte_val c <=? 57).

Definition digit_val (c : ascii) : Z := byte_val c - 48.

Definition digit_char (d : Z) : ascii := ascii_of_N (Z.to_N (d + 48)).

(** ** The parts of Go's [time] package used by [utils/time.go] *)
Module GoTime.

(** Layout elements.  The library knows more of them; only the
    reference-time elements that occur in [inputLayout] and [outputLayout]
    are recognised here, and the two layouts are cut into the same chunks as
    by the library. *)
Inductive std : Type :=
| stdNone
| stdLongYear         (* "2006" *)
| stdZeroMonth        (* "01" *)
| stdZeroDay          (* "02" *)
| stdHour             (* "15" *)
| stdZeroMinute       (* "04" *)
| stdZeroSecond       (* "05" *)
| stdFracSecond0 (digits : nat).  (* ".000": a separator and [digits] zeros *)

Definition is_frac (s : std) : bool :=
  match s with stdFracSecond0 _ => true | _ => false end.

Definition isDigit (s : string) (i : nat) : bool :=
  match String.get i s with
  | Some c => is_digit c
  | None => false
  end.

Definition commaOrPeriod (c : ascii) : bool :=
  Ascii.eqb c "." || Ascii.eqb c ",".

(** The zeros after the separator of a fractional-second element. *)
Fixpoint count_zeros (s : string) : nat :=
  match s with
  | String c s' => if Ascii.eqb c "0" then S (count_zeros s') else O
  | EmptyString => O
  end.

(** [nextStdChunk]: the text before the first layout element, the element,
    and the text after it. *)
Fixpoint nextStdChunk (layout : string) : string * std * string :=
  match layout with
  | EmptyString => ("", stdNone, "")
  | String c rest =>
      if String.prefix "2006" layout then ("", stdLongYear, drop 4 layout)
      else if String.prefix "01" layout then ("", stdZeroMonth, drop 2 layout)
      else if String.prefix "02" layout then ("", stdZeroDay, drop 2 layout)
      else if String.prefix "04" layout then ("", stdZeroMinute, drop 2 layout)
      else if String.prefix "05" layout then ("", stdZeroSecond, drop 2 layout)
      else if String.prefix "15" layout then ("", stdHour, drop 2 layout)
      else if commaOrPeriod c && String.prefix "0" rest
              && negb (isDigit rest (count_zeros rest))
           then ("", stdFracSecond0 (count_zeros rest), drop (count_zeros rest) rest)
      else let '(p, s, suf) := nextStdChunk rest in (String c p, s, suf)
  end.

(** One turn of the loop of [parse] and [Format] sees a prefix, an element
    and the element's own text. *)
Record chunk : Type := Chunk {
  c_prefix : string;
  c_std : std;
  c_stdstr : string
}.

Fixpoint chunks_fuel (fuel : nat) (layout : string) : list chunk :=
  match fuel with
  | O => []
  | S fuel' =>
      let '(p, s, suf) := nextStdChunk layout in
      let stdstr :=
        take (String.length layout - String.length p - String.length suf)
             (drop (String.length p) layout) in
      Chunk p s stdstr ::
      match s with
      | stdNone => []
      | _ => chunks_fuel fuel' suf
      end
  end.

(** Every turn but the last removes at least one byte of the layout. *)
Definition chunks (layout : string) : list chunk :=
  chunks_fuel (S (String.length layout)) layout.

(** *** Reading numbers *)

(** [leadingInt]: the leading decimal digits of [s], with the overflow
    checks of the library. *)
Fixpoint leadingInt (x : Z) (s : string) : option (Z * string) :=
  match s with
  | EmptyString => Some (x, s)
  | String c s' =>
      if is_digit c then
        if x >? 2 ^ 63 / 10 then None
        else let x' := x * 10 + digit_val c in
             if x' >? 2 ^ 63 then None else leadingInt x' s'
      else Some (x, s)
  end.

Definition atoi (s : string) : option Z :=
  let '(neg, s1) :=
    match s with
    | String c s' =>
        if Ascii.eqb c "-" then (true, s')
        else if Ascii.eqb c "+" then (false, s')
        else (false, s)
    | EmptyString => (false, s)
    end in
  match leadingInt 0 s1 with
  | Some (q, EmptyString) => Some (if neg then - q else q)
  | _ => None
  end.

(** [getnum]: one or two digits ([fixed] forces two). *)
Definition getnum (s : string) (fixed : bool) : option (Z * string) :=
  if negb (isDigit s 0) then None
  else if negb (isDigit s 1) then
    if fixed then None
    else match s with
         | String c s' => Some (digit_val c, s')
         | EmptyString => None
         end
  else match s with
       | String c0 (String c1 s') =>
           Some (digit_val c0 * 10 + digit_val c1, s')
       | _ => None
       end.

(** [skip]: [value] must start with the literal text [prefix].  (The
    branch of the library that collapses runs of spaces is left out: the
    layouts of this program contain no space.) *)
Fixpoint skip (value prefix : string) {struct prefix} : option string :=
  match prefix with
  | EmptyString => Some value
  | String p prefix' =>
      match value with
      | String v value' =>
          if Ascii.eqb v p then skip value' prefix' else None
      | EmptyString => None
      end
  end.

(** [quote]: the text between double quotes, a backslash before a double
    quote or a backslash, and every byte that is not printable ASCII as
    \xHH. *)
Definition hex_digit (d : Z) : ascii :=
  if d <? 10 then digit_char d else ascii_of_N (Z.to_N (d - 10 + 97)).

Fixpoint quote_bytes (s : string) : string :=
  match s with
  | EmptyString => dq
  | String c s' =>
      if (128 <=? byte_val c) || (byte_val c <? 32) then
        String (ascii_of_nat 92)
          (String "x" (String (hex_digit (byte_val c / 16))
                         (String (hex_digit (byte_val c mod 16)) (quote_bytes s'))))
      else if (byte_val c =? 34) || (byte_val c =? 92) then
        String (ascii_of_nat 92) (String c (quote_bytes s'))
      else String c (quote_bytes s')
  end.

Definition quote (s : string) : string := dq ++ quote_bytes s.

(** The digits after the separator, scaled to nanoseconds; [nbytes] counts
    the separator and the digits. *)
Definition parseNanoseconds (value : string) (nbytes : nat) : option Z :=
  match value with
  | String c _ =>
      if negb (commaOrPeriod c) then None
      else
        let nbytes := Nat.min nbytes 10 in
        match atoi (take (nbytes - 1) (drop 1 value)) with
        | Some ns => Some (ns * 10 ^ Z.of_nat (10 - nbytes))
        | None => None
        end
  | EmptyString => None
  end.

(** The end of the run of digits that starts at index 2. *)
Fixpoint digits_end (n : nat) (s : string) : nat :=
  match s with
  | String c s' => if is_digit c then digits_end (S n) s' else n
  | EmptyString => n
  end.

(** *** The calendar *)

Definition isLeap (year : Z) : bool :=
  (Z.rem year 4 =? 0) && (negb (Z.rem year 100 =? 0) || (Z.rem year 400 =? 0)).

Definition daysBefore (m : Z) : Z :=
  nth (Z.to_nat m)
      [0; 31; 59; 90; 120; 151; 181; 212; 243; 273; 304; 334; 365] 0.

Definition daysIn (m year : Z) : Z :=
  if (m =? 2) && isLeap year then 29
  else daysBefore m - daysBefore (m - 1).

(** A [Time] is an instant: seconds since January 1 of year 1, 00:00:00
    UTC, and nanoseconds within the second.  The location of every [Time]
    of this program is UTC ([Parse] yields UTC for a layout without a zone
    element). *)
Record Time : Type := mkTime {
  t_sec : Z;
  t_nsec : Z
}.

Definition secondsPerDay : Z := 86400.
Definition daysPer400Years : Z := 146097.
Definition daysPer100Years : Z := 36524.
Definition daysPer4Years : Z := 1461.

(** Days from January 1 of year 1 to January 1 of [year]. *)
Definition daysSinceEpoch (year : Z) : Z :=
  let y := year - 1 in
  let n400 := y / 400 in
  let y := y - 400 * n400 in
  let d := daysPer400Years * n400 in
  let n100 := y / 100 in
  let y := y - 100 * n100 in
  let d := d + daysPer100Years * n100 in
  let n4 := y / 4 in
  let y := y - 4 * n4 in
  let d := d + daysPer4Years * n4 in
  d + 365 * y.

(** [time.Date] in UTC, for fields that are in range (as they are after
    the checks of [parse]). *)
Definition Date (year month day hour min sec nsec : Z) : Time :=
  let d := daysSinceEpoch year in
  let d := d + daysBefore (month - 1) in
  let d := if isLeap year && (3 <=? month) then d + 1 else d in
  let d := d + (day - 1) in
  mkTime (d * secondsPerDay + (hour * 3600 + min * 60 + sec)) nsec.

(** [absDate], first half: the year of a day count and the day within
    that year. *)
Definition absYear (days : Z) : Z * Z :=
  let n := days / daysPer400Years in
  let y := 400 * n in
  let d := days - daysPer400Years * n in
  let n := d / daysPer100Years in
  let n := n - Z.shiftr n 2 in
  let y := y + 100 * n in
  let d := d - daysPer100Years * n in
  let n := d / daysPer4Years in
  let y := y + 4 * n in
  let d := d - daysPer4Years * n in
  let n := d / 365 in
  let n := n - Z.shiftr n 2 in
  let y := y + n in
  let d := d - 365 * n in
  (y + 1, d).

(** [absDate], second half: month and day of the month of a day of the
    year. *)
Definition absMonthDay (leap : bool) (yday : Z) : Z * Z :=
  if leap && (yday =? 31 + 29 - 1) then (2, 29)
  else
    let day := if leap && (31 + 29 - 1 <? yday) then yday - 1 else yday in
    let month := day / 31 in
    let e := daysBefore (month + 1) in
    let '(month, begin) :=
      if e <=? day then (month + 1, e) else (month, daysBefore month) in
    (month + 1, day - begin + 1).

Definition absDate (days : Z) : Z * Z * Z :=
  let '(year, yday) := absYear days in
  let '(month, day) := absMonthDay (isLeap year) yday in
  (year, month, day).

Definition date (t : Time) : Z * Z * Z := absDate (t_sec t / secondsPerDay).

Definition clock (t : Time) : Z * Z * Z :=
  let s := t_sec t mod secondsPerDay in
  (s / 3600, (s mod 3600) / 60, s mod 60).

(** [t.UTC()]: the same instant, located in UTC. *)
Definition UTC (t : Time) : Time := t.

(** *** [time.Parse] *)

(** The fields that [parse] collects. *)
Record fields : Type := mkFields {
  f_year : Z; f_month : Z; f_day : Z;
  f_hour : Z; f_min : Z; f_sec : Z; f_nsec : Z
}.

Definition fields0 : fields := mkFields 0 (-1) (-1) 0 0 0 0.

Section parse.
Variables alayout avalue : string.

Definition bad (stdstr hold : string) {A} : Result A :=
  Err (ParseError alayout avalue stdstr hold "").

Definition outOfRange (stdstr value what : string) {A} : Result A :=
  Err (ParseError alayout avalue stdstr value (": " ++ what ++ " out of range")).

(** The [switch] of one turn: [s] is the element, [next] the element
    that follows it in the layout, [value] the input that is left. *)
Definition parseStd (stdstr : string) (s next : std) (f : fields)
    (value : string) : Result (fields * string) :=
  match s with
  | stdNone => Ok (f, value)
  | stdLongYear =>
      if (String.length value <? 4)%nat || negb (isDigit value 0)
      then bad stdstr value
      else match atoi (take 4 value) with
           | Some y =>
               Ok (mkFields y (f_month f) (f_day f) (f_hour f) (f_min f)
                            (f_sec f) (f_nsec f), drop 4 value)
           | None => bad stdstr value
           end
  | stdZeroMonth =>
      match getnum value true with
      | Some (m, value') =>
          if (m <=? 0) || (12 <? m) then outOfRange stdstr value' "month"
          else Ok (mkFields (f_year f) m (f_day f) (f_hour f) (f_min f)
                            (f_sec f) (f_nsec f), value')
      | None => bad stdstr value
      end
  | stdZeroDay =>
      (* any two digits: the day is checked against the month at the end *)
      match getnum value true with
      | Some (d, value') =>
          Ok (mkFields (f_year f) (f_month f) d (f_hour f) (f_min f)
                       (f_sec f) (f_nsec f), value')
      | None => bad stdstr value
      end
  | stdHour =>
      match getnum value false with
      | Some (h, value') =>
          if (h <? 0) || (24 <=? h) then outOfRange stdstr value' "hour"
          else Ok (mkFields (f_year f) (f_month f) (f_day f) h (f_min f)
                            (f_sec f) (f_nsec f), value')
      | None => bad stdstr value
      end
  | stdZeroMinute =>
      match getnum value true with
      | Some (m, value') =>
          if (m <? 0) || (60 <=? m) then outOfRange stdstr value' "minute"
          else Ok (mkFields (f_year f) (f_month f) (f_day f) (f_hour f) m
                            (f_sec f) (f_nsec f), value')
      | None => bad stdstr value
      end
  | stdZeroSecond =>
      match getnum value true with
      | Some (sc, value') =>
          if (sc <? 0) || (60 <=? sc) then outOfRange stdstr value' "second"
          else
            let f' := mkFields (f_year f) (f_month f) (f_day f) (f_hour f)
                               (f_min f) sc (f_nsec f) in
            (* a fractional second in the input but none in the layout *)
            if (2 <=? String.length value')%nat
               && match value' with
                  | String c _ => commaOrPeriod c
                  | EmptyString => false
                  end
               && isDigit value' 1
            then
              if is_frac next then Ok (f', value')
              else
                let n := digits_end 2 (drop 2 value') in
                match parseNanoseconds value' n with
                | Some ns =>
                    Ok (mkFields (f_year f) (f_month f) (f_day f) (f_hour f)
                                 (f_min f) sc ns, drop n value')
                | None => bad stdstr value
                end
            else Ok (f', value')
      | None => bad stdstr value
      end
  | stdFracSecond0 ndigit =>
      (* not reached from [inputLayout] *)
      if (String.length value <? 1 + ndigit)%nat then bad stdstr value
      else match parseNanoseconds value (1 + ndigit) with
           | Some ns =>
               Ok (mkFields (f_year f) (f_month f) (f_day f) (f_hour f)
                            (f_min f) (f_sec f) ns, drop (1 + ndigit) value)
           | None => bad stdstr value
           end
  end.

Definition next_std (cs : list chunk) : std :=
  match cs with
  | c :: _ => c_std c
  | [] => stdNone
  end.

(** The loop of [parse]: one layout element per turn. *)
Fixpoint parseChunks (cs : list chunk) (f : fields) (value : string)
    : Result (fields * string) :=
  match cs with
  | [] => Ok (f, value)
  | c :: cs' =>
      match skip value (c_prefix c) with
      | None =>
          Err (ParseError alayout avalue (c_prefix c) value "")
      | Some value =>
          match c_std c with
          | stdNone =>
              if negb (String.length value =? 0)%nat
              then Err (ParseError alayout avalue "" value
                          (": extra text: " ++ quote value))
              else Ok (f, value)
          | s =>
              match parseStd (c_stdstr c) s (next_std cs') f value with
              | Ok (f', value') => parseChunks cs' f' value'
              | Err e => Err e
              end
          end
      end
  end.

Definition parse : Result Time :=
  match parseChunks (chunks alayout) fields0 avalue with
  | Err e => Err e
  | Ok (f, value) =>
      let month := if f_month f <? 0 then 1 else f_month f in
      let day := if f_day f <? 0 then 1 else f_day f in
      if (day <? 1) || (daysIn month (f_year f) <? day)
      then Err (ParseError alayout avalue "" value ": day out of range")
      else Ok (Date (f_year f) month day (f_hour f) (f_min f) (f_sec f)
                    (f_nsec f))
  end.
End parse.

Definition Parse (layout value : string) : Result Time := parse layout value.

(** *** [Time.Format] *)

(** The decimal digits of [u], most significant first. *)
Fixpoint utoa (fuel : nat) (u : Z) (acc : string) : string :=
  match fuel with
  | O => acc
  | S fuel' =>
      let acc' := String (digit_char (u mod 10)) acc in
      if u <? 10 then acc' else utoa fuel' (u / 10) acc'
  end.

Fixpoint zeros (n : nat) : string :=
  match n with
  | O => ""
  | S n' => String "0" (zeros n')
  end.

(** [appendInt]: [x] in decimal, padded with zeros to [width]. *)
Definition appendInt (x : Z) (width : nat) : string :=
  let u := Z.abs x in
  let sign := if x <? 0 then "-" else "" in
  let ds :=
    if (width =? 2)%nat && (u <? 100) then
      String (digit_char (u / 10)) (String (digit_char (u mod 10)) "")
    else if (width =? 4)%nat && (u <? 10000) then
      String (digit_char (u / 1000))
        (String (digit_char (u / 100 mod 10))
           (String (digit_char (u / 10 mod 10))
              (String (digit_char (u mod 10)) "")))
    else
      let d := utoa 20 u "" in
      zeros (width - String.length d) ++ d in
  sign ++ ds.

(** [appendNano] for a ".000" element: the separator and the first
    [ndigit] of the nine digits of the nanoseconds. *)
Definition appendNano (nanosec : Z) (ndigit : nat) : string :=
  String "." (take ndigit (appendInt nanosec 9)).

Definition formatStd (t : Time) (s : std) : string :=
  let '(year, month, day) := date t in
  let '(hour, min, sec) := clock t in
  match s with
  | stdNone => ""
  | stdLongYear => appendInt year 4
  | stdZeroMonth => appendInt month 2
  | stdZeroDay => appendInt day 2
  | stdHour => appendInt hour 2
  | stdZeroMinute => appendInt min 2
  | stdZeroSecond => appendInt sec 2
  | stdFracSecond0 n => appendNano (t_nsec t) n
  end.

Fixpoint formatChunks (t : Time) (cs : list chunk) : string :=
  match cs with
  | [] => ""
  | c :: cs' => c_prefix c ++ formatStd t (c_std c) ++ formatChunks t cs'
  end.

Definition Format (t : Time) (layout : string) : string :=
  formatChunks t (chunks layout).

End GoTime.

(** ** utils/time.go *)
Module utils.

Definition inputLayout : string := "2006-01-02T15:04:05".
Definition outputLayout : string := "2006-01-02T15:04:05.000Z".

(** [NormalizeToESDate] converts "yyyy-MM-dd'T'HH:mm:ss" to
    "yyyy-MM-dd'T'HH:mm:ss.SSS'Z'". *)
Definition NormalizeToESDate (input : string) : Result string :=
  match GoTime.Parse inputLayout input with
  | Err e => Err e
  | Ok t => Ok (GoTime.Format (GoTime.UTC t) outputLayout)
  end.

End utils.

(** ** main.go: the environment *)

(** A [float64], by its IEEE 754 bits.  The program only moves these values
    from the input file to [json.Marshal]. *)
Record float64 : Type := Float64 { bits : Z }.

Record Article : Type := mkArticle {
  ID : string;
  Title : string;
  Description : string;
  URL : string;
  PublicationDate : string;
  SourceName : string;
  Category : list string;
  RelevanceScore : float64;
  Latitude : float64;
  Longitude : float64;
  LLMSummary : string
}.

(** The values stored in the [map[string]interface{}] that [bulkIndex]
    builds for a document. *)
Inductive docValue : Type :=
| VString (s : string)
| VStrings (l : list string)
| VFloat (f : float64)
| VFloatMap (m : list (string * float64)).   (* map[string]float64 *)

Definition Doc : Type := list (string * docValue).

(** An [*esapi.Response], as far as the program looks at it. *)
Record Response : Type := mkResponse {
  StatusCode : Z;
  StatusText : string;   (* res.Status() *)
  Text : string          (* res.String() *)
}.

Definition IsError (r : Response) : bool := 299 <? StatusCode r.

(** The decoded body of a bulk response.  [Error] is a
    [map[string]interface{}]: [None] is the nil map (the field is absent or
    null).  An item is a Go map from the action name to the action's result;
    it is listed in the order in which [range] visits it. *)
Definition errorDetail : Type := list (string * string).

Record bulkAction : Type := mkAction {
  Status : Z;
  Error : option errorDetail
}.

Definition bulkItem : Type := list (string * bulkAction).

Record bulkResp : Type := mkBulkResp {
  Errors : bool;
  Items : list bulkItem
}.

(** What comes back from [es.Bulk] followed by [Decode]. *)
Inductive bulkReply : Type :=
| ReplyNone (e : error)            (* es.Bulk returned an error *)
| ReplyUndecodable (e : error)     (* Decode returned an error *)
| ReplyDecoded (resp : bulkResp).

(** The two literal request bodies of the index creation. *)
Inductive mappingBody : Type :=
| settingsAndmappings    (* main.go *)
| mapping.               (* cmd/main.go *)

Inductive level : Type := DebugLevel | InfoLevel | ErrorLevel | FatalLevel.

(** What a run does to the outside world, in order. *)
Inductive event : Type :=
| EvExists (index : string)                       (* es.Indices.Exists *)
| EvCreate (index : string) (body : mappingBody)  (* IndicesCreateRequest.Do *)
| EvBulk (payload : string)                       (* es.Bulk *)
| EvStat (path : string)                          (* os.Stat *)
| EvReadFile (path : string)                      (* os.ReadFile *)
| EvLog (l : level) (err : option error) (msg : string)   (* zerolog *)
| EvLogIndexed (count : nat)
    (* log.Info: "indexed %d articles in %v milliseconds"; the elapsed time
       is left out *)
| EvPrint (msg : string).                         (* fmt.Printf *)

Definition trace : Type := list event.

Definition emit (tr : trace) (e : event) : trace := (tr ++ [e])%list.

Record Config : Type := mkConfig {
  Addresses : list string;
  Username : string;
  Password : string;
  InsecureSkipVerify : bool
}.

(** The outside world: the process environment, the Elasticsearch client
    and server, the file system and [encoding/json].  The answers of the
    server may depend on everything that happened before. *)
Record Env : Type := mkEnv {
  Getenv : string -> string;
  NewClient : Config -> Result unit;
  Exists_reply : trace -> string -> option Response;   (* [None]: nil response *)
  Create_reply : trace -> string -> mappingBody -> Result Response;
  Bulk_reply : trace -> string -> bulkReply;
  Stat : string -> Result unit;
  ReadFile : string -> Result string;
  Unmarshal : string -> Result (list Article);   (* json.Unmarshal into []Article *)
  Marshal : Doc -> Result string                 (* json.Marshal *)
}.

(** How a Go function call ends: it returns, or the goroutine panics. *)
Inductive outcome (A : Type) : Type :=
| Returned (a : A)
| Panicked.
Arguments Returned {A} a.
Arguments Panicked {A}.

(** ** main.go *)
Module Main.

Definition indexName : string := "inshorts-news".
Definition bulkSize : Z := 500.
Definition path : string := "resources/news_data.json".

Section WithEnv.
Variable env : Env.

Definition createMappingsSettings (index : string) (tr : trace)
    : outcome (Result unit) * trace :=
  (* Check if index already exists *)
  let tr1 := emit tr (EvExists index) in
  match Exists_reply env tr index with
  | None => (Panicked, tr1)          (* exists.StatusCode on a nil response *)
  | Some exists_ =>
      if StatusCode exists_ =? 200 then (Returned (Ok tt), tr1)
      else
        let tr2 := emit tr1 (EvCreate index settingsAndmappings) in
        match Create_reply env tr1 index settingsAndmappings with
        | Err err => (Returned (Err err), tr2)
        | Ok res =>
            if IsError res
            then (Returned (Ok tt),
                  emit tr2 (EvLog ErrorLevel None
                            ("error response: " ++ Text res ++ nl)))
            else (Returned (Ok tt),
                  emit tr2 (EvLog InfoLevel None
                            ("index: (" ++ index ++ ") created successfully. Status: "
                             ++ StatusText res ++ nl)))
        end
  end.

Definition loadArticles (path : string) (tr : trace)
    : Result (list Article) * trace :=
  let tr1 := emit tr (EvStat path) in
  match Stat env path with
  | Err err => (Err (FileNotFound path err), tr1)
  | Ok _ =>
      let tr2 := emit tr1 (EvReadFile path) in
      match ReadFile env path with
      | Err err => (Err err, tr2)
      | Ok data =>
          match Unmarshal env data with
          | Err err => (Err err, tr2)
          | Ok articles => (Ok articles, tr2)
          end
      end
  end.

(** The action-metadata line:
    [fmt.Sprintf(`{ "index": { "_index": "%s", "_id": "%s" } }%s`,
    indexName, a.ID, "\n")]. *)
Definition meta (id : string) : string :=
  "{ " ++ dq ++ "index" ++ dq ++ ": { " ++ dq ++ "_index" ++ dq ++ ": "
    ++ dq ++ indexName ++ dq ++ ", " ++ dq ++ "_id" ++ dq ++ ": "
    ++ dq ++ id ++ dq ++ " } }" ++ nl.

Definition doc (a : Article) (formattedDate : string) : Doc :=
  [ ("id", VString (ID a));
    ("title", VString (Title a));
    ("description", VString (Description a));
    ("url", VString (URL a));
    ("publication_date", VString formattedDate);
    ("source_name", VString (SourceName a));
    ("category", VStrings (Category a));
    ("relevance_score", VFloat (RelevanceScore a));
    ("latitude", VFloat (Latitude a));
    ("longitude", VFloat (Longitude a));
    ("location", VFloatMap [("lat", Latitude a); ("lon", Longitude a)]) ].

(** The inner loop of [flushBulk]: the first action of the item, in
    iteration order, whose [Error] is not nil. *)
Fixpoint scanItem (item : bulkItem) : option errorDetail :=
  match item with
  | [] => None
  | (_, action) :: item' =>
      match Error action with
      | Some e => Some e
      | None => scanItem item'
      end
  end.

(** The outer loop of [flushBulk]. *)
Fixpoint scanItems (items : list bulkItem) : option errorDetail :=
  match items with
  | [] => None
  | item :: items' =>
      match scanItem item with
      | Some e => Some e
      | None => scanItems items'
      end
  end.

(** [flushBulk] works on the buffer and on the outside world. *)
Definition flushBulk (buf : string) (tr : trace)
    : Result unit * string * trace :=
  if (String.length buf =? 0)%nat then (Ok tt, buf, tr)
  else
    let tr1 := emit tr (EvBulk buf) in
    match Bulk_reply env tr buf with
    | ReplyNone err => (Err err, buf, tr1)
    | ReplyUndecodable err => (Err err, buf, tr1)
    | ReplyDecoded bulkResp =>
        match (if Errors bulkResp then scanItems (Items bulkResp) else None) with
        | Some e => (Err (BulkItemFailed e), buf, tr1)
        | None => (Ok tt, "", tr1)     (* buf.Reset() *)
        end
    end.

(** The loop of [bulkIndex], from index [i] on; [B] is the batch size. *)
Fixpoint bulkLoop (B : Z) (i : Z) (articles : list Article)
    (buf : string) (tr : trace) : Result unit * string * trace :=
  match articles with
  | [] => (Ok tt, buf, tr)
  | a :: rest =>
      match utils.NormalizeToESDate (PublicationDate a) with
      | Err err => (Err err, buf, tr)
      | Ok formattedDate =>
          let buf := buf ++ meta (ID a) in
          match Marshal env (doc a formattedDate) with
          | Err err => (Err err, buf, tr)
          | Ok body =>
              let buf := buf ++ body ++ nl in
              if Z.rem (i + 1) B =? 0 then
                match flushBulk buf tr with
                | (Err err, buf, tr) => (Err err, buf, tr)
                | (Ok _, buf, tr) => bulkLoop B (i + 1) rest buf tr
                end
              else bulkLoop B (i + 1) rest buf tr
          end
      end
  end.

Definition bulkIndexWith (B : Z) (articles : list Article) (tr : trace)
    : Result unit * trace :=
  match bulkLoop B 0 articles "" tr with
  | (Err err, _, tr) => (Err err, tr)
  | (Ok _, buf, tr) =>
      let '(r, _, tr) := flushBulk buf tr in (r, tr)
  end.

Definition bulkIndex (articles : list Article) (tr : trace)
    : Result unit * trace :=
  bulkIndexWith bulkSize articles tr.

(** How the process ends. *)
Inductive exit : Type :=
| ExitOK             (* main returns *)
| ExitFatal          (* log.Fatal: os.Exit(1) *)
| ExitPanic.

Definition config : Config :=
  let username := Getenv env "ES_USERNAME" in
  let username := if (String.length username =? 0)%nat then "elastic" else username in
  let password := Getenv env "ES_PASSWORD" in
  let password :=
    if (String.length password =? 0)%nat then "UMEFncAL6JL_kBNauzej" else password in
  mkConfig ["https://localhost:9200"] username password true.

Definition main : exit * trace :=
  match NewClient env config with
  | Err err =>
      (ExitFatal,
       emit [] (EvLog FatalLevel (Some err) "failed to create elasticsearch client"))
  | Ok _ =>
      (* Create index mapping before inserting data *)
      match createMappingsSettings indexName [] with
      | (Panicked, tr) => (ExitPanic, tr)
      | (Returned r, tr) =>
          let tr :=
            match r with
            | Err err =>
                emit tr (EvLog ErrorLevel (Some err) "error while creating mappings in es")
            | Ok _ => tr
            end in
          (* Load articles from json file *)
          match loadArticles path tr with
          | (Err err, tr) =>
              (ExitFatal,
               emit tr (EvLog FatalLevel (Some err)
                        "error while loading articles from json file"))
          | (Ok articles, tr) =>
              (* Insert articles into elastic by using bulk api *)
              match bulkIndex articles tr with
              | (Err err, tr) =>
                  (ExitFatal,
                   emit tr (EvLog FatalLevel (Some err)
                            "error while inserting articles in es using bulk api"))
              | (Ok _, tr) =>
                  (ExitOK, emit tr (EvLogIndexed (List.length articles)))
              end
          end
      end
  end.

End WithEnv.

End Main.

(** ** cmd/main.go *)
Module Cmd.

Section WithEnv.
Variable env : Env.

Definition createMappingsSettings (index : string) (tr : trace)
    : outcome (Result unit) * trace :=
  let tr1 := emit tr (EvExists index) in
  match Exists_reply env tr index with
  | None => (Panicked, tr1)
  | Some exists_ =>
      if StatusCode exists_ =? 200 then (Returned (Ok tt), tr1)
      else
        let tr2 := emit tr1 (EvCreate index mapping) in
        match Create_reply env tr1 index mapping with
        | Err err =>
            (* log.Printf of zerolog: an event at debug level *)
            (Returned (Err err),
             emit tr2 (EvLog DebugLevel (Some err) "Error creating index: %s"))
        | Ok res =>
            if IsError res
            then (Returned (Ok tt),
                  emit tr2 (EvPrint ("Error response: " ++ Text res ++ nl)))
            else (Returned (Ok tt),
                  emit tr2 (EvPrint ("Index " ++ index ++ " created successfully! Status: "
                                   ++ StatusText res ++ nl)))
        end
  end.

End WithEnv.

End Cmd.

(** ** JSON texts

    A recogniser of JSON texts (RFC 8259) over bytes, used to say when a line
    of the bulk payload is a JSON object.  Inside a string a byte below 0x20,
    a double quote or a backslash must be escaped. *)
Module Json.

Definition is_ws (c : ascii) : bool :=
  Ascii.eqb c " " || (byte_val c =? 9) || (byte_val c =? 10) || (byte_val c =? 13).

Fixpoint skip_ws (s : string) : string :=
  match s with
  | String c s' => if is_ws c then skip_ws s' else s
  | EmptyString => s
  end.

Definition is_hex (c : ascii) : bool :=
  is_digit c
  || ((97 <=? byte_val c) && (byte_val c <=? 102))
  || ((65 <=? byte_val c) && (byte_val c <=? 70)).

Definition is_escape (c : ascii) : bool :=
  (byte_val c =? 34) || (byte_val c =? 92) || Ascii.eqb c "/"
  || Ascii.eqb c "b" || Ascii.eqb c "f" || Ascii.eqb c "n"
  || Ascii.eqb c "r" || Ascii.eqb c "t".

(** The rest of the input after a string, read from just behind its
    opening quote. *)
Fixpoint scan_string (s : string) : option string :=
  match s with
  | EmptyString => None
  | String c s' =>
      if byte_val c =? 34 then Some s'
      else if byte_val c =? 92 then
        match s' with
        | String e s'' =>
            if is_escape e then scan_string s''
            else if Ascii.eqb e "u" then
              match s'' with
              | String h1 (String h2 (String h3 (String h4 s3))) =>
                  if is_hex h1 && is_hex h2 && is_hex h3 && is_hex h4
                  then scan_string s3 else None
              | _ => None
              end
            else None
        | EmptyString => None
        end
      else if byte_val c <? 32 then None
      else scan_string s'
  end.

Fixpoint skip_digits (s : string) : string :=
  match s with
  | String c s' => if is_digit c then skip_digits s' else s
  | EmptyString => s
  end.

(** One or more digits. *)
Definition scan_digits (s : string) : option string :=
  match s with
  | String c s' => if is_digit c then Some (skip_digits s') else None
  | EmptyString => None
  end.

Definition scan_number (s : string) : option string :=
  let s := match s with
           | String c s' => if Ascii.eqb c "-" then s' else s
           | EmptyString => s
           end in
  let int :=
    match s with
    | String c s' =>
        if Ascii.eqb c "0" then Some s' else scan_digits s
    | EmptyString => None
    end in
  match int with
  | None => None
  | Some s =>
      let frac :=
        match s with
        | String c s' => if Ascii.eqb c "." then scan_digits s' else Some s
        | EmptyString => Some s
        end in
      match frac with
      | None => None
      | Some s =>
          match s with
          | String c s' =>
              if Ascii.eqb c "e" || Ascii.eqb c "E" then
                match s' with
                | String sg s'' =>
                    if Ascii.eqb sg "+" || Ascii.eqb sg "-"
                    then scan_digits s'' else scan_digits s'
                | EmptyString => None
                end
              else Some s
          | EmptyString => Some s
          end
      end
  end.

Definition scan_literal (lit s : string) : option string :=
  if String.prefix lit s then Some (drop (String.length lit) s) else None.

Inductive mode : Type :=
| MValue       (* a value *)
| MMembers     (* the members of an object, then its closing brace *)
| MElements.   (* the elements of an array, then its closing bracket *)

(** The rest of the input after what [m] asks for. *)
Fixpoint scan (fuel : nat) (m : mode) (s : string) : option string :=
  match fuel with
  | O => None
  | S fuel' =>
      match m with
      | MValue =>
          match skip_ws s with
          | String c s' =>
              if Ascii.eqb c "{" then
                match skip_ws s' with
                | String c' r =>
                    if Ascii.eqb c' "}" then Some r else scan fuel' MMembers s'
                | EmptyString => None
                end
              else if Ascii.eqb c "[" then
                match skip_ws s' with
                | String c' r =>
                    if Ascii.eqb c' "]" then Some r else scan fuel' MElements s'
                | EmptyString => None
                end
              else if byte_val c =? 34 then scan_string s'
              else if Ascii.eqb c "t" then scan_literal "true" (String c s')
              else if Ascii.eqb c "f" then scan_literal "false" (String c s')
              else if Ascii.eqb c "n" then scan_literal "null" (String c s')
              else scan_number (String c s')
          | EmptyString => None
          end
      | MMembers =>
          match skip_ws s with
          | String c s1 =>
              if byte_val c =? 34 then
                match scan_string s1 with
                | Some s2 =>
                    match skip_ws s2 with
                    | String c2 s3 =>
                        if Ascii.eqb c2 ":" then
                          match scan fuel' MValue s3 with
                          | Some s4 =>
                              match skip_ws s4 with
                              | String c4 s5 =>
                                  if Ascii.eqb c4 "," then scan fuel' MMembers s5
                                  else if Ascii.eqb c4 "}" then Some s5
                                  else None
                              | EmptyString => None
                              end
                          | None => None
                          end
                        else None
                    | EmptyString => None
                    end
                | None => None
                end
              else None
          | EmptyString => None
          end
      | MElements =>
          match scan fuel' MValue s with
          | Some s1 =>
              match skip_ws s1 with
              | String c s2 =>
                  if Ascii.eqb c "," then scan fuel' MElements s2
                  else if Ascii.eqb c "]" then Some s2
                  else None
              | EmptyString => None
              end
          | None => None
          end
      end
  end.

(** [s] is one JSON value, with white space around it at most. *)
Definition valid_with (fuel : nat) (s : string) : bool :=
  match scan fuel MValue s with
  | Some rest => (String.length (skip_ws rest) =? 0)%nat
  | None => false
  end.

Definition starts_object (s : string) : bool :=
  match skip_ws s with
  | String c _ => Ascii.eqb c "{"
  | EmptyString => false
  end.

(** Every step of [scan] that is charged to the fuel reads a byte. *)
Definition valid_object (s : string) : bool :=
  starts_object s && valid_with (S (String.length s)) s.

Fixpoint has_newline (s : string) : bool :=
  match s with
  | String c s' => (byte_val c =? 10) || has_newline s'
  | EmptyString => false
  end.

(** [l] without its last byte, and that byte. *)
Fixpoint split_last (l : string) : option (string * ascii) :=
  match l with
  | EmptyString => None
  | String c l' =>
      match split_last l' with
      | None => Some (EmptyString, c)
      | Some (b, z) => Some (String c b, z)
      end
  end.

(** [l] is one line of newline-delimited JSON: a JSON object on a single
    line, followed by the newline. *)
Definition object_line (l : string) : bool :=
  match split_last l with
  | Some (body, z) =>
      (byte_val z =? 10) && negb (has_newline body) && valid_object body
  | None => false
  end.

End Json.

(** ** What the specification says about the inputs *)
Module Spec.

(** *** Timestamps *)

Definition leap_year (y : Z) : bool :=
  (y mod 4 =? 0) && (negb (y mod 100 =? 0) || (y mod 400 =? 0)).

Definition days_in_month (y m : Z) : Z :=
  if m =? 2 then (if leap_year y then 29 else 28)
  else if (m =? 4) || (m =? 6) || (m =? 9) || (m =? 11) then 30
  else 31.

Definition two (a b : ascii) : Z := digit_val a * 10 + digit_val b.

(** The seconds field may be followed by a fraction: a period or a comma
    and one or more digits. *)
Fixpoint all_digits (s : string) : bool :=
  match s with
  | String c s' => is_digit c && all_digits s'
  | EmptyString => true
  end.

Definition fraction (s : string) : bool :=
  match s with
  | EmptyString => true
  | String c ds =>
      (Ascii.eqb c "." || Ascii.eqb c ",")
      && negb (String.length ds =? 0)%nat && all_digits ds
  end.

(** "mm:ss", and then what [tail] allows. *)
Definition minutes_seconds (tail : string -> bool) (s : string) : bool :=
  match s with
  | String n1 (String n2 (String c (String s1 (String s2 rest)))) =>
      is_digit n1 && is_digit n2 && Ascii.eqb c ":"
      && is_digit s1 && is_digit s2
      && (two n1 n2 <? 60) && (two s1 s2 <? 60) && tail rest
  | _ => false
  end.

(** "yyyy-MM-dd'T'", a date of the calendar. *)
Definition date_part (time : string -> bool) (s : string) : bool :=
  match s with
  | String y1 (String y2 (String y3 (String y4 (String c1
      (String m1 (String m2 (String c2 (String d1 (String d2
        (String c3 rest)))))))))) =>
      let y := digit_val y1 * 1000 + digit_val y2 * 100
               + digit_val y3 * 10 + digit_val y4 in
      is_digit y1 && is_digit y2 && is_digit y3 && is_digit y4
      && Ascii.eqb c1 "-" && is_digit m1 && is_digit m2
      && Ascii.eqb c2 "-" && is_digit d1 && is_digit d2
      && Ascii.eqb c3 "T"
      && (1 <=? two m1 m2) && (two m1 m2 <=? 12)
      && (1 <=? two d1 d2) && (two d1 d2 <=? days_in_month y (two m1 m2))
      && time rest
  | _ => false
  end.

Definition empty (s : string) : bool := (String.length s =? 0)%nat.

(** A timestamp in the input pattern yyyy-MM-dd'T'HH:mm:ss: the nineteen
    bytes of a date of the calendar and a time of the day. *)
Definition timestamp (s : string) : bool :=
  date_part
    (fun s =>
       match s with
       | String h1 (String h2 (String c rest)) =>
           is_digit h1 && is_digit h2 && Ascii.eqb c ":" && (two h1 h2 <? 24)
           && minutes_seconds empty rest
       | _ => false
       end) s.

(** The inputs that the parser of the Go library takes for the input
    layout: as [timestamp], but the hour may have one digit only and a
    fraction of a second may follow. *)
Definition lenient_timestamp (s : string) : bool :=
  date_part
    (fun s =>
       match s with
       | String h1 (String c rest) =>
           if is_digit c then
             match rest with
             | String c' rest' =>
                 is_digit h1 && Ascii.eqb c' ":" && (two h1 c <? 24)
                 && minutes_seconds fraction rest'
             | EmptyString => false
             end
           else is_digit h1 && Ascii.eqb c ":" && minutes_seconds fraction rest
       | _ => false
       end) s.

(** *** Identifiers *)

(** The text of the action-metadata line before and after the
    identifier. *)
Definition meta_prefix : string :=
  "{ " ++ dq ++ "index" ++ dq ++ ": { " ++ dq ++ "_index" ++ dq ++ ": "
    ++ dq ++ Main.indexName ++ dq ++ ", " ++ dq ++ "_id" ++ dq ++ ": " ++ dq.

Definition meta_suffix : string := dq ++ " } }" ++ nl.

(** No double quote, backslash or newline. *)
Fixpoint plain_id (id : string) : bool :=
  match id with
  | String c s' =>
      negb (byte_val c =? 34) && negb (byte_val c =? 92)
      && negb (byte_val c =? 10) && plain_id s'
  | EmptyString => true
  end.

(** No double quote, backslash or control byte (below 0x20). *)
Fixpoint safe_id (id : string) : bool :=
  match id with
  | String c s' =>
      negb (byte_val c =? 34) && negb (byte_val c =? 92)
      && negb (byte_val c <? 32) && safe_id s'
  | EmptyString => true
  end.

(** *** Batches *)

(** The least number of batches of [b] records that hold [n] records. *)
Definition ceil_div (n b : Z) : Z := (n + b - 1) / b.

(** The bytes that one turn of the loop of [bulkIndex] appends to the
    buffer for the article [a]: the action-metadata line, and the document
    line when [json.Marshal] succeeds. *)
Definition record (env : Env) (a : Article) : string :=
  match utils.NormalizeToESDate (PublicationDate a) with
  | Ok d =>
      Main.meta (ID a)
      ++ match Marshal env (Main.doc a d) with
         | Ok body => body ++ nl
         | Err _ => ""
         end
  | Err _ => ""
  end.

(** The payload that carries exactly the records of [batch], in order. *)
Fixpoint payload (env : Env) (batch : list Article) : string :=
  match batch with
  | [] => ""
  | a :: batch' => record env a ++ payload env batch'
  end.

(** The publication date of [a] normalizes and its document serializes. *)
Definition renders (env : Env) (a : Article) : Prop :=
  exists d body,
    utils.NormalizeToESDate (PublicationDate a) = Ok d /\
    Marshal env (Main.doc a d) = Ok body.

(** *** Bulk responses *)

(** The item holds an action whose error is not nil. *)
Definition has_error (it : bulkItem) : bool :=
  existsb (fun ka => match Error (snd ka) with Some _ => true | None => false end) it.

(** [d] is the error of the first action of the item, in iteration order,
    whose error is not nil. *)
Definition first_error (it : bulkItem) (d : errorDetail) : Prop :=
  exists before key action after,
    it = (before ++ (key, action) :: after)%list /\
    Forall (fun ka => Error (snd ka) = None) before /\
    Error action = Some d.

(** The store takes a submission: it answers, the answer decodes, and
    it does not report a failed item (the errors flag together with an item
    that has an error). *)
Definition accepted (r : bulkReply) : bool :=
  match r with
  | ReplyDecoded resp => negb (Errors resp && existsb has_error (Items resp))
  | _ => false
  end.

Definition accepts_all (env : Env) : Prop :=
  forall tr p, accepted (Bulk_reply env tr p) = true.

(** The submissions of the batches, in order. *)
Definition submissions (env : Env) (batches : list (list Article)) : trace :=
  map (fun b => EvBulk (payload env b)) batches.

(** The bulk submissions of a trace. *)
Definition is_bulk (e : event) : bool :=
  match e with EvBulk _ => true | _ => false end.

Definition is_create (e : event) : bool :=
  match e with EvCreate _ _ => true | _ => false end.

End Spec.

(** ** Concrete environments and inputs *)
Module Examples.

(** A store that takes everything, an index that is already there, an
    empty input file, and a [json.Marshal] that writes an empty object. *)
Definition quiet : Env :=
  mkEnv (fun _ => "")
        (fun _ => Ok tt)
        (fun _ _ => Some (mkResponse 200 "200 OK" "[200 OK]"))
        (fun _ _ _ => Ok (mkResponse 200 "200 OK" "[200 OK]"))
        (fun _ _ => ReplyDecoded (mkBulkResp false []))
        (fun _ => Ok tt)
        (fun _ => Ok "[]")
        (fun _ => Ok [])
        (fun _ => Ok "{}").

(** As [quiet], but no bulk request reaches the store. *)
Definition unreachable : Env :=
  mkEnv (Getenv quiet) (NewClient quiet) (Exists_reply quiet)
        (Create_reply quiet)
        (fun _ _ => ReplyNone (TransportError "connection refused"))
        (Stat quiet) (ReadFile quiet) (Unmarshal quiet) (Marshal quiet).

(** As [quiet], but the index is missing and cannot be created, and the
    input file holds the articles [l]. *)
Definition no_index (l : list Article) : Env :=
  mkEnv (Getenv quiet) (NewClient quiet)
        (fun _ _ => Some (mkResponse 404 "404 Not Found" "[404 Not Found]"))
        (fun _ _ _ => Err (TransportError "connection reset"))
        (Bulk_reply quiet) (Stat quiet) (ReadFile quiet)
        (fun _ => Ok l) (Marshal quiet).

Definition article (id date : string) : Article :=
  mkArticle id "title" "description" "url" date "source" ["news"]
    (Float64 0) (Float64 0) (Float64 0) "".

Definition good (id : string) : Article := article id "2024-01-15T10:30:00".
Definition undated (id : string) : Article := article id "not-a-date".

(** 501 articles: one more than a batch of [Main.bulkSize]. *)
Definition batch_and_one : list Article := List.repeat (good "1") 501.

(** A bulk response with the errors flag set: the first item is fine, the
    second and the third were rejected. *)
Definition rejected : bulkResp :=
  mkBulkResp true
    [ [("index", mkAction 201 None)];
      [("index", mkAction 400 (Some [("type", "mapper_parsing_exception")]))];
      [("index", mkAction 400 (Some [("type", "strict_dynamic_mapping_exception")]))] ].

(** A bulk response with the errors flag set although no item has an
    error. *)
Definition flagged : bulkResp :=
  mkBulkResp true [ [("index", mkAction 201 None)]; [("index", mkAction 200 None)] ].

(** As [quiet], but every bulk request is answered by [resp]. *)
Definition answering (resp : bulkResp) : Env :=
  mkEnv (Getenv quiet) (NewClient quiet) (Exists_reply quiet)
        (Create_reply quiet)
        (fun _ _ => ReplyDecoded resp)
        (Stat quiet) (ReadFile quiet) (Unmarshal quiet) (Marshal quiet).

Definition tab : string := String (ascii_of_nat 9) EmptyString.
Definition backslash : string := String (ascii_of_nat 92) EmptyString.

End Examples.

(** ** Auxiliary definitions for the calendar *)
Module Calendar.
Import GoTime.

(** The day count of a calendar date, as [Date] computes it. *)
Definition dayCount (year month day : Z) : Z :=
  let d := daysSinceEpoch year + daysBefore (month - 1) in
  (if isLeap year && (3 <=? month) then d + 1 else d) + (day - 1).

Definition validDate (year month day : Z) : bool :=
  (1 <=? month) && (month <=? 12) && (1 <=? day) && (day <=? daysIn month year).

(** Month and day of the month, checked day by day for both kinds of
    year. *)
Definition yearDay (leap : bool) (month day : Z) : Z :=
  daysBefore (month - 1) + (if leap && (3 <=? month) then 1 else 0) + (day - 1).

Definition monthLength (leap : bool) (month : Z) : Z :=
  if (month =? 2) && leap then 29 else daysBefore month - daysBefore (month - 1).

Definition monthDay_ok : bool :=
  forallb (fun leap =>
    forallb (fun m =>
      forallb (fun d =>
        let '(m, d) := (Z.of_nat m, Z.of_nat d) in
        implb (d <=? monthLength leap m)
          (let yd := yearDay leap m d in
           (0 <=? yd) && (yd <=? (if leap then 365 else 364)) &&
           (implb (yd =? 365) leap) &&
           let '(m', d') := absMonthDay leap yd in
           (m' =? m) && (d' =? d)))
        (seq 1 31)) (seq 1 12)) [true; false].

End Calendar.

(** ** cmd/main.go: [loadNewsFromFile] and [main] *)
Module CmdMain.

(** The errors of [loadNewsFromFile]: the ones it passes on, and its own. *)
Inductive cmd_error : Type :=
| Passed (e : error)
| InsertionFailed (text : string).
    (* fmt.Errorf("insertion failed: %s", res.String()) *)

(** What a run of [cmd/main.go] does to the outside world. *)
Inductive cmd_event : Type :=
| Ev (e : event)
| EvIndex (index id body : string)
    (* es.Index(index, body, WithDocumentID(id), WithRefresh("true")) *)
| EvPrintln (msg : string) (err : option cmd_error).
    (* fmt.Printf and fmt.Println with an error value *)

Definition cmd_trace : Type := list cmd_event.

Definition cmd_emit (tr : cmd_trace) (e : cmd_event) : cmd_trace :=
  (tr ++ [e])%list.

(** The outside world of [cmd/main.go]: as for [main.go], and the answers
    to the index requests. *)
Record CmdEnv : Type := mkCmdEnv {
  base : Env;
  Index_reply : cmd_trace -> string -> string -> string -> Result Response
}.

Definition index : string := "inshorts-news-new".
Definition path : string :=
  "/Users/keshavlodhi/GoProjects/inshorts-news-data-syncer/resources/news_data.json".

Section WithEnv.
Variable env : CmdEnv.

(** The loop of [loadNewsFromFile].  The document is the same map as in
    [main.go]; an error of [json.Marshal] is dropped and the body is then
    empty. *)
Fixpoint indexLoop (index : string) (articles : list Article)
    (tr : cmd_trace) : option cmd_error * cmd_trace :=
  match articles with
  | [] => (None, tr)
  | a :: rest =>
      match utils.NormalizeToESDate (PublicationDate a) with
      | Err err => (Some (Passed err), tr)
      | Ok formattedDate =>
          let body :=
            match Marshal (base env) (Main.doc a formattedDate) with
            | Ok body => body
            | Err _ => ""
            end in
          let tr1 := cmd_emit tr (EvIndex index (ID a) body) in
          match Index_reply env tr index (ID a) body with
          | Err err => (Some (Passed err), tr1)
          | Ok res =>
              if IsError res then (Some (InsertionFailed (Text res)), tr1)
              else indexLoop index rest tr1
          end
      end
  end.

Definition loadNewsFromFile (index path : string) (tr : cmd_trace)
    : option cmd_error * cmd_trace :=
  let tr1 := cmd_emit tr (Ev (EvStat path)) in
  match Stat (base env) path with
  | Err err => (Some (Passed (FileNotFound path err)), tr1)
  | Ok _ =>
      let tr2 := cmd_emit tr1 (Ev (EvReadFile path)) in
      match ReadFile (base env) path with
      | Err err => (Some (Passed err), tr2)
      | Ok data =>
          match Unmarshal (base env) data with
          | Err err => (Some (Passed err), tr2)
          | Ok articles => indexLoop index articles tr2
          end
      end
  end.

(** [main] of [cmd/main.go]: only the client stops the run. *)
Definition main : Main.exit * cmd_trace :=
  match NewClient (base env) (Main.config (base env)) with
  | Err err =>
      (Main.ExitFatal,
       [Ev (EvLog FatalLevel (Some err) "failed to create elasticsearch client")])
  | Ok _ =>
      match Cmd.createMappingsSettings (base env) index [] with
      | (Panicked, tr) => (Main.ExitPanic, map Ev tr)
      | (Returned r, tr) =>
          let tr := map Ev tr in
          let tr :=
            match r with
            | Err err =>
                cmd_emit tr
                  (EvPrintln "error while creating mappings in es. Reason: (%v)"
                     (Some (Passed err)))
            | Ok _ => tr
            end in
          let '(r, tr) := loadNewsFromFile index path tr in
          let tr :=
            match r with
            | Some err =>
                cmd_emit tr (EvPrintln "the error while inserting doc in es: " (Some err))
            | None => tr
            end in
          (Main.ExitOK,
           cmd_emit tr (EvPrintln "time taken to insert documents in ES: " None))
      end
  end.

End WithEnv.

End CmdMain.

(** ** What runs look like *)
Module Runs.

(** The events [added] are bulk submissions of non-empty payloads, made
    one after the other from the history [tr]; each of them but the last was
    taken by the store, and the last was taken too when [ok] holds. *)
Fixpoint chain (env : Env) (tr : trace) (added : trace) (ok : bool) : Prop :=
  match added with
  | [] => True
  | e :: rest =>
      exists p,
        e = EvBulk p /\ String.length p <> 0%nat /\
        if Spec.accepted (Bulk_reply env tr p)
        then chain env (emit tr e) rest ok
        else rest = [] /\ ok = false
  end.


(** As [Examples.quiet], but the index is missing and the create request
    is answered with status 400. *)
Definition refused_create : Env :=
  mkEnv (Getenv Examples.quiet) (NewClient Examples.quiet)
        (fun _ _ => Some (mkResponse 404 "404 Not Found" "[404 Not Found]"))
        (fun _ _ _ =>
           Ok (mkResponse 400 "400 Bad Request"
                 "[400 Bad Request] resource_already_exists_exception"))
        (Bulk_reply Examples.quiet) (Stat Examples.quiet)
        (ReadFile Examples.quiet) (Unmarshal Examples.quiet)
        (Marshal Examples.quiet).

(** The payloads of the bulk submissions of a trace, one after the
    other. *)
Fixpoint bulk_bytes (tr : trace) : string :=
  match tr with
  | [] => ""
  | EvBulk p :: tr' => p ++ bulk_bytes tr'
  | _ :: tr' => bulk_bytes tr'
  end.

Definition is_exists (e : event) : bool :=
  match e with EvExists _ => true | _ => false end.

Definition is_read (e : event) : bool :=
  match e with EvReadFile _ => true | _ => false end.

(** The body of the index request for [a]: the serialized document, or
    nothing when [json.Marshal] fails. *)
Definition index_body (env : CmdMain.CmdEnv) (a : Article) : string :=
  match utils.NormalizeToESDate (PublicationDate a) with
  | Ok d =>
      match Marshal (CmdMain.base env) (Main.doc a d) with
      | Ok body => body
      | Err _ => ""
      end
  | Err _ => ""
  end.

(** The index requests for the articles, in order. *)
Definition index_requests (env : CmdMain.CmdEnv) (index : string)
    (articles : list Article) : CmdMain.cmd_trace :=
  map (fun a => CmdMain.EvIndex index (ID a) (index_body env a)) articles.

(** The dates of the articles normalize, and their index requests, made
    one after the other from the history [tr], each get a response without
    an error status. *)
Fixpoint served (env : CmdMain.CmdEnv) (index : string) (tr : CmdMain.cmd_trace)
    (articles : list Article) : Prop :=
  match articles with
  | [] => True
  | a :: rest =>
      is_ok (utils.NormalizeToESDate (PublicationDate a)) = true /\
      (exists res,
         CmdMain.Index_reply env tr index (ID a) (index_body env a) = Ok res /\
         IsError res = false) /\
      served env index
        (CmdMain.cmd_emit tr (CmdMain.EvIndex index (ID a) (index_body env a))) rest
  end.

(** As [Examples.quiet], but the document of the article with the
    identifier "3" does not serialize. *)
Definition no_marshal_3 : Env :=
  mkEnv (Getenv Examples.quiet) (NewClient Examples.quiet)
        (Exists_reply Examples.quiet) (Create_reply Examples.quiet)
        (Bulk_reply Examples.quiet) (Stat Examples.quiet)
        (ReadFile Examples.quiet) (Unmarshal Examples.quiet)
        (fun d =>
           match d with
           | (_, VString "3") :: _ =>
               Err (MarshalError "json: unsupported value: NaN")
           | _ => Ok "{}"
           end).

(** As [Examples.quiet], with the articles [l] in the input file. *)
Definition with_articles (l : list Article) : Env :=
  mkEnv (Getenv Examples.quiet) (NewClient Examples.quiet)
        (Exists_reply Examples.quiet) (Create_reply Examples.quiet)
        (Bulk_reply Examples.quiet) (Stat Examples.quiet)
        (ReadFile Examples.quiet) (fun _ => Ok l) (Marshal Examples.quiet).

(** As [Examples.quiet], but the existence check gets no response. *)
Definition no_response : Env :=
  mkEnv (Getenv Examples.quiet) (NewClient Examples.quiet)
        (fun _ _ => None) (Create_reply Examples.quiet)
        (Bulk_reply Examples.quiet) (Stat Examples.quiet)
        (ReadFile Examples.quiet) (Unmarshal Examples.quiet)
        (Marshal Examples.quiet).

(** An environment of [cmd/main.go] over [e] in which every index request
    is answered with status 201. *)
Definition indexing (e : Env) : CmdMain.CmdEnv :=
  CmdMain.mkCmdEnv e (fun _ _ _ _ => Ok (mkResponse 201 "201 Created" "[201 Created]")).

(** An environment of [cmd/main.go] over [e] in which the index request
    for the identifier "2" is answered with status 400 and every other
    one with status 201. *)
Definition refusing_2 (e : Env) : CmdMain.CmdEnv :=
  CmdMain.mkCmdEnv e
    (fun _ _ id _ =>
       if String.eqb id "2"
       then Ok (mkResponse 400 "400 Bad Request" "[400 Bad Request] mapper_parsing_exception")
       else Ok (mkResponse 201 "201 Created" "[201 Created]")).

(** The order of a run of [main]: the existence check, at most one create
    request, the stat and the read of the input file, the bulk submissions,
    and one closing log line; error and info lines of the schema step may
    come before the stat, and a fatal line may close the run wherever an
    error is found. *)
Inductive phase : Type :=
| Started | Checked | Created | Statted | Loaded | Submitting | Closed.

Definition step (ph : phase) (e : event) : option phase :=
  match ph, e with
  | Started, EvExists _ => Some Checked
  | Started, EvLog FatalLevel _ _ => Some Closed
  | Checked, EvCreate _ _ => Some Created
  | (Checked | Created), EvLog (InfoLevel | ErrorLevel) _ _ => Some ph
  | (Checked | Created), EvStat _ => Some Statted
  | Statted, EvReadFile _ => Some Loaded
  | (Statted | Loaded | Submitting), EvLog FatalLevel _ _ => Some Closed
  | (Loaded | Submitting), EvBulk _ => Some Submitting
  | (Loaded | Submitting), EvLogIndexed _ => Some Closed
  | _, _ => None
  end.

Fixpoint follow (ph : phase) (tr : trace) : option phase :=
  match tr with
  | [] => Some ph
  | e :: tr' =>
      match step ph e with
      | Some ph' => follow ph' tr'
      | None => None
      end
  end.

(** Where a run is when the process ends. *)
Definition last_phase (x : Main.exit) : phase :=
  match x with
  | Main.ExitPanic => Checked
  | _ => Closed
  end.

(** The input with its hour written with two digits: a zero is put
    before an hour of one digit (the byte after it is then no digit). *)
Definition pad_hour (s : string) : string :=
  if GoTime.isDigit s 12 then s else take 11 s ++ String "0" (drop 11 s).

(** Fixed-width decimal digits, most significant first. *)
Fixpoint fixed_width (k : nat) (u : Z) : string :=
  match k with
  | O => ""
  | S k' => fixed_width k' (u / 10) ++ String (digit_char (u mod 10)) ""
  end.

End Runs.

(** ** Facts about the calendar of [GoTime] *)
Module GoTimeFacts.
Import GoTime Calendar.

Lemma digit_char_val (c : ascii) :
  is_digit c = true -> digit_char (digit_val c) = c.
Proof.
  unfold is_digit, digit_char, digit_val, byte_val. intros H.
  apply andb_true_iff in H. destruct H as [H1 H2].
  apply Z.leb_le in H1.
  replace (Z.to_N (Z.of_N (N_of_ascii c) - 48 + 48)) with (N_of_ascii c) by lia.
  apply ascii_N_embedding.
Qed.

Lemma digit_val_range (c : ascii) :
  is_digit c = true -> 0 <= digit_val c <= 9.
Proof.
  unfold is_digit, digit_val. intros H.
  apply andb_true_iff in H. destruct H as [H1 H2].
  apply Z.leb_le in H1. apply Z.leb_le in H2. lia.
Qed.

(** A year splits into 400-year cycles, centuries, 4-year cycles and
    years. *)
Lemma year_split (y : Z) :
  exists q a b c,
    y = 400 * q + 100 * a + 4 * b + c + 1 /\
    0 <= a <= 3 /\ 0 <= b <= 24 /\ 0 <= c <= 3.
Proof.
  exists ((y - 1) / 400), ((y - 1) mod 400 / 100),
    ((y - 1) mod 400 mod 100 / 4), ((y - 1) mod 400 mod 100 mod 4).
  Z.to_euclidean_division_equations. lia.
Qed.

Lemma daysSinceEpoch_split (q a b c : Z) :
  0 <= a <= 3 -> 0 <= b <= 24 -> 0 <= c <= 3 ->
  daysSinceEpoch (400 * q + 100 * a + 4 * b + c + 1)
  = 146097 * q + 36524 * a + 1461 * b + 365 * c.
Proof.
  intros Ha Hb Hc.
  unfold daysSinceEpoch, daysPer400Years, daysPer100Years, daysPer4Years.
  cbv zeta.
  Z.to_euclidean_division_equations. lia.
Qed.

Lemma isLeap_split (q a b c : Z) :
  0 <= a <= 3 -> 0 <= b <= 24 -> 0 <= c <= 3 ->
  0 <= 400 * q + 100 * a + 4 * b + c + 1 ->
  isLeap (400 * q + 100 * a + 4 * b + c + 1)
  = (c =? 3) && (negb (b =? 24) || (a =? 3)).
Proof.
  intros Ha Hb Hc Hy. unfold isLeap.
  rewrite !Z.rem_mod_nonneg by lia.
  destruct (Z.eqb_spec c 3), (Z.eqb_spec b 24), (Z.eqb_spec a 3);
    cbn [andb orb negb];
    repeat match goal with
    | |- context [?x =? 0] => destruct (Z.eqb_spec x 0)
    end; cbn [andb orb negb]; try reflexivity; exfalso;
    Z.to_euclidean_division_equations; lia.
Qed.

Lemma div_between (x k v : Z) :
  0 < k -> k * v <= x < k * (v + 1) -> x / k = v.
Proof.
  intros Hk Hx. symmetry. apply (Z.div_unique x k v (x - k * v)); lia.
Qed.

(** Rewrites the first quotient [_ / k] of the goal to [v]. *)
Ltac quotient k v :=
  match goal with
  | |- context [?x / k] =>
      let E := fresh "E" in
      assert (E : x / k = v) by (apply div_between; lia);
      rewrite !E; clear E
  end.

Lemma absYear_split (q a b c yd : Z) :
  0 <= a <= 3 -> 0 <= b <= 24 -> 0 <= c <= 3 ->
  0 <= yd ->
  yd <= 364 \/ (yd = 365 /\ c = 3 /\ (b <> 24 \/ a = 3)) ->
  absYear (146097 * q + 36524 * a + 1461 * b + 365 * c + yd)
  = (400 * q + 100 * a + 4 * b + c + 1, yd).
Proof.
  intros Ha Hb Hc Hyd Hlen.
  unfold absYear, daysPer400Years, daysPer100Years, daysPer4Years.
  cbv zeta. rewrite !Z.shiftr_div_pow2 by lia. change (2 ^ 2) with 4.
  quotient 146097 q.
  assert (Hcent : (a = 3 /\ b = 24 /\ c = 3 /\ yd = 365)
                  \/ 1461 * b + 365 * c + yd < 36524) by lia.
  destruct Hcent as [(-> & -> & -> & ->) | Hcent].
  - (* the last day of a 400-year cycle *)
    quotient 36524 4. change (4 / 4) with 1.
    quotient 1461 24. quotient 365 4. change (4 / 4) with 1.
    f_equal; lia.
  - quotient 36524 a. quotient 4 0.
    quotient 1461 b.
    assert (Hyear : (c = 3 /\ yd = 365) \/ yd <= 364) by lia.
    destruct Hyear as [(-> & ->) | Hyear].
    + (* the last day of a leap year *)
      quotient 365 4. change (4 / 4) with 1. f_equal; lia.
    + quotient 365 c. quotient 4 0. f_equal; lia.
Qed.

Lemma monthDay_ok_true : monthDay_ok = true.
Proof. vm_compute. reflexivity. Qed.

Lemma absMonthDay_yearDay (leap : bool) (m d : Z) :
  1 <= m <= 12 -> 1 <= d <= monthLength leap m ->
  0 <= yearDay leap m d <= (if leap then 365 else 364) /\
  absMonthDay leap (yearDay leap m d) = (m, d).
Proof.
  intros Hm Hd.
  assert (Hd31 : d <= 31).
  { unfold monthLength, daysBefore in Hd.
    assert (Hc : m = 1 \/ m = 2 \/ m = 3 \/ m = 4 \/ m = 5 \/ m = 6 \/ m = 7
                 \/ m = 8 \/ m = 9 \/ m = 10 \/ m = 11 \/ m = 12) by lia.
    destruct Hd as [_ Hd].
    destruct leap;
      destruct Hc as [-> | [-> | [-> | [-> | [-> | [-> | [-> | [-> | [-> |
                     [-> | [-> | ->]]]]]]]]]]];
      match type of Hd with
      | _ <= ?e => let v := eval vm_compute in e in change e with v in Hd
      end; lia. }
  pose proof monthDay_ok_true as H. unfold monthDay_ok in H.
  rewrite forallb_forall in H.
  assert (Hl : In leap [true; false]) by (destruct leap; cbn; auto).
  specialize (H leap Hl). rewrite forallb_forall in H.
  specialize (H (Z.to_nat m)). rewrite forallb_forall in H.
  specialize (H ltac:(apply in_seq; lia) (Z.to_nat d) ltac:(apply in_seq; lia)).
  cbv beta iota zeta in H. rewrite !Z2Nat.id in H by lia.
  assert (Hle : (d <=? monthLength leap m) = true) by (apply Z.leb_le; lia).
  rewrite Hle in H. cbn [implb] in H.
  destruct (absMonthDay leap (yearDay leap m d)) as [m' d'].
  repeat match goal with
  | H : _ && _ = true |- _ => apply andb_true_iff in H; destruct H
  | H : (_ =? _) = true |- _ => apply Z.eqb_eq in H
  | H : (_ <=? _) = true |- _ => apply Z.leb_le in H
  end.
  split; [lia | congruence].
Qed.

Lemma absDate_dayCount (y m d : Z) :
  0 <= y -> validDate y m d = true ->
  absDate (dayCount y m d) = (y, m, d).
Proof.
  intros Hy Hv. unfold validDate in Hv.
  repeat (apply andb_true_iff in Hv; destruct Hv as [Hv ?]).
  repeat match goal with
  | H : (_ <=? _) = true |- _ => apply Z.leb_le in H
  end.
  assert (Hlen : daysIn m y = monthLength (isLeap y) m) by reflexivity.
  destruct (absMonthDay_yearDay (isLeap y) m d) as [Hyd Hmd]; [lia | lia |].
  destruct (year_split y) as (q & a & b & c & -> & Ha & Hb & Hc).
  assert (Hcount :
    dayCount (400 * q + 100 * a + 4 * b + c + 1) m d
    = 146097 * q + 36524 * a + 1461 * b + 365 * c
      + yearDay (isLeap (400 * q + 100 * a + 4 * b + c + 1)) m d).
  { unfold dayCount, yearDay. cbv zeta.
    rewrite daysSinceEpoch_split by assumption.
    destruct (isLeap _ && (3 <=? m)); lia. }
  unfold absDate. rewrite Hcount, absYear_split; try assumption; try lia.
  - rewrite Hmd. reflexivity.
  - rewrite isLeap_split in Hyd |- * by assumption.
    destruct (Z.eqb_spec c 3), (Z.eqb_spec b 24), (Z.eqb_spec a 3);
      cbn [andb orb negb] in *; lia.
Qed.

Lemma date_clock_Date (y m d h mi sc ns : Z) :
  0 <= y -> validDate y m d = true ->
  0 <= h < 24 -> 0 <= mi < 60 -> 0 <= sc < 60 ->
  date (Date y m d h mi sc ns) = (y, m, d) /\
  clock (Date y m d h mi sc ns) = (h, mi, sc) /\
  t_nsec (Date y m d h mi sc ns) = ns.
Proof.
  intros Hy Hv Hh Hmi Hsc.
  pose proof (absDate_dayCount y m d Hy Hv) as Hd.
  unfold date, clock, Date, secondsPerDay. cbn [t_sec t_nsec].
  fold (dayCount y m d).
  set (D := dayCount y m d) in *.
  assert (Hq : (D * 86400 + (h * 3600 + mi * 60 + sc)) / 86400 = D)
    by (apply div_between; lia).
  assert (Hr : (D * 86400 + (h * 3600 + mi * 60 + sc)) mod 86400
               = h * 3600 + mi * 60 + sc)
    by (rewrite Z.mod_eq, Hq by lia; lia).
  rewrite Hq, Hr, Hd.
  repeat split.
  assert (E1 : (h * 3600 + mi * 60 + sc) / 3600 = h)
    by (apply div_between; lia).
  assert (E2 : (h * 3600 + mi * 60 + sc) mod 3600 = mi * 60 + sc)
    by (rewrite Z.mod_eq, E1 by lia; lia).
  assert (E3 : (mi * 60 + sc) / 60 = mi) by (apply div_between; lia).
  assert (E4 : (h * 3600 + mi * 60 + sc) mod 60 = sc).
  { symmetry. apply (Z.mod_unique _ _ (h * 60 + mi)); lia. }
  rewrite E1, E2, E3, E4. reflexivity.
Qed.

(** *** Digits *)

Lemma is_digit_not (c x : ascii) :
  is_digit c = true -> is_digit x = false -> Ascii.eqb c x = false.
Proof.
  intros Hc Hx. destruct (Ascii.eqb_spec c x); [congruence | reflexivity].
Qed.

Lemma getnum_two (c0 c1 : ascii) (s : string) (fixed : bool) :
  is_digit c0 = true -> is_digit c1 = true ->
  getnum (String c0 (String c1 s)) fixed
  = Some (digit_val c0 * 10 + digit_val c1, s).
Proof.
  intros H0 H1. unfold getnum, isDigit. cbn [String.get].
  rewrite H0, H1. reflexivity.
Qed.

Lemma atoi_four (c0 c1 c2 c3 : ascii) :
  is_digit c0 = true -> is_digit c1 = true ->
  is_digit c2 = true -> is_digit c3 = true ->
  atoi (String c0 (String c1 (String c2 (String c3 EmptyString))))
  = Some (digit_val c0 * 1000 + digit_val c1 * 100
          + digit_val c2 * 10 + digit_val c3).
Proof.
  intros H0 H1 H2 H3.
  pose proof (digit_val_range _ H0). pose proof (digit_val_range _ H1).
  pose proof (digit_val_range _ H2). pose proof (digit_val_range _ H3).
  unfold atoi.
  rewrite (is_digit_not c0 "-"), (is_digit_not c0 "+") by (assumption || reflexivity).
  cbn [leadingInt]. rewrite H0, H1, H2, H3.
  change (2 ^ 63 / 10) with 922337203685477580.
  change (2 ^ 63) with 9223372036854775808.
  repeat match goal with
  | |- context [?a >? ?b] =>
      let E := fresh "E" in
      assert (E : (a >? b) = false) by (rewrite Z.gtb_ltb; apply Z.ltb_ge; lia);
      rewrite E; clear E
  end.
  f_equal. lia.
Qed.

Lemma appendInt_two (a b : Z) :
  0 <= a <= 9 -> 0 <= b <= 9 ->
  appendInt (a * 10 + b) 2 = String (digit_char a) (String (digit_char b) "").
Proof.
  intros Ha Hb. unfold appendInt. cbn [Nat.eqb andb].
  rewrite Z.abs_eq by lia.
  assert (E1 : (a * 10 + b <? 0) = false) by (apply Z.ltb_ge; lia).
  assert (E2 : (a * 10 + b <? 100) = true) by (apply Z.ltb_lt; lia).
  assert (E3 : (a * 10 + b) / 10 = a) by (apply div_between; lia).
  assert (E4 : (a * 10 + b) mod 10 = b)
    by (symmetry; apply (Z.mod_unique _ _ a); lia).
  rewrite E1, E2, E3, E4. reflexivity.
Qed.

Lemma appendInt_four (a b c d : Z) :
  0 <= a <= 9 -> 0 <= b <= 9 -> 0 <= c <= 9 -> 0 <= d <= 9 ->
  appendInt (a * 1000 + b * 100 + c * 10 + d) 4
  = String (digit_char a) (String (digit_char b)
      (String (digit_char c) (String (digit_char d) ""))).
Proof.
  intros Ha Hb Hc Hd. unfold appendInt. cbn [Nat.eqb andb].
  set (u := a * 1000 + b * 100 + c * 10 + d).
  rewrite Z.abs_eq by lia.
  assert (E1 : (u <? 0) = false) by (apply Z.ltb_ge; lia).
  assert (E2 : (u <? 10000) = true) by (apply Z.ltb_lt; lia).
  assert (E3 : u / 1000 = a) by (apply div_between; lia).
  assert (E4 : u / 100 = a * 10 + b) by (apply div_between; lia).
  assert (E5 : u / 10 = a * 100 + b * 10 + c) by (apply div_between; lia).
  assert (E6 : (a * 10 + b) mod 10 = b)
    by (symmetry; apply (Z.mod_unique _ _ a); lia).
  assert (E7 : (a * 100 + b * 10 + c) mod 10 = c)
    by (symmetry; apply (Z.mod_unique _ _ (a * 10 + b)); lia).
  assert (E8 : u mod 10 = d)
    by (symmetry; apply (Z.mod_unique _ _ (a * 100 + b * 10 + c)); lia).
  rewrite E1, E2, E3, E4, E5, E6, E7, E8. reflexivity.
Qed.

End GoTimeFacts.

(** ** Facts about [time.Parse] and [Time.Format] on the layouts of
    [utils/time.go] *)
Module ParseFacts.
Import GoTime Calendar GoTimeFacts.

Lemma inputLayout_chunks :
  chunks utils.inputLayout
  = [ Chunk "" stdLongYear "2006"; Chunk "-" stdZeroMonth "01";
      Chunk "-" stdZeroDay "02"; Chunk "T" stdHour "15";
      Chunk ":" stdZeroMinute "04"; Chunk ":" stdZeroSecond "05";
      Chunk "" stdNone "" ].
Proof. reflexivity. Qed.

Lemma outputLayout_chunks :
  chunks utils.outputLayout
  = [ Chunk "" stdLongYear "2006"; Chunk "-" stdZeroMonth "01";
      Chunk "-" stdZeroDay "02"; Chunk "T" stdHour "15";
      Chunk ":" stdZeroMinute "04"; Chunk ":" stdZeroSecond "05";
      Chunk "" (stdFracSecond0 3) ".000"; Chunk "Z" stdNone "" ].
Proof. reflexivity. Qed.

Ltac split_andb :=
  repeat match goal with
  | H : _ && _ = true |- _ => apply andb_true_iff in H; destruct H
  end.

Ltac to_Z :=
  repeat match goal with
  | H : (_ <=? _) = true |- _ => apply Z.leb_le in H
  | H : (_ <? _) = true |- _ => apply Z.ltb_lt in H
  | H : (_ =? _) = true |- _ => apply Z.eqb_eq in H
  | H : (_ <=? _) = false |- _ => apply Z.leb_gt in H
  | H : (_ <? _) = false |- _ => apply Z.ltb_ge in H
  | H : (_ =? _) = false |- _ => apply Z.eqb_neq in H
  end.

Lemma two_range (a b : ascii) :
  is_digit a = true -> is_digit b = true -> 0 <= Spec.two a b <= 99.
Proof.
  intros Ha Hb. unfold Spec.two.
  pose proof (digit_val_range _ Ha). pose proof (digit_val_range _ Hb). lia.
Qed.

Section steps.
Variables L V stdstr : string.
Variable nxt : std.
Variable f : fields.

Lemma step_year (y1 y2 y3 y4 : ascii) (rest : string) :
  is_digit y1 = true -> is_digit y2 = true ->
  is_digit y3 = true -> is_digit y4 = true ->
  parseStd L V stdstr stdLongYear nxt f
    (String y1 (String y2 (String y3 (String y4 rest))))
  = Ok (mkFields (digit_val y1 * 1000 + digit_val y2 * 100
                  + digit_val y3 * 10 + digit_val y4)
          (f_month f) (f_day f) (f_hour f) (f_min f) (f_sec f) (f_nsec f),
        rest).
Proof.
  intros H1 H2 H3 H4. unfold parseStd, isDigit.
  cbn [String.length Nat.ltb Nat.leb String.get orb negb take substring drop].
  rewrite H1. cbn [negb].
  replace (substring 0 0 rest) with "" by (destruct rest; reflexivity).
  rewrite atoi_four by assumption. reflexivity.
Qed.

Lemma step_month (a b : ascii) (rest : string) :
  is_digit a = true -> is_digit b = true ->
  1 <= Spec.two a b <= 12 ->
  parseStd L V stdstr stdZeroMonth nxt f (String a (String b rest))
  = Ok (mkFields (f_year f) (Spec.two a b) (f_day f) (f_hour f) (f_min f)
          (f_sec f) (f_nsec f), rest).
Proof.
  intros Ha Hb Hr. unfold parseStd. rewrite getnum_two by assumption.
  fold (Spec.two a b).
  replace (Spec.two a b <=? 0) with false by (symmetry; apply Z.leb_gt; lia).
  replace (12 <? Spec.two a b) with false by (symmetry; apply Z.ltb_ge; lia).
  reflexivity.
Qed.

Lemma step_day (a b : ascii) (rest : string) :
  is_digit a = true -> is_digit b = true ->
  parseStd L V stdstr stdZeroDay nxt f (String a (String b rest))
  = Ok (mkFields (f_year f) (f_month f) (Spec.two a b) (f_hour f) (f_min f)
          (f_sec f) (f_nsec f), rest).
Proof.
  intros Ha Hb. unfold parseStd. rewrite getnum_two by assumption.
  reflexivity.
Qed.

Lemma step_hour (a b : ascii) (rest : string) :
  is_digit a = true -> is_digit b = true ->
  Spec.two a b < 24 ->
  parseStd L V stdstr stdHour nxt f (String a (String b rest))
  = Ok (mkFields (f_year f) (f_month f) (f_day f) (Spec.two a b) (f_min f)
          (f_sec f) (f_nsec f), rest).
Proof.
  intros Ha Hb Hr. pose proof (two_range a b Ha Hb).
  unfold parseStd. rewrite getnum_two by assumption.
  fold (Spec.two a b).
  replace (Spec.two a b <? 0) with false by (symmetry; apply Z.ltb_ge; lia).
  replace (24 <=? Spec.two a b) with false by (symmetry; apply Z.leb_gt; lia).
  reflexivity.
Qed.

Lemma step_minute (a b : ascii) (rest : string) :
  is_digit a = true -> is_digit b = true ->
  Spec.two a b < 60 ->
  parseStd L V stdstr stdZeroMinute nxt f (String a (String b rest))
  = Ok (mkFields (f_year f) (f_month f) (f_day f) (f_hour f) (Spec.two a b)
          (f_sec f) (f_nsec f), rest).
Proof.
  intros Ha Hb Hr. pose proof (two_range a b Ha Hb).
  unfold parseStd. rewrite getnum_two by assumption.
  fold (Spec.two a b).
  replace (Spec.two a b <? 0) with false by (symmetry; apply Z.ltb_ge; lia).
  replace (60 <=? Spec.two a b) with false by (symmetry; apply Z.leb_gt; lia).
  reflexivity.
Qed.

(** The seconds at the end of the input. *)
Lemma step_second_end (a b : ascii) :
  is_digit a = true -> is_digit b = true ->
  Spec.two a b < 60 ->
  parseStd L V stdstr stdZeroSecond nxt f (String a (String b ""))
  = Ok (mkFields (f_year f) (f_month f) (f_day f) (f_hour f) (f_min f)
          (Spec.two a b) (f_nsec f), "").
Proof.
  intros Ha Hb Hr. pose proof (two_range a b Ha Hb).
  unfold parseStd. rewrite getnum_two by assumption.
  fold (Spec.two a b).
  replace (Spec.two a b <? 0) with false by (symmetry; apply Z.ltb_ge; lia).
  replace (60 <=? Spec.two a b) with false by (symmetry; apply Z.leb_gt; lia).
  reflexivity.
Qed.
End steps.

Lemma isLeap_leap_year (y : Z) : 0 <= y -> isLeap y = Spec.leap_year y.
Proof.
  intros Hy. unfold isLeap, Spec.leap_year.
  rewrite !Z.rem_mod_nonneg by lia. reflexivity.
Qed.

Lemma daysIn_days_in_month (y m : Z) :
  0 <= y -> 1 <= m <= 12 -> daysIn m y = Spec.days_in_month y m.
Proof.
  intros Hy Hm. unfold daysIn, Spec.days_in_month.
  rewrite isLeap_leap_year by assumption.
  assert (Hc : m = 1 \/ m = 2 \/ m = 3 \/ m = 4 \/ m = 5 \/ m = 6 \/ m = 7
               \/ m = 8 \/ m = 9 \/ m = 10 \/ m = 11 \/ m = 12) by lia.
  destruct Hc as [-> | [-> | [-> | [-> | [-> | [-> | [-> | [-> | [-> |
                 [-> | [-> | ->]]]]]]]]]]];
    try reflexivity;
    cbn [Z.eqb Pos.eqb andb]; destruct (Spec.leap_year y); reflexivity.
Qed.

(** What [Format] writes for a [Date] whose fields are given by digits. *)
Lemma Format_Date (y1 y2 y3 y4 m1 m2 d1 d2 h1 h2 n1 n2 s1 s2 : ascii) :
  let y := digit_val y1 * 1000 + digit_val y2 * 100
           + digit_val y3 * 10 + digit_val y4 in
  forallb is_digit [y1; y2; y3; y4; m1; m2; d1; d2; h1; h2; n1; n2; s1; s2]
  = true ->
  validDate y (Spec.two m1 m2) (Spec.two d1 d2) = true ->
  Spec.two h1 h2 < 24 -> Spec.two n1 n2 < 60 -> Spec.two s1 s2 < 60 ->
  Format (UTC (Date y (Spec.two m1 m2) (Spec.two d1 d2) (Spec.two h1 h2)
                 (Spec.two n1 n2) (Spec.two s1 s2) 0)) utils.outputLayout
  = String y1 (String y2 (String y3 (String y4 (String "-"
      (String m1 (String m2 (String "-" (String d1 (String d2 (String "T"
        (String h1 (String h2 (String ":" (String n1 (String n2 (String ":"
          (String s1 (String s2 ".000Z")))))))))))))))))).
Proof.
  intros y Hdig Hv Hh Hn Hs. cbn [forallb] in Hdig. split_andb.
  repeat match goal with
  | H : is_digit ?c = true |- _ =>
      lazymatch goal with
      | _ : 0 <= digit_val c <= 9 |- _ => fail
      | _ => pose proof (digit_val_range c H)
      end
  end.
  assert (Hy : 0 <= y) by (unfold y; lia).
  destruct (date_clock_Date y (Spec.two m1 m2) (Spec.two d1 d2)
              (Spec.two h1 h2) (Spec.two n1 n2) (Spec.two s1 s2) 0)
    as (Hd & Hc & Hns); try assumption;
    try (split; [apply two_range; assumption | assumption]).
  unfold Format, UTC. rewrite outputLayout_chunks.
  cbn [formatChunks c_prefix c_std]. unfold formatStd.
  rewrite Hd, Hc, Hns. unfold y, Spec.two.
  rewrite appendInt_four, !appendInt_two by assumption.
  rewrite !digit_char_val by assumption.
  reflexivity.
Qed.

(** *** What a successful [parse] says about its input *)

Lemma leadingInt_rest (s : string) (x q : Z) :
  leadingInt x s = Some (q, "") -> Spec.all_digits s = true.
Proof.
  revert x. induction s as [| c s IH]; intros x H; [reflexivity |].
  cbn [leadingInt Spec.all_digits] in *.
  destruct (is_digit c); [| discriminate H].
  destruct (x >? 2 ^ 63 / 10); [discriminate H |].
  destruct (x * 10 + digit_val c >? 2 ^ 63); [discriminate H |].
  apply (IH _ H).
Qed.

Section inversions.
Variables L V stdstr : string.
Variable nxt : std.
Variable f : fields.

Lemma inv_year (v : string) (f' : fields) (v' : string) :
  parseStd L V stdstr stdLongYear nxt f v = Ok (f', v') ->
  exists y1 y2 y3 y4,
    v = String y1 (String y2 (String y3 (String y4 v'))) /\
    forallb is_digit [y1; y2; y3; y4] = true /\
    f' = mkFields (digit_val y1 * 1000 + digit_val y2 * 100
                   + digit_val y3 * 10 + digit_val y4)
           (f_month f) (f_day f) (f_hour f) (f_min f) (f_sec f) (f_nsec f).
Proof.
  unfold parseStd, bad. intros H.
  destruct v as [| y1 [| y2 [| y3 [| y4 rest]]]]; try discriminate H.
  unfold isDigit in H.
  cbn [String.length Nat.ltb Nat.leb String.get orb take substring drop] in H.
  replace (substring 0 0 rest) with "" in H by (destruct rest; reflexivity).
  destruct (is_digit y1) eqn:H1; [| discriminate H]. cbn [negb] in H.
  destruct (atoi _) as [y |] eqn:Ha; [| discriminate H].
  injection H as <- <-.
  assert (Hd : Spec.all_digits
                 (String y1 (String y2 (String y3 (String y4 ""))))
               = true).
  { unfold atoi in Ha.
    rewrite (is_digit_not y1 "-"), (is_digit_not y1 "+") in Ha
      by (assumption || reflexivity).
    destruct (leadingInt 0 _) as [[q [|]] |] eqn:Hl; try discriminate Ha.
    apply (leadingInt_rest _ _ _ Hl). }
  cbn [Spec.all_digits] in Hd.
  apply andb_true_iff in Hd. destruct Hd as [_ Hd].
  apply andb_true_iff in Hd. destruct Hd as [H2 Hd].
  apply andb_true_iff in Hd. destruct Hd as [H3 Hd].
  apply andb_true_iff in Hd. destruct Hd as [H4 _].
  rewrite atoi_four in Ha by assumption. injection Ha as <-.
  exists y1, y2, y3, y4. cbn [forallb]. rewrite H1, H2, H3, H4.
  repeat split.
Qed.

Lemma inv_getnum_fixed (v : string) (n : Z) (v' : string) :
  getnum v true = Some (n, v') ->
  exists a b,
    v = String a (String b v') /\
    is_digit a = true /\ is_digit b = true /\ n = Spec.two a b.
Proof.
  unfold getnum, isDigit. intros H.
  destruct v as [| a [| b rest]]; cbn [String.get] in H; try discriminate H.
  - destruct (is_digit a); discriminate H.
  - destruct (is_digit a) eqn:Ha; [| discriminate H].
    destruct (is_digit b) eqn:Hb; [| discriminate H].
    cbn [negb] in H. injection H as <- <-.
    exists a, b. repeat split; assumption.
Qed.

Lemma inv_getnum_free (v : string) (n : Z) (v' : string) :
  getnum v false = Some (n, v') ->
  exists a,
    is_digit a = true /\
    ((exists b, v = String a (String b v') /\ is_digit b = true
                /\ n = Spec.two a b)
     \/ (v = String a v' /\ isDigit v' 0 = false /\ n = digit_val a)).
Proof.
  unfold getnum. intros H.
  destruct v as [| a rest]; [discriminate H |].
  change (isDigit (String a rest) 0) with (is_digit a) in H.
  change (isDigit (String a rest) 1) with (isDigit rest 0) in H.
  destruct (is_digit a) eqn:Ha; [| discriminate H]. cbn [negb] in H.
  exists a. split; [exact Ha |].
  destruct (isDigit rest 0) eqn:Hb; cbn [negb] in H.
  - destruct rest as [| b rest]; [discriminate H |].
    injection H as <- <-. left. exists b. repeat split. exact Hb.
  - injection H as <- <-. right. repeat split. exact Hb.
Qed.

Lemma inv_month (v : string) (f' : fields) (v' : string) :
  parseStd L V stdstr stdZeroMonth nxt f v = Ok (f', v') ->
  exists a b,
    v = String a (String b v') /\
    is_digit a = true /\ is_digit b = true /\
    1 <= Spec.two a b <= 12 /\
    f' = mkFields (f_year f) (Spec.two a b) (f_day f) (f_hour f) (f_min f)
           (f_sec f) (f_nsec f).
Proof.
  unfold parseStd, bad, outOfRange. intros H.
  destruct (getnum v true) as [[n r] |] eqn:Hg; [| discriminate H].
  destruct (inv_getnum_fixed _ _ _ Hg) as (a & b & -> & Ha & Hb & ->).
  destruct (Spec.two a b <=? 0) eqn:E1; [discriminate H |].
  destruct (12 <? Spec.two a b) eqn:E2; [discriminate H |].
  cbn [orb] in H. injection H as <- <-. to_Z.
  exists a, b. repeat split; (assumption || lia).
Qed.

Lemma inv_day (v : string) (f' : fields) (v' : string) :
  parseStd L V stdstr stdZeroDay nxt f v = Ok (f', v') ->
  exists a b,
    v = String a (String b v') /\
    is_digit a = true /\ is_digit b = true /\
    f' = mkFields (f_year f) (f_month f) (Spec.two a b) (f_hour f) (f_min f)
           (f_sec f) (f_nsec f).
Proof.
  unfold parseStd, bad. intros H.
  destruct (getnum v true) as [[n r] |] eqn:Hg; [| discriminate H].
  destruct (inv_getnum_fixed _ _ _ Hg) as (a & b & -> & Ha & Hb & ->).
  injection H as <- <-. exists a, b. repeat split; assumption.
Qed.

Lemma inv_hour (v : string) (f' : fields) (v' : string) :
  parseStd L V stdstr stdHour nxt f v = Ok (f', v') ->
  exists a h,
    is_digit a = true /\ h < 24 /\
    ((exists b, v = String a (String b v') /\ is_digit b = true
                /\ h = Spec.two a b)
     \/ (v = String a v' /\ isDigit v' 0 = false /\ h = digit_val a)) /\
    f' = mkFields (f_year f) (f_month f) (f_day f) h (f_min f)
           (f_sec f) (f_nsec f).
Proof.
  unfold parseStd, bad, outOfRange. intros H.
  destruct (getnum v false) as [[n r] |] eqn:Hg; [| discriminate H].
  destruct (inv_getnum_free _ _ _ Hg) as (a & Ha & Hcase).
  destruct (n <? 0) eqn:E1; [discriminate H |].
  destruct (24 <=? n) eqn:E2; [discriminate H |].
  cbn [orb] in H. injection H as <- <-. to_Z.
  exists a, n. repeat split; assumption.
Qed.

Lemma inv_minute (v : string) (f' : fields) (v' : string) :
  parseStd L V stdstr stdZeroMinute nxt f v = Ok (f', v') ->
  exists a b,
    v = String a (String b v') /\
    is_digit a = true /\ is_digit b = true /\
    Spec.two a b < 60 /\
    f' = mkFields (f_year f) (f_month f) (f_day f) (f_hour f) (Spec.two a b)
           (f_sec f) (f_nsec f).
Proof.
  unfold parseStd, bad, outOfRange. intros H.
  destruct (getnum v true) as [[n r] |] eqn:Hg; [| discriminate H].
  destruct (inv_getnum_fixed _ _ _ Hg) as (a & b & -> & Ha & Hb & ->).
  destruct (Spec.two a b <? 0) eqn:E1; [discriminate H |].
  destruct (60 <=? Spec.two a b) eqn:E2; [discriminate H |].
  cbn [orb] in H. injection H as <- <-. to_Z.
  exists a, b. repeat split; assumption.
Qed.
End inversions.

Lemma digits_end_run (s : string) (n : nat) :
  exists k, digits_end n s = (n + k)%nat /\
            (String.length (drop k s) = 0%nat -> Spec.all_digits s = true).
Proof.
  revert n. induction s as [| c s IH]; intros n.
  - exists 0%nat. split; [cbn; lia | reflexivity].
  - cbn [digits_end Spec.all_digits]. destruct (is_digit c).
    + destruct (IH (S n)) as (k & Hk & Hall).
      exists (S k). split; [lia | exact Hall].
    + exists 0%nat. split; [lia | cbn; discriminate].
Qed.

(** The seconds, when nothing but the end of the input may follow them. *)
Lemma inv_second (L V stdstr : string) (f : fields) (v : string)
    (f' : fields) (v' : string) :
  parseStd L V stdstr stdZeroSecond stdNone f v = Ok (f', v') ->
  String.length v' = 0%nat ->
  exists a b rest ns,
    v = String a (String b rest) /\
    is_digit a = true /\ is_digit b = true /\
    Spec.two a b < 60 /\ Spec.fraction rest = true /\
    f' = mkFields (f_year f) (f_month f) (f_day f) (f_hour f) (f_min f)
           (Spec.two a b) ns.
Proof.
  unfold parseStd, bad, outOfRange. intros H Hend.
  destruct (getnum v true) as [[n r] |] eqn:Hg; [| discriminate H].
  destruct (inv_getnum_fixed _ _ _ Hg) as (a & b & -> & Ha & Hb & ->).
  destruct (Spec.two a b <? 0) eqn:E1; [discriminate H |].
  destruct (60 <=? Spec.two a b) eqn:E2; [discriminate H |].
  cbn [orb is_frac] in H. to_Z.
  exists a, b, r.
  destruct r as [| c [| d tail]].
  - injection H as <- <-. eexists. repeat split; assumption.
  - cbn in H. injection H as <- <-. discriminate Hend.
  - cbn [String.length Nat.leb andb] in H.
    unfold isDigit in H. cbn [String.get drop] in H.
    unfold Spec.fraction. cbn [String.length Nat.eqb negb andb].
    unfold commaOrPeriod in H.
    destruct (Ascii.eqb c "." || Ascii.eqb c ",");
      [| cbn [andb] in H; injection H as <- <-; discriminate Hend].
    destruct (is_digit d) eqn:Hd;
      [| cbn [andb] in H; injection H as <- <-; discriminate Hend].
    cbn [andb] in H.
    destruct (parseNanoseconds _ _) as [ns |]; [| discriminate H].
    injection H as <- <-.
    destruct (digits_end_run tail 2) as (k & Hk & Hall).
    rewrite Hk in Hend. cbn [Nat.add drop] in Hend.
    exists ns. cbn [Spec.all_digits andb]. rewrite Hd.
    repeat split; try assumption. apply Hall, Hend.
Qed.


(** One literal byte of the layout. *)
Ltac literal H :=
  match type of H with
  | context [match ?v with EmptyString => _ | String _ _ => _ end] =>
      is_var v;
      let c := fresh "c" in
      destruct v as [| c v]; cbv beta iota in H; [discriminate H |];
      match type of H with
      | context [Ascii.eqb c ?p] =>
          destruct (Ascii.eqb_spec c p);
          [subst c | cbv beta iota in H; discriminate H]
      end
  end.

(** One element of the layout. *)
Ltac element H E :=
  match type of H with
  | context [parseStd ?L ?V ?str ?s ?nxt ?f ?v] =>
      let f' := fresh "f" in
      let v' := fresh "v" in
      destruct (parseStd L V str s nxt f v) as [[f' v'] |] eqn:E;
      [| discriminate H]
  end.

Ltac rewrite_digits :=
  repeat match goal with
  | H : is_digit ?c = true |- context [is_digit ?c] => rewrite H
  end.

Ltac fields_in H :=
  cbn [f_year f_month f_day f_hour f_min f_sec f_nsec] in H.

Lemma parseChunks_ok_lenient (V s : string) (f : fields) (v : string) :
  parseChunks utils.inputLayout V (chunks utils.inputLayout) fields0 s
  = Ok (f, v) ->
  0 <= f_year f /\ 1 <= f_month f <= 12 /\ 0 <= f_day f /\
  (1 <= f_day f <= Spec.days_in_month (f_year f) (f_month f) ->
   Spec.lenient_timestamp s = true).
Proof.
  rewrite inputLayout_chunks.
  cbn [parseChunks skip c_prefix c_std c_stdstr next_std]. intros H.
  element H E1. apply inv_year in E1.
  destruct E1 as (y1 & y2 & y3 & y4 & -> & Hy & ->). fields_in H.
  literal H. element H E2. apply inv_month in E2.
  destruct E2 as (m1 & m2 & -> & Hm1 & Hm2 & Hm & ->). fields_in H.
  literal H. element H E3. apply inv_day in E3.
  destruct E3 as (d1 & d2 & -> & Hd1 & Hd2 & ->). fields_in H.
  literal H. element H E4. apply inv_hour in E4.
  destruct E4 as (h1 & h & Hh1 & Hh & Hcase & ->). fields_in H.
  literal H. element H E5. apply inv_minute in E5.
  destruct E5 as (n1 & n2 & -> & Hn1 & Hn2 & Hn & ->). fields_in H.
  literal H. element H E6.
  match type of H with
  | context [(String.length ?x =? 0)%nat] =>
      destruct (Nat.eqb_spec (String.length x) 0) as [Hend | Hend];
      [| discriminate H]
  end.
  cbn [negb] in H. injection H as <- <-.
  apply inv_second in E6; [| exact Hend].
  destruct E6 as (s1 & s2 & rest & ns & -> & Hs1 & Hs2 & Hs & Hfrac & ->).
  cbn [f_year f_month f_day f_hour f_min f_sec f_nsec].
  cbn [forallb] in Hy. split_andb.
  set (y := digit_val y1 * 1000 + digit_val y2 * 100
            + digit_val y3 * 10 + digit_val y4) in *.
  assert (Hy0 : 0 <= y).
  { unfold y.
    repeat match goal with
    | H : is_digit ?c = true |- _ => apply digit_val_range in H
    end. lia. }
  pose proof (two_range d1 d2 Hd1 Hd2) as Hd.
  repeat split; try lia. intros Hday.
  assert (Hms : Spec.minutes_seconds Spec.fraction
                  (String n1 (String n2 (String ":" (String s1 (String s2 rest)))))
                = true).
  { unfold Spec.minutes_seconds. rewrite_digits. rewrite Hfrac.
    cbn [andb Ascii.eqb Bool.eqb].
    rewrite !andb_true_iff, !Z.ltb_lt. auto. }
  unfold Spec.lenient_timestamp, Spec.date_part.
  destruct Hcase as [(h2 & -> & Hh2 & ->) | (-> & Hnd & ->)].
  - cbv beta iota. fold y. rewrite_digits. rewrite Hms.
    cbn [andb Ascii.eqb Bool.eqb].
    rewrite !andb_true_iff, !Z.leb_le, !Z.ltb_lt. repeat split; lia.
  - (* an hour of one digit *)
    cbv beta iota. fold y.
    change (is_digit ":") with false. cbv beta iota.
    rewrite_digits. rewrite Hms.
    cbn [andb Ascii.eqb Bool.eqb].
    rewrite !andb_true_iff, !Z.leb_le. repeat split; lia.
Qed.

Lemma parse_ok_lenient (s : string) (t : Time) :
  Parse utils.inputLayout s = Ok t -> Spec.lenient_timestamp s = true.
Proof.
  unfold Parse, parse. intros H.
  destruct (parseChunks _ _ _ _ _) as [[f v] |] eqn:E; [| discriminate H].
  destruct (parseChunks_ok_lenient _ _ _ _ E) as (Hy & Hm & Hd & Hl).
  replace (f_month f <? 0) with false in H by (symmetry; apply Z.ltb_ge; lia).
  replace (f_day f <? 0) with false in H by (symmetry; apply Z.ltb_ge; lia).
  destruct (f_day f <? 1) eqn:H1; [discriminate H |].
  destruct (daysIn (f_month f) (f_year f) <? f_day f) eqn:H2;
    [discriminate H |].
  rewrite daysIn_days_in_month in H2 by assumption.
  to_Z. apply Hl. lia.
Qed.

(** Every failure of [parse] is a [ParseError] for the layout and the
    value. *)
Lemma parseStd_error (L V stdstr : string) (s nxt : std) (f : fields)
    (v : string) (e : error) :
  parseStd L V stdstr s nxt f v = Err e ->
  exists le ve msg, e = ParseError L V le ve msg.
Proof.
  unfold parseStd, bad, outOfRange. intros H.
  destruct s;
    repeat match type of H with
    | Ok _ = Err _ => discriminate H
    | Err _ = Err _ => injection H as <-; eauto
    | context [match ?x with _ => _ end] => destruct x
    end.
Qed.

Lemma parseChunks_error (L V : string) (cs : list chunk) (f : fields)
    (v : string) (e : error) :
  parseChunks L V cs f v = Err e ->
  exists le ve msg, e = ParseError L V le ve msg.
Proof.
  revert f v. induction cs as [| c cs IH]; intros f v H; [discriminate H |].
  cbn [parseChunks] in H.
  destruct (skip v (c_prefix c)) as [v1 |]; [| injection H as <-; eauto].
  destruct (c_std c) eqn:Hs;
    try (destruct (parseStd _ _ _ _ _ _ _) as [[f' v'] |] eqn:E;
         [ apply (IH _ _ H)
         | injection H as <-; apply (parseStd_error _ _ _ _ _ _ _ _ E) ]).
  destruct (negb _); [injection H as <-; eauto | discriminate H].
Qed.

Lemma Parse_error (L V : string) (e : error) :
  Parse L V = Err e -> exists le ve msg, e = ParseError L V le ve msg.
Proof.
  unfold Parse, parse. intros H.
  destruct (parseChunks _ _ _ _ _) as [[f v] |] eqn:E.
  - destruct (_ || _); [injection H as <-; eauto | discriminate H].
  - injection H as <-. apply (parseChunks_error _ _ _ _ _ _ E).
Qed.

End ParseFacts.

(** ** Facts about the loop of [bulkIndex] *)
Module BulkFacts.
Import Main Spec.
Local Open Scope list_scope.

Lemma append_assoc (a b c : string) : ((a ++ b) ++ c = a ++ (b ++ c))%string.
Proof. induction a as [| x a IH]; cbn; [reflexivity | now rewrite IH]. Qed.

Lemma append_nil_r (a : string) : (a ++ "")%string = a.
Proof. induction a as [| x a IH]; cbn; [reflexivity | now rewrite IH]. Qed.

Lemma payload_app (env : Env) (l1 l2 : list Article) :
  payload env (l1 ++ l2) = (payload env l1 ++ payload env l2)%string.
Proof.
  induction l1 as [| a l1 IH]; cbn [payload app]; [reflexivity |].
  now rewrite IH, append_assoc.
Qed.

Lemma record_renders (env : Env) (a : Article) (d body : string) :
  utils.NormalizeToESDate (PublicationDate a) = Ok d ->
  Marshal env (doc a d) = Ok body ->
  record env a = (meta (ID a) ++ body ++ nl)%string.
Proof. intros Hd Hb. unfold record. now rewrite Hd, Hb. Qed.

Lemma meta_not_empty (id rest : string) :
  String.length (meta id ++ rest)%string <> 0%nat.
Proof. cbn. discriminate. Qed.

Lemma payload_not_empty (env : Env) (a : Article) (l : list Article) :
  renders env a -> String.length (payload env (a :: l)) <> 0%nat.
Proof.
  intros (d & body & Hd & Hb). cbn [payload].
  rewrite (record_renders _ _ _ _ Hd Hb), append_assoc.
  apply meta_not_empty.
Qed.

Lemma flushBulk_empty (env : Env) (tr : trace) :
  flushBulk env "" tr = (Ok tt, "", tr).
Proof. reflexivity. Qed.

Lemma scanItem_none (it : bulkItem) :
  has_error it = false -> scanItem it = None.
Proof.
  unfold has_error.
  induction it as [| [key action] it IH]; cbn [existsb scanItem snd];
    [reflexivity |].
  destruct (Error action); [discriminate | exact IH].
Qed.

Lemma scanItem_some (it : bulkItem) :
  has_error it = true -> exists d, scanItem it = Some d /\ first_error it d.
Proof.
  unfold has_error.
  induction it as [| [key action] it IH]; cbn [existsb scanItem snd];
    [discriminate |].
  destruct (Error action) as [d |] eqn:Ed.
  - intros _. exists d. split; [reflexivity |].
    exists [], key, action, it. repeat split; [constructor | exact Ed].
  - intros H. destruct (IH H) as (d & Hs & before & k & a & after & -> & Hb & Ha).
    exists d. split; [exact Hs |].
    exists ((key, action) :: before), k, a, after.
    repeat split; [constructor; assumption | exact Ha].
Qed.

Lemma scanItems_none (items : list bulkItem) :
  existsb has_error items = false -> scanItems items = None.
Proof.
  induction items as [| it items IH]; cbn [existsb scanItems]; [reflexivity |].
  intros H. apply orb_false_iff in H. destruct H as [Hit Hrest].
  rewrite (scanItem_none _ Hit). exact (IH Hrest).
Qed.

(** The scan stops at the first item with an error: what follows that item
    does not matter. *)
Lemma scanItems_first (items : list bulkItem) :
  existsb has_error items = true ->
  exists pre it post d,
    items = pre ++ it :: post /\
    existsb has_error pre = false /\
    first_error it d /\
    forall post', scanItems (pre ++ it :: post') = Some d.
Proof.
  induction items as [| it items IH]; cbn [existsb]; [discriminate |].
  destruct (has_error it) eqn:Hit; cbn [orb].
  - intros _. destruct (scanItem_some _ Hit) as (d & Hs & Hd).
    exists [], it, items, d. repeat split; [exact Hd |].
    intros post'. cbn [app scanItems]. now rewrite Hs.
  - intros H. destruct (IH H) as (pre & it' & post & d & -> & Hpre & Hd & Hind).
    exists (it :: pre), it', post, d. repeat split.
    + cbn [existsb]. now rewrite Hit, Hpre.
    + exact Hd.
    + intros post'. cbn [app scanItems].
      rewrite (scanItem_none _ Hit). apply Hind.
Qed.

Lemma flushBulk_decoded (env : Env) (buf : string) (tr : trace)
    (resp : bulkResp) :
  String.length buf <> 0%nat ->
  Bulk_reply env tr buf = ReplyDecoded resp ->
  flushBulk env buf tr
  = match (if Errors resp then scanItems (Items resp) else None) with
    | Some e => (Err (BulkItemFailed e), buf, emit tr (EvBulk buf))
    | None => (Ok tt, ""%string, emit tr (EvBulk buf))
    end.
Proof.
  intros Hlen Hreply. unfold flushBulk.
  destruct (Nat.eqb_spec (String.length buf) 0) as [E | _]; [contradiction |].
  now rewrite Hreply.
Qed.

Lemma flushBulk_accepted (env : Env) (buf : string) (tr : trace) :
  String.length buf <> 0%nat ->
  accepted (Bulk_reply env tr buf) = true ->
  flushBulk env buf tr = (Ok tt, ""%string, emit tr (EvBulk buf)).
Proof.
  intros Hlen Hacc. unfold accepted in Hacc.
  destruct (Bulk_reply env tr buf) as [e | e | resp] eqn:Hreply;
    try discriminate Hacc.
  rewrite (flushBulk_decoded env buf tr resp Hlen Hreply).
  destruct (Errors resp); [| reflexivity].
  cbn [andb] in Hacc. apply negb_true_iff in Hacc.
  now rewrite (scanItems_none _ Hacc).
Qed.

(** The test at the end of a turn, by the number of records in the
    buffer. *)
Lemma flush_test (B i k p : Z) :
  0 < B -> 0 <= k -> 0 <= p < B -> i = k * B + p ->
  (Z.rem (i + 1) B =? 0) = (p + 1 =? B).
Proof.
  intros HB Hk Hp ->.
  rewrite Z.rem_mod_nonneg by nia.
  destruct (Z.eqb_spec (p + 1) B) as [E | E].
  - replace (k * B + p + 1) with ((k + 1) * B) by lia.
    rewrite Z.mod_mul by lia. reflexivity.
  - replace (k * B + p + 1) with (p + 1 + k * B) by lia.
    rewrite Z.mod_add, Z.mod_small by lia.
    apply Z.eqb_neq. lia.
Qed.

Section loop.
Variable env : Env.
Variable B : Z.
Hypothesis HB : 0 < B.
Hypothesis Hacc : accepts_all env.

(** The loop over records that all render: it submits the full batches
    and keeps the records of the last, partial batch in the buffer.
    [pending] are the records in the buffer at the start. *)
Lemma bulkLoop_renders (pre rest pending : list Article) (i k : Z)
    (tr : trace) :
  Forall (renders env) pending -> Forall (renders env) pre ->
  0 <= k -> Z.of_nat (List.length pending) < B ->
  i = k * B + Z.of_nat (List.length pending) ->
  exists full last k',
    bulkLoop env B i (pre ++ rest) (payload env pending) tr
    = bulkLoop env B (i + Z.of_nat (List.length pre)) rest (payload env last)
        (tr ++ submissions env full)%list /\
    (List.concat full ++ last = pending ++ pre)%list /\
    Forall (fun b => Z.of_nat (List.length b) = B) full /\
    Forall (renders env) last /\
    Z.of_nat (List.length last) < B /\ 0 <= k' /\
    i + Z.of_nat (List.length pre) = k' * B + Z.of_nat (List.length last).
Proof.
  revert pending i k tr.
  induction pre as [| a pre IH]; intros pending i k tr Hpend Hpre Hk Hp Hi.
  - exists [], pending, k. cbn [app List.length submissions map List.concat].
    rewrite Z.add_0_r, !app_nil_r.
    repeat split; try assumption; try reflexivity; constructor.
  - apply Forall_cons_iff in Hpre. destruct Hpre as [Ha Hpre'].
    destruct Ha as (d & body & Hd & Hb).
    assert (Hrec : ((payload env pending ++ meta (ID a)) ++ body ++ nl)%string
                   = payload env (pending ++ [a])).
    { rewrite payload_app. cbn [payload].
      rewrite (record_renders _ _ _ _ Hd Hb), append_nil_r, append_assoc.
      reflexivity. }
    assert (Hpend' : Forall (renders env) (pending ++ [a])).
    { apply Forall_app. split; [assumption |].
      constructor; [exists d, body; auto | constructor]. }
    cbn [app bulkLoop]. rewrite Hd, Hb, Hrec.
    rewrite (flush_test B i k (Z.of_nat (List.length pending))) by lia.
    destruct (Z.eqb_spec (Z.of_nat (List.length pending) + 1) B) as [E | E].
    + (* the batch is full *)
      rewrite flushBulk_accepted;
        [| destruct pending; apply payload_not_empty;
           [exists d, body; auto
           | apply Forall_cons_iff in Hpend; apply Hpend]
         | apply Hacc ].
      cbv beta iota.
      destruct (IH [] (i + 1) (k + 1) (emit tr (EvBulk (payload env (pending ++ [a])))))
        as (full & last & k' & Hrun & Hcat & Hfull & Hlast & Hlt & Hk' & Hi');
        try assumption; try constructor; cbn [List.length]; try lia.
      exists ((pending ++ [a]) :: full), last, k'.
      cbn [payload] in Hrun. rewrite Hrun.
      repeat split; try assumption.
      * f_equal; [lia |].
        unfold emit. cbn [submissions map]. rewrite <- app_assoc. reflexivity.
      * cbn [List.concat]. rewrite <- !app_assoc. cbn [app] in *.
        now rewrite Hcat.
      * constructor; [| assumption]. rewrite List.length_app. cbn [List.length]. lia.
      * cbn [List.length]. lia.
    + destruct (IH (pending ++ [a]) (i + 1) k tr)
        as (full & last & k' & Hrun & Hcat & Hfull & Hlast & Hlt & Hk' & Hi');
        try assumption; rewrite ?List.length_app; cbn [List.length]; try lia.
      exists full, last, k'. rewrite Hrun.
      repeat split; try assumption.
      * f_equal. lia.
      * rewrite Hcat, <- app_assoc. reflexivity.
      * cbn [List.length]. lia.
Qed.
End loop.

Lemma length_concat_full (B : Z) (full : list (list Article)) :
  Forall (fun b => Z.of_nat (List.length b) = B) full ->
  Z.of_nat (List.length (List.concat full)) = B * Z.of_nat (List.length full).
Proof.
  induction 1 as [| b full Hb _ IH]; cbn [List.concat List.length]; [lia |].
  rewrite List.length_app. lia.
Qed.

Lemma Forall_removelast {A} (P : A -> Prop) (l : list A) :
  Forall P l -> Forall P (removelast l).
Proof.
  induction 1 as [| x l Hx Hl IH]; cbn [removelast]; [constructor |].
  destruct l; [constructor | constructor; assumption].
Qed.

Lemma ceil_div_exact (B q : Z) : 0 < B -> ceil_div (q * B) B = q.
Proof.
  intros HB. unfold ceil_div. symmetry.
  apply (Z.div_unique _ _ q (B - 1)); lia.
Qed.

Lemma ceil_div_partial (B q r : Z) :
  0 < r < B -> ceil_div (q * B + r) B = q + 1.
Proof.
  intros Hr. unfold ceil_div. symmetry.
  apply (Z.div_unique _ _ (q + 1) (r - 1)); lia.
Qed.

(** *** Traces only grow *)





End BulkFacts.

(** ** Facts about the recogniser of JSON texts *)
Module JsonFacts.
Import Json.

(** More fuel does not change what [scan] finds. *)
Lemma scan_step (fuel : nat) (m : mode) (s r : string) :
  scan fuel m s = Some r -> scan (S fuel) m s = Some r.
Proof.
  revert m s r. induction fuel as [| f IH]; intros m s r H; [discriminate H |].
  pose (g := S f). change (scan (S g) m s = Some r).
  assert (IH' : forall m s r, scan f m s = Some r -> scan g m s = Some r)
    by exact IH.
  clearbody g. clear IH.
  destruct m; cbn [scan] in H |- *;
    repeat match goal with
    | E : scan f ?m ?s = Some ?r |- _ => apply IH' in E; rewrite E
    | H : match ?x with _ => _ end = Some _ |- _ =>
        destruct x eqn:?; try discriminate H
    end;
    assumption || reflexivity.
Qed.

Lemma scan_more (fuel fuel' : nat) (m : mode) (s r : string) :
  (fuel <= fuel')%nat -> scan fuel m s = Some r -> scan fuel' m s = Some r.
Proof.
  induction 1 as [| fuel' _ IH]; intros H; [exact H |].
  apply scan_step, IH, H.
Qed.

Lemma scan_string_safe (id rest : string) :
  Spec.safe_id id = true ->
  scan_string (id ++ String (ascii_of_nat 34) rest) = Some rest.
Proof.
  induction id as [| c id IH]; cbn [Spec.safe_id append scan_string].
  - intros _. reflexivity.
  - intros H. apply andb_true_iff in H. destruct H as [H Hid].
    apply andb_true_iff in H. destruct H as [H H3].
    apply andb_true_iff in H. destruct H as [H1 H2].
    apply negb_true_iff in H1, H2, H3. rewrite H1, H2, H3. exact (IH Hid).
Qed.

Lemma has_newline_app (a b : string) :
  has_newline (a ++ b) = has_newline a || has_newline b.
Proof.
  induction a as [| c a IH]; cbn [append has_newline]; [reflexivity |].
  now rewrite IH, orb_assoc.
Qed.

Lemma safe_id_no_newline (id : string) :
  Spec.safe_id id = true -> has_newline id = false.
Proof.
  induction id as [| c id IH]; cbn [Spec.safe_id has_newline]; [reflexivity |].
  intros H. apply andb_true_iff in H. destruct H as [H Hid].
  apply andb_true_iff in H. destruct H as [_ H3].
  apply negb_true_iff, Z.ltb_ge in H3.
  rewrite (IH Hid), orb_false_r. apply Z.eqb_neq. lia.
Qed.

Lemma split_last_app (s : string) (c : ascii) :
  split_last (s ++ String c "") = Some (s, c).
Proof.
  induction s as [| x s IH]; cbn [append split_last]; [reflexivity |].
  now rewrite IH.
Qed.

Lemma length_app (a b : string) :
  String.length (a ++ b) = (String.length a + String.length b)%nat.
Proof. induction a as [| x a IH]; cbn; [reflexivity | now rewrite IH]. Qed.

Lemma meta_interpolates (id : string) :
  Main.meta id = Spec.meta_prefix ++ id ++ Spec.meta_suffix.
Proof. reflexivity. Qed.

(** The line without its newline. *)
Lemma meta_body (id : string) :
  Main.meta id
  = (Spec.meta_prefix ++ id ++ dq ++ " } }") ++ String (ascii_of_nat 10) "".
Proof.
  rewrite meta_interpolates. unfold Spec.meta_suffix, nl.
  now rewrite !BulkFacts.append_assoc.
Qed.

Lemma scan_meta_body (id : string) :
  Spec.safe_id id = true ->
  scan 7 MValue (Spec.meta_prefix ++ id ++ dq ++ " } }") = Some "".
Proof.
  intros H. cbn. rewrite (scan_string_safe id _ H). reflexivity.
Qed.

(** A tab in the identifier: no fuel makes the line a JSON text. *)
Lemma meta_tab_never_valid (fuel : nat) :
  valid_with fuel (Main.meta Examples.tab) = false.
Proof. do 6 (destruct fuel as [| fuel]; [reflexivity |]). reflexivity. Qed.

(** A double quote in the identifier: no fuel makes the line a JSON
    text. *)
Lemma meta_quote_never_valid (fuel : nat) :
  valid_with fuel (Main.meta dq) = false.
Proof. do 6 (destruct fuel as [| fuel]; [reflexivity |]). reflexivity. Qed.

End JsonFacts.

(** * The claims *)

Import GoTime Calendar GoTimeFacts ParseFacts BulkFacts JsonFacts.

(** C4.  For every timestamp in the input pattern yyyy-MM-dd'T'HH:mm:ss (a
    date of the calendar and a time of the day, second precision, no zone),
    [NormalizeToESDate] succeeds and returns the same date and time in the
    pattern yyyy-MM-dd'T'HH:mm:ss.SSS'Z': the nineteen bytes of the input
    followed by ".000Z". *)
Theorem normalize_timestamp (s : string) :
  Spec.timestamp s = true ->
  utils.NormalizeToESDate s = Ok (s ++ ".000Z").
Proof.
  intros H. unfold Spec.timestamp, Spec.date_part, Spec.minutes_seconds in H.
  repeat (split_andb; cbv beta iota in *;
          match goal with
          | H : match ?s with EmptyString => _ | String _ _ => _ end = true |- _ =>
              destruct s; [discriminate H |]
          end).
  split_andb.
  repeat match goal with
  | H : Ascii.eqb _ _ = true |- _ => apply Ascii.eqb_eq in H; subst
  | H : Spec.empty ?s = true |- _ => destruct s; [clear H | discriminate H]
  end.
  to_Z.
  match goal with
  | H : _ <= Spec.days_in_month ?y ?m |- _ =>
      assert (Hy : 0 <= y)
        by (repeat match goal with
            | H : is_digit ?c = true |- _ =>
                apply digit_val_range in H
            end; lia);
      rewrite <- (daysIn_days_in_month y m Hy) in H by lia
  end.
  unfold utils.NormalizeToESDate, Parse, parse.
  rewrite inputLayout_chunks.
  cbn [parseChunks skip c_prefix c_std c_stdstr next_std].
  rewrite step_year by assumption. cbn [skip Ascii.eqb Bool.eqb].
  rewrite step_month by (assumption || lia). cbn [skip Ascii.eqb Bool.eqb].
  rewrite step_day by assumption. cbn [skip Ascii.eqb Bool.eqb].
  rewrite step_hour by assumption. cbn [skip Ascii.eqb Bool.eqb].
  rewrite step_minute by assumption. cbn [skip Ascii.eqb Bool.eqb].
  rewrite step_second_end by assumption. cbn [skip].
  cbn [String.length Nat.eqb negb f_year f_month f_day f_hour f_min f_sec f_nsec].
  repeat match goal with
  | |- context [?a <? ?b] =>
      replace (a <? b) with false by (symmetry; apply Z.ltb_ge; lia)
  end.
  cbn [orb].
  rewrite Format_Date; try assumption.
  - reflexivity.
  - cbn [forallb].
    repeat match goal with H : is_digit _ = true |- _ => rewrite H; clear H end.
    reflexivity.
  - unfold validDate. rewrite !andb_true_iff, !Z.leb_le. lia.
Qed.

(** The example of the specification. *)
Lemma normalize_timestamp_witness :
  Spec.timestamp "2024-01-15T10:30:00" = true /\
  utils.NormalizeToESDate "2024-01-15T10:30:00" = Ok "2024-01-15T10:30:00.000Z".
Proof.
  split; [reflexivity | apply (normalize_timestamp "2024-01-15T10:30:00"); reflexivity].
Defined.

(** A string of the same shape that names no date of the calendar, or no
    time of the day, is refused. *)
Lemma normalize_refuses_impossible_dates :
  is_ok (utils.NormalizeToESDate "2023-02-29T10:30:00") = false /\
  is_ok (utils.NormalizeToESDate "2024-13-01T10:30:00") = false /\
  is_ok (utils.NormalizeToESDate "2024-01-15T24:00:00") = false.
Proof. repeat split. Qed.

(** C5, as stated, fails: the parser of the Go library takes an hour of one
    digit for the element "15", and a fraction of a second behind the
    seconds, although neither is in the pattern yyyy-MM-dd'T'HH:mm:ss. *)
Lemma normalize_accepts_outside_pattern :
  Spec.timestamp "2024-01-15T10:30:00.5" = false /\
  utils.NormalizeToESDate "2024-01-15T10:30:00.5" = Ok "2024-01-15T10:30:00.500Z" /\
  Spec.timestamp "2024-01-15T9:30:00" = false /\
  utils.NormalizeToESDate "2024-01-15T9:30:00" = Ok "2024-01-15T09:30:00.000Z".
Proof. repeat split; vm_compute; reflexivity. Qed.

(** C5, amended.  For every input that is not a timestamp in the pattern
    yyyy-MM-dd'T'HH:mm:ss, where the hour may have one digit and a fraction
    of a second (a period or a comma and digits) may follow the seconds,
    [NormalizeToESDate] fails with a [ParseError] (the result is the empty
    string and the error is not nil); "not-a-date" is such an input. *)
Theorem normalize_rejects (s : string) :
  Spec.lenient_timestamp s = false ->
  exists layoutElem valueElem message,
    utils.NormalizeToESDate s
    = Err (ParseError utils.inputLayout s layoutElem valueElem message).
Proof.
  intros H. unfold utils.NormalizeToESDate.
  destruct (Parse utils.inputLayout s) as [t | e] eqn:E.
  - apply parse_ok_lenient in E. congruence.
  - destruct (Parse_error _ _ _ E) as (le & ve & msg & ->). eauto.
Qed.

Lemma normalize_rejects_witness :
  exists layoutElem valueElem message,
    utils.NormalizeToESDate "not-a-date"
    = Err (ParseError utils.inputLayout "not-a-date" layoutElem valueElem message).
Proof. apply (normalize_rejects "not-a-date"). reflexivity. Defined.

(** C1, as stated, fails: when the store does not take the first batch the
    pipeline stops and the later batches are never submitted.  Here 501
    articles, whose dates all normalize, lead to one submission where
    ceil(501/500) is two. *)
Lemma flushes_stop_at_rejection :
  forallb (fun a => is_ok (utils.NormalizeToESDate (PublicationDate a)))
    Examples.batch_and_one = true /\
  List.length
    (filter Spec.is_bulk
       (snd (Main.bulkIndex Examples.unreachable Examples.batch_and_one [])))
  = 1%nat /\
  Spec.ceil_div (Z.of_nat (List.length Examples.batch_and_one)) Main.bulkSize = 2.
Proof. vm_compute. repeat split. Qed.

(** C1, amended.  For every list of N articles all of whose publication
    dates normalize and whose documents serialize, and batch size B > 0,
    when the store takes every submission, the pipeline succeeds and issues
    exactly ceil(N/B) bulk submissions: they carry the articles in order,
    every submission but the last carries exactly B records, and the last
    carries N mod B records when N is not a multiple of B and B records when
    it is; no empty submission is made. *)
Theorem flushes_of_a_run (env : Env) (B : Z) (articles : list Article)
    (tr : trace) :
  0 < B ->
  Forall (Spec.renders env) articles ->
  Spec.accepts_all env ->
  let N := Z.of_nat (List.length articles) in
  exists batches : list (list Article),
    Main.bulkIndexWith env B articles tr
    = (Ok tt, (tr ++ Spec.submissions env batches)%list) /\
    List.concat batches = articles /\
    Z.of_nat (List.length batches) = Spec.ceil_div N B /\
    Forall (fun b => Z.of_nat (List.length b) = B) (removelast batches) /\
    (batches <> [] ->
     Z.of_nat (List.length (last batches []))
     = if N mod B =? 0 then B else N mod B).
Proof.
  intros HB Hren Hacc N.
  destruct (bulkLoop_renders env B HB Hacc articles [] [] 0 0 tr)
    as (full & rest & k' & Hrun & Hcat & Hfull & Hrest & Hlt & Hk' & Hi);
    try assumption; try constructor; cbn [List.length]; try lia.
  rewrite app_nil_r in Hrun. cbn [app] in Hcat.
  pose proof (length_concat_full B full Hfull) as Hlen.
  assert (HN : N = Z.of_nat (List.length full) * B + Z.of_nat (List.length rest)).
  { unfold N. rewrite <- Hcat, List.length_app. lia. }
  unfold Main.bulkIndexWith. cbn [Spec.payload] in Hrun. rewrite Hrun.
  cbn [Main.bulkLoop].
  destruct rest as [| a rest].
  - (* N is a multiple of B: the last call of flushBulk finds the buffer empty *)
    exists full. cbn [Spec.payload]. rewrite flushBulk_empty.
    rewrite app_nil_r in Hcat. cbn [List.length] in HN.
    assert (Hmod : N mod B = 0).
    { rewrite HN, Z.add_0_r. apply Z.mod_mul. lia. }
    repeat split.
    + exact Hcat.
    + rewrite HN, Z.add_0_r, ceil_div_exact by lia. reflexivity.
    + apply Forall_removelast, Hfull.
    + intros Hne. rewrite Hmod. cbn [Z.eqb].
      destruct (exists_last Hne) as (l & b & ->).
      rewrite last_last. apply Forall_app in Hfull.
      destruct Hfull as [_ Hb]. apply Forall_cons_iff in Hb. apply Hb.
  - (* the rest is submitted by the last call of flushBulk *)
    exists (full ++ [a :: rest])%list.
    rewrite flushBulk_accepted;
      [| apply payload_not_empty; apply Forall_cons_iff in Hrest; apply Hrest
       | apply Hacc ].
    assert (Hr : 0 < Z.of_nat (List.length (a :: rest)) < B)
      by (cbn [List.length] in *; lia).
    assert (Hmod : N mod B = Z.of_nat (List.length (a :: rest))).
    { rewrite HN, Z.add_comm, Z.mod_add, Z.mod_small by lia. reflexivity. }
    repeat split.
    + unfold emit, Spec.submissions. rewrite map_app, <- app_assoc. reflexivity.
    + rewrite concat_app. cbn [List.concat]. rewrite app_nil_r. exact Hcat.
    + rewrite List.length_app, HN, ceil_div_partial by lia.
      cbn [List.length]. lia.
    + rewrite removelast_last. exact Hfull.
    + intros _. rewrite last_last, Hmod.
      destruct (Z.eqb_spec (Z.of_nat (List.length (a :: rest))) 0); [lia | reflexivity].
Qed.

Lemma flushes_of_a_run_witness :
  exists batches : list (list Article),
    Main.bulkIndexWith Examples.quiet 2
      [Examples.good "1"; Examples.good "2"; Examples.good "3"] []
    = (Ok tt, ([] ++ Spec.submissions Examples.quiet batches)%list) /\
    List.concat batches
    = [Examples.good "1"; Examples.good "2"; Examples.good "3"] /\
    Z.of_nat (List.length batches) = Spec.ceil_div 3 2 /\
    Forall (fun b => Z.of_nat (List.length b) = 2) (removelast batches) /\
    (batches <> [] ->
     Z.of_nat (List.length (last batches [])) = if 3 mod 2 =? 0 then 2 else 3 mod 2).
Proof.
  apply (flushes_of_a_run Examples.quiet 2
           [Examples.good "1"; Examples.good "2"; Examples.good "3"] []).
  - lia.
  - repeat constructor;
      exists "2024-01-15T10:30:00.000Z", "{}"; split; reflexivity.
  - intros tr p. reflexivity.
Defined.

(** C3, as stated, fails: the records that were appended since the last
    full batch are in the buffer when the normalization of record k fails,
    and they are never submitted.  With B = 500 and k = 2, record 1 is
    appended, record 2 fails, and no submission is made, where
    ceil((2-1)/500) is one. *)
Lemma no_flush_of_partial_batch :
  is_ok (utils.NormalizeToESDate (PublicationDate (Examples.good "1"))) = true /\
  is_ok (utils.NormalizeToESDate (PublicationDate (Examples.undated "2"))) = false /\
  is_ok (fst (Main.bulkIndex Examples.quiet
                [Examples.good "1"; Examples.undated "2"] [])) = false /\
  filter Spec.is_bulk
    (snd (Main.bulkIndex Examples.quiet
            [Examples.good "1"; Examples.undated "2"] [])) = [] /\
  Spec.ceil_div (2 - 1) Main.bulkSize = 1.
Proof. vm_compute. repeat split. Qed.

(** C3, amended.  When the date of record k (1-indexed) fails to normalize,
    the records before it render and the store takes every submission, the
    pipeline returns the normalization error of record k, and what it has
    submitted before are exactly floor((k-1)/B) batches of B records each,
    which hold the first B * floor((k-1)/B) records in order.  Neither
    record k, nor a later record, nor the records appended since the last
    full batch are submitted. *)
Theorem flushes_before_date_failure (env : Env) (B : Z)
    (pre : list Article) (a : Article) (post : list Article) (tr : trace)
    (e : error) :
  0 < B ->
  Forall (Spec.renders env) pre ->
  Spec.accepts_all env ->
  utils.NormalizeToESDate (PublicationDate a) = Err e ->
  let k := Z.of_nat (List.length pre) + 1 in
  exists (full : list (list Article)) (unsent : list Article),
    Main.bulkIndexWith env B (pre ++ a :: post)%list tr
    = (Err e, (tr ++ Spec.submissions env full)%list) /\
    (List.concat full ++ unsent)%list = pre /\
    Forall (fun b => Z.of_nat (List.length b) = B) full /\
    Z.of_nat (List.length full) = (k - 1) / B.
Proof.
  intros HB Hren Hacc He k.
  destruct (bulkLoop_renders env B HB Hacc pre (a :: post) [] 0 0 tr)
    as (full & rest & k' & Hrun & Hcat & Hfull & Hrest & Hlt & Hk' & Hi);
    try assumption; try constructor; cbn [List.length]; try lia.
  cbn [app] in Hcat. cbn [Spec.payload] in Hrun.
  exists full, rest. unfold Main.bulkIndexWith. rewrite Hrun.
  cbn [Main.bulkLoop]. rewrite He.
  repeat split; try assumption.
  pose proof (length_concat_full B full Hfull) as Hlen.
  assert (Hk : k - 1 = Z.of_nat (List.length full) * B + Z.of_nat (List.length rest)).
  { unfold k. rewrite <- Hcat, List.length_app. lia. }
  rewrite Hk. apply (Z.div_unique _ _ _ (Z.of_nat (List.length rest))); lia.
Qed.

Lemma flushes_before_date_failure_witness :
  exists (full : list (list Article)) (unsent : list Article),
    Main.bulkIndexWith Examples.quiet 2
      ([Examples.good "1"; Examples.good "2"; Examples.good "3"]
       ++ Examples.undated "4" :: [Examples.good "5"])%list []
    = (Err (ParseError utils.inputLayout "not-a-date" "2006" "not-a-date" ""),
       ([] ++ Spec.submissions Examples.quiet full)%list) /\
    (List.concat full ++ unsent)%list
    = [Examples.good "1"; Examples.good "2"; Examples.good "3"] /\
    Forall (fun b => Z.of_nat (List.length b) = 2) full /\
    Z.of_nat (List.length full) = (3 + 1 - 1) / 2.
Proof.
  apply (flushes_before_date_failure Examples.quiet 2
           [Examples.good "1"; Examples.good "2"; Examples.good "3"]
           (Examples.undated "4") [Examples.good "5"] []).
  - lia.
  - repeat constructor;
      exists "2024-01-15T10:30:00.000Z", "{}"; split; reflexivity.
  - intros tr p. reflexivity.
  - reflexivity.
Defined.

(** C10.  For the empty list of articles the pipeline succeeds and submits
    nothing: the loop does not run, and the one call of [flushBulk] finds
    the buffer empty and returns without a request. *)
Theorem empty_run (env : Env) (B : Z) (tr : trace) :
  Main.bulkLoop env B 0 [] "" tr = (Ok tt, "", tr) /\
  Main.flushBulk env "" tr = (Ok tt, "", tr) /\
  Main.bulkIndexWith env B [] tr = (Ok tt, tr) /\
  Main.bulkIndex env [] tr = (Ok tt, tr).
Proof. repeat split. Qed.

(** C2.  When the buffer is not empty and the response to its submission
    has the errors flag set and holds an item with a non-nil error, then
    [flushBulk] fails: the items split into items without an error, the
    first item [it] with one, and the items after it; the error returned
    wraps the error detail of [it], the buffer is kept, and the items after
    [it] are not looked at (any other items in their place give the same
    result).  When the errors flag is not set, [flushBulk] succeeds whatever
    the items hold. *)
Theorem flush_item_errors (env : Env) (buf : string) (tr : trace)
    (resp : bulkResp) :
  String.length buf <> 0%nat ->
  Bulk_reply env tr buf = ReplyDecoded resp ->
  (Errors resp = true ->
   existsb Spec.has_error (Items resp) = true ->
   exists pre it post d,
     Items resp = (pre ++ it :: post)%list /\
     existsb Spec.has_error pre = false /\
     Spec.first_error it d /\
     Main.flushBulk env buf tr
     = (Err (BulkItemFailed d), buf, emit tr (EvBulk buf)) /\
     forall env' post',
       Bulk_reply env' tr buf
       = ReplyDecoded (mkBulkResp true (pre ++ it :: post')%list) ->
       Main.flushBulk env' buf tr = Main.flushBulk env buf tr) /\
  (Errors resp = false ->
   Main.flushBulk env buf tr = (Ok tt, "", emit tr (EvBulk buf))).
Proof.
  intros Hlen Hreply.
  rewrite (flushBulk_decoded env buf tr resp Hlen Hreply). split.
  - intros Herr Hex. rewrite Herr.
    destruct (scanItems_first _ Hex) as (pre & it & post & d & Hitems & Hpre & Hd & Hind).
    exists pre, it, post, d. rewrite Hitems, Hind. repeat split; try assumption.
    intros env' post' Hreply'.
    rewrite (flushBulk_decoded env' buf tr _ Hlen Hreply').
    cbn [Errors Items]. now rewrite Hind.
  - intros Herr. now rewrite Herr.
Qed.

Lemma flush_item_errors_witness :
  (Errors Examples.rejected = true ->
   existsb Spec.has_error (Items Examples.rejected) = true ->
   exists pre it post d,
     Items Examples.rejected = (pre ++ it :: post)%list /\
     existsb Spec.has_error pre = false /\
     Spec.first_error it d /\
     Main.flushBulk (Examples.answering Examples.rejected) "payload" []
     = (Err (BulkItemFailed d), "payload", emit [] (EvBulk "payload")) /\
     forall env' post',
       Bulk_reply env' [] "payload"
       = ReplyDecoded (mkBulkResp true (pre ++ it :: post')%list) ->
       Main.flushBulk env' "payload" []
       = Main.flushBulk (Examples.answering Examples.rejected) "payload" []) /\
  (Errors Examples.rejected = false ->
   Main.flushBulk (Examples.answering Examples.rejected) "payload" []
   = (Ok tt, "", emit [] (EvBulk "payload"))).
Proof.
  apply (flush_item_errors (Examples.answering Examples.rejected) "payload" []
           Examples.rejected).
  - discriminate.
  - reflexivity.
Defined.

(** C8.  When the response has the errors flag set but no item of it has a
    non-nil error, [flushBulk] succeeds: it returns no error and resets the
    buffer, exactly as for the same response with the errors flag not
    set. *)
Theorem flush_flag_without_item_error (env : Env) (buf : string) (tr : trace)
    (items : list bulkItem) :
  String.length buf <> 0%nat ->
  Bulk_reply env tr buf = ReplyDecoded (mkBulkResp true items) ->
  existsb Spec.has_error items = false ->
  Main.flushBulk env buf tr = (Ok tt, "", emit tr (EvBulk buf)) /\
  forall env',
    Bulk_reply env' tr buf = ReplyDecoded (mkBulkResp false items) ->
    Main.flushBulk env' buf tr = Main.flushBulk env buf tr.
Proof.
  intros Hlen Hreply Hnone.
  rewrite (flushBulk_decoded env buf tr _ Hlen Hreply). cbn [Errors Items].
  rewrite (scanItems_none _ Hnone). split; [reflexivity |].
  intros env' Hreply'. now rewrite (flushBulk_decoded env' buf tr _ Hlen Hreply').
Qed.

Lemma flush_flag_without_item_error_witness :
  Main.flushBulk (Examples.answering Examples.flagged) "payload" []
  = (Ok tt, "", emit [] (EvBulk "payload")) /\
  forall env',
    Bulk_reply env' [] "payload"
    = ReplyDecoded (mkBulkResp false (Items Examples.flagged)) ->
    Main.flushBulk env' "payload" []
    = Main.flushBulk (Examples.answering Examples.flagged) "payload" [].
Proof.
  apply (flush_flag_without_item_error (Examples.answering Examples.flagged)
           "payload" [] (Items Examples.flagged)).
  - discriminate.
  - reflexivity.
  - reflexivity.
Defined.

(** C9, as stated, fails in both directions.  A tab is neither a double
    quote, nor a backslash, nor a newline, yet a JSON string must not hold
    it unescaped: for the identifier that is one tab the line is not a JSON
    object.  And an identifier of two backslashes, which the precondition
    excludes, gives a line that is a JSON object (the identifier is read as
    one escaped backslash). *)
Lemma plain_id_misses_control_bytes :
  Spec.plain_id Examples.tab = true /\
  Json.object_line (Main.meta Examples.tab) = false /\
  Spec.plain_id (Examples.backslash ++ Examples.backslash) = false /\
  Json.object_line (Main.meta (Examples.backslash ++ Examples.backslash)) = true.
Proof. repeat split; vm_compute; reflexivity. Qed.

(** C9, amended.  The action-metadata line is the fixed text with the
    identifier put in as it is, without JSON escaping.  The line is one
    JSON object on one line, followed by the newline, whenever the
    identifier holds no double quote, no backslash and no control byte
    (below 0x20, the newline among them).  For the identifier that is one
    double quote the line is not a JSON object. *)
Theorem meta_line_is_json_for_safe_ids :
  (forall id, Main.meta id = Spec.meta_prefix ++ id ++ Spec.meta_suffix) /\
  (forall id, Spec.safe_id id = true -> Json.object_line (Main.meta id) = true) /\
  (Spec.safe_id dq = false /\
   Json.object_line (Main.meta dq) = false /\
   forall fuel, Json.valid_with fuel (Main.meta dq) = false).
Proof.
  split; [exact meta_interpolates |]. split.
  - intros id H. unfold Json.object_line.
    rewrite meta_body, split_last_app.
    assert (Hnl : Json.has_newline (Spec.meta_prefix ++ id ++ dq ++ " } }") = false).
    { rewrite !has_newline_app, (safe_id_no_newline id H). reflexivity. }
    rewrite Hnl. cbn [negb andb]. unfold Json.valid_object, Json.valid_with.
    assert (Hfuel : (7 <= S (String.length (Spec.meta_prefix ++ id ++ dq ++ " } }")))%nat)
      by (rewrite length_app; cbn; lia).
    rewrite (scan_more 7 _ _ _ _ Hfuel (scan_meta_body id H)). reflexivity.
  - repeat split; [apply meta_quote_never_valid].
Qed.

Lemma meta_line_is_json_for_safe_ids_witness :
  Spec.safe_id "a1b2c3" = true /\ Json.object_line (Main.meta "a1b2c3") = true.
Proof.
  split; [reflexivity |].
  apply (proj1 (proj2 meta_line_is_json_for_safe_ids) "a1b2c3"). reflexivity.
Defined.

(** C7.  When the existence check answers with status 200,
    [createMappingsSettings] returns success at once: the existence check is
    all that it does to the outside world, and no create-index request is
    made.  It makes the create request only after an existence check that
    answered with another status.  Both hold for [main.go] and for
    [cmd/main.go], for every index name. *)
Theorem no_create_when_index_exists (env : Env) (index : string) (tr : trace) :
  (forall resp,
     Exists_reply env tr index = Some resp -> StatusCode resp = 200 ->
     Main.createMappingsSettings env index tr
     = (Returned (Ok tt), emit tr (EvExists index)) /\
     Cmd.createMappingsSettings env index tr
     = (Returned (Ok tt), emit tr (EvExists index))) /\
  (exists added added',
     snd (Main.createMappingsSettings env index tr) = (tr ++ added)%list /\
     snd (Cmd.createMappingsSettings env index tr) = (tr ++ added')%list /\
     (existsb Spec.is_create added || existsb Spec.is_create added' = true ->
      exists resp,
        Exists_reply env tr index = Some resp /\ StatusCode resp <> 200)).
Proof.
  split.
  - intros resp Hex Hst.
    unfold Main.createMappingsSettings, Cmd.createMappingsSettings.
    rewrite Hex, Hst. split; reflexivity.
  - unfold Main.createMappingsSettings, Cmd.createMappingsSettings, emit.
    destruct (Exists_reply env tr index) as [resp |].
    + destruct (Z.eqb_spec (StatusCode resp) 200) as [E | E].
      * exists [EvExists index], [EvExists index].
        repeat split. cbn. discriminate.
      * destruct (Create_reply env _ index settingsAndmappings) as [res |];
          destruct (Create_reply env _ index mapping) as [res' |];
          try destruct (IsError res); try destruct (IsError res');
          cbn [snd]; rewrite <- ?app_assoc;
          do 2 eexists; (split; [reflexivity |]); (split; [reflexivity |]);
          intros _; exists resp; split; (reflexivity || assumption).
    + exists [EvExists index], [EvExists index].
      repeat split. cbn. discriminate.
Qed.

Lemma no_create_when_index_exists_witness :
  Main.createMappingsSettings Examples.quiet Main.indexName []
  = (Returned (Ok tt), emit [] (EvExists Main.indexName)) /\
  Cmd.createMappingsSettings Examples.quiet Main.indexName []
  = (Returned (Ok tt), emit [] (EvExists Main.indexName)).
Proof.
  apply (proj1 (no_create_when_index_exists Examples.quiet Main.indexName [])
           (mkResponse 200 "200 OK" "[200 OK]")); reflexivity.
Defined.

(** * Further properties of the code *)

(** ** Facts about runs of [bulkIndex] with any store *)
Module RunFacts.
Import Main Spec Runs.
Local Open Scope list_scope.

Lemma accepted_scan (resp : bulkResp) :
  accepted (ReplyDecoded resp)
  = match (if Errors resp then scanItems (Items resp) else None) with
    | Some _ => false
    | None => true
    end.
Proof.
  unfold accepted. destruct (Errors resp); [| reflexivity]. cbn [andb].
  destruct (existsb has_error (Items resp)) eqn:E.
  - destruct (scanItems_first _ E) as (pre & it & post & d & Hitems & _ & _ & Hscan).
    rewrite Hitems, Hscan. reflexivity.
  - now rewrite (scanItems_none _ E).
Qed.

(** The three ways in which [flushBulk] ends. *)
Lemma flushBulk_cases (env : Env) (buf : string) (tr : trace) :
  (String.length buf = 0%nat /\ flushBulk env buf tr = (Ok tt, buf, tr))
  \/ (String.length buf <> 0%nat /\
      accepted (Bulk_reply env tr buf) = true /\
      flushBulk env buf tr = (Ok tt, ""%string, emit tr (EvBulk buf)))
  \/ (String.length buf <> 0%nat /\
      accepted (Bulk_reply env tr buf) = false /\
      exists e, flushBulk env buf tr = (Err e, buf, emit tr (EvBulk buf))).
Proof.
  unfold flushBulk.
  destruct (Nat.eqb_spec (String.length buf) 0) as [E | E]; [left; auto |].
  right. destruct (Bulk_reply env tr buf) as [e | e | resp].
  - right. repeat split; eauto.
  - right. repeat split; eauto.
  - rewrite accepted_scan.
    destruct (if Errors resp then scanItems (Items resp) else None) as [d |].
    + right. repeat split; eauto.
    + left. repeat split; assumption.
Qed.

Lemma chain_app (env : Env) (tr a1 a2 : trace) (ok : bool) :
  chain env tr a1 true -> chain env (tr ++ a1) a2 ok ->
  chain env tr (a1 ++ a2) ok.
Proof.
  revert tr. induction a1 as [| e a1 IH]; intros tr H1 H2.
  - now rewrite app_nil_r in H2.
  - cbn [chain app] in *. destruct H1 as (p & -> & Hlen & H1).
    exists p. repeat split; [assumption |].
    destruct (accepted (Bulk_reply env tr p)).
    + apply IH; [assumption |]. unfold emit. now rewrite <- app_assoc.
    + destruct H1 as [_ H1]. discriminate H1.
Qed.

Lemma flushBulk_chain (env : Env) (buf : string) (tr : trace) :
  exists r buf' added,
    flushBulk env buf tr = (r, buf', tr ++ added) /\
    chain env tr added (is_ok r) /\
    (is_ok r = true -> buf' = ""%string \/ (buf' = buf /\ added = [])).
Proof.
  destruct (flushBulk_cases env buf tr)
    as [(Hlen & ->) | [(Hlen & Hacc & ->) | (Hlen & Hacc & e & ->)]].
  - exists (Ok tt), buf, []. rewrite app_nil_r. cbn. auto.
  - exists (Ok tt), ""%string, [EvBulk buf]. repeat split; [| auto].
    cbn [chain]. exists buf. rewrite Hacc. cbn. auto.
  - exists (Err e), buf, [EvBulk buf]. repeat split; [| discriminate].
    cbn [chain]. exists buf. rewrite Hacc. cbn. auto.
Qed.

Lemma bulkLoop_chain (env : Env) (B : Z) (articles : list Article) :
  forall i buf tr,
  exists r buf' added,
    bulkLoop env B i articles buf tr = (r, buf', tr ++ added) /\
    chain env tr added (is_ok r) /\
    (is_ok r = true -> Forall (renders env) articles).
Proof.
  induction articles as [| a rest IH]; intros i buf tr; cbn [bulkLoop].
  - exists (Ok tt), buf, []. rewrite app_nil_r. cbn. auto.
  - destruct (utils.NormalizeToESDate (PublicationDate a)) as [d | e] eqn:Hd.
    2:{ exists (Err e), buf, []. rewrite app_nil_r. cbn.
        repeat split; (discriminate || auto). }
    destruct (Marshal env (doc a d)) as [body | e] eqn:Hb.
    2:{ eexists (Err e), _, []. rewrite app_nil_r. cbn.
        repeat split; (discriminate || auto). }
    assert (Ha : renders env a) by (exists d, body; auto).
    destruct (Z.rem (i + 1) B =? 0).
    + match goal with
      | |- context [flushBulk env ?b tr] =>
          destruct (flushBulk_chain env b tr) as (r & buf' & added & Hf & Hc & _)
      end.
      rewrite Hf. destruct r as [u | e].
      * destruct (IH (i + 1) buf' (tr ++ added))
          as (r' & buf'' & added' & Hl & Hc' & Hr').
        exists r', buf'', (added ++ added'). rewrite Hl, app_assoc.
        repeat split.
        -- apply chain_app; assumption.
        -- intros Hok. constructor; auto.
      * exists (Err e), buf', added. repeat split; (discriminate || assumption).
    + destruct (IH (i + 1) ((buf ++ meta (ID a)) ++ body ++ nl)%string tr)
        as (r' & buf'' & added' & Hl & Hc' & Hr').
      exists r', buf'', added'. rewrite Hl.
      repeat split; [assumption |]. intros Hok. constructor; auto.
Qed.

Lemma bulkIndexWith_chain (env : Env) (B : Z) (articles : list Article)
    (tr : trace) :
  exists r added,
    bulkIndexWith env B articles tr = (r, tr ++ added) /\
    chain env tr added (is_ok r) /\
    (is_ok r = true -> Forall (renders env) articles).
Proof.
  unfold bulkIndexWith.
  destruct (bulkLoop_chain env B articles 0 ""%string tr)
    as (r & buf & added & Hl & Hc & Hr).
  rewrite Hl. destruct r as [u | e].
  - destruct (flushBulk_chain env buf (tr ++ added))
      as (r' & buf' & added' & Hf & Hc' & _).
    rewrite Hf. exists r', (added ++ added'). rewrite app_assoc.
    repeat split; [apply chain_app; assumption |].
    intros _. apply Hr. reflexivity.
  - exists (Err e), added. repeat split; (discriminate || assumption).
Qed.

(** What a [chain] says event by event. *)
Lemma chain_events (env : Env) (tr added : trace) (ok : bool) :
  chain env tr added ok ->
  forall l1 e l2, added = l1 ++ e :: l2 ->
  exists p,
    e = EvBulk p /\ String.length p <> 0%nat /\
    (accepted (Bulk_reply env (tr ++ l1) p) = false -> l2 = [] /\ ok = false).
Proof.
  revert tr. induction added as [| x added IH]; intros tr H l1 e l2 Heq.
  - destruct l1; discriminate Heq.
  - cbn [chain] in H. destruct H as (p & -> & Hlen & H).
    destruct l1 as [| y l1]; cbn [app] in Heq; injection Heq as <- ->.
    + exists p. rewrite app_nil_r.
      split; [reflexivity | split; [assumption |]].
      intros Hrej. now rewrite Hrej in H.
    + destruct (accepted (Bulk_reply env tr p)).
      * destruct (IH _ H l1 e l2 eq_refl) as (q & -> & Hq & Hrej).
        exists q. unfold emit in Hrej. rewrite <- app_assoc in Hrej.
        split; [reflexivity | split; assumption].
      * destruct H as [H _]. destruct l1; discriminate H.
Qed.

Lemma bulk_bytes_submissions (env : Env) (batches : list (list Article)) :
  bulk_bytes (submissions env batches) = payload env (List.concat batches).
Proof.
  induction batches as [| b batches IH]; cbn [submissions map bulk_bytes List.concat];
    [reflexivity |].
  fold (submissions env batches). now rewrite IH, payload_app.
Qed.

(** A run in which every record renders and the store takes everything. *)
Lemma bulkIndexWith_renders (env : Env) (B : Z) (articles : list Article)
    (tr : trace) :
  0 < B -> Forall (renders env) articles -> accepts_all env ->
  exists batches,
    bulkIndexWith env B articles tr = (Ok tt, tr ++ submissions env batches) /\
    List.concat batches = articles.
Proof.
  intros HB Hren Hacc.
  destruct (bulkLoop_renders env B HB Hacc articles [] [] 0 0 tr)
    as (full & rest & k' & Hrun & Hcat & _ & Hrest & _);
    try assumption; try constructor; cbn [List.length]; try lia.
  rewrite app_nil_r in Hrun. cbn [app payload] in Hcat, Hrun.
  unfold bulkIndexWith. rewrite Hrun. cbn [bulkLoop].
  destruct rest as [| a rest].
  - exists full. cbn [payload]. rewrite flushBulk_empty.
    rewrite app_nil_r in Hcat. auto.
  - exists (full ++ [a :: rest]).
    rewrite flushBulk_accepted;
      [| apply payload_not_empty; apply Forall_cons_iff in Hrest; apply Hrest
       | apply Hacc ].
    split.
    + unfold emit, submissions. now rewrite map_app, <- app_assoc.
    + rewrite concat_app. cbn [List.concat]. now rewrite app_nil_r.
Qed.

Lemma follow_app (ph : phase) (a b : trace) :
  follow ph (a ++ b)
  = match follow ph a with
    | Some ph' => follow ph' b
    | None => None
    end.
Proof.
  revert ph. induction a as [| e a IH]; intros ph; cbn [app follow]; [reflexivity |].
  destruct (step ph e); [apply IH | reflexivity].
Qed.

Lemma chain_follow (env : Env) (tr added : trace) (ok : bool) (ph : phase) :
  chain env tr added ok -> ph = Loaded \/ ph = Submitting ->
  follow ph added = Some ph \/ follow ph added = Some Submitting.
Proof.
  revert tr ph. induction added as [| e added IH]; intros tr ph H Hph.
  - left. reflexivity.
  - cbn [chain] in H. destruct H as (p & -> & _ & H). right.
    assert (Hs : step ph (EvBulk p) = Some Submitting)
      by (destruct Hph as [-> | ->]; reflexivity).
    cbn [follow]. rewrite Hs.
    destruct (accepted (Bulk_reply env tr p)).
    + destruct (IH _ Submitting H) as [E | E]; auto.
    + destruct H as [-> _]. reflexivity.
Qed.

Lemma bulk_bytes_app (a b : trace) :
  bulk_bytes (a ++ b) = (bulk_bytes a ++ bulk_bytes b)%string.
Proof.
  induction a as [| e a IH]; cbn [app bulk_bytes]; [reflexivity |].
  destruct e; try exact IH. now rewrite IH, append_assoc.
Qed.

(** A flush that succeeds has submitted the buffer, or has left it as it
    is. *)
Lemma flushBulk_bytes (env : Env) (buf : string) (tr : trace) (u : unit)
    (buf' : string) (tr' : trace) :
  flushBulk env buf tr = (Ok u, buf', tr') ->
  exists added,
    tr' = tr ++ added /\ buf = (bulk_bytes added ++ buf')%string /\
    buf' = ""%string.
Proof.
  intros H.
  destruct (flushBulk_cases env buf tr)
    as [(Hlen & E) | [(_ & _ & E) | (_ & _ & e & E)]];
    rewrite E in H; [| | discriminate H]; injection H; intros; subst.
  - exists []. rewrite app_nil_r. repeat split.
    destruct buf'; [reflexivity | discriminate Hlen].
  - exists [EvBulk buf]. repeat split.
    cbn [bulk_bytes]. now rewrite !append_nil_r.
Qed.

(** The loop, when it succeeds, has moved the records of the articles
    into its submissions and its buffer, in order. *)
Lemma bulkLoop_bytes (env : Env) (B : Z) (articles : list Article) :
  forall i buf tr u buf' tr',
  bulkLoop env B i articles buf tr = (Ok u, buf', tr') ->
  exists added,
    tr' = tr ++ added /\
    (buf ++ payload env articles = bulk_bytes added ++ buf')%string.
Proof.
  induction articles as [| a rest IH]; intros i buf tr u buf' tr' H;
    cbn [bulkLoop payload] in *.
  - injection H; intros; subst. exists []. now rewrite app_nil_r, append_nil_r.
  - unfold record.
    destruct (utils.NormalizeToESDate (PublicationDate a)) as [d | e];
      [| discriminate H].
    destruct (Marshal env (doc a d)) as [body | e]; [| discriminate H].
    assert (Hbuf : (buf ++ (meta (ID a) ++ body ++ nl) ++ payload env rest
                    = ((buf ++ meta (ID a)) ++ body ++ nl) ++ payload env rest)%string)
      by now rewrite !append_assoc.
    rewrite Hbuf.
    destruct (Z.rem (i + 1) B =? 0).
    + destruct (flushBulk env ((buf ++ meta (ID a)) ++ body ++ nl) tr)
        as [[[u1 | e] buf1] tr1] eqn:Hf; [| discriminate H].
      destruct (flushBulk_bytes _ _ _ _ _ _ Hf) as (added1 & -> & -> & _).
      destruct (IH _ _ _ _ _ _ H) as (added2 & -> & Hrest).
      exists (added1 ++ added2). split; [now rewrite app_assoc |].
      now rewrite bulk_bytes_app, !append_assoc, Hrest.
    + apply (IH _ _ _ _ _ _ H).
Qed.

(** What the loop has submitted when it fails: nothing, or the buffer it
    started with and the records of the first articles. *)
Lemma bulkLoop_prefix (env : Env) (B : Z) (articles : list Article) :
  forall i buf tr,
  exists r buf' added,
    bulkLoop env B i articles buf tr = (r, buf', tr ++ added) /\
    (is_ok r = false ->
     bulk_bytes added = ""%string \/
     exists n,
       (n <= List.length articles)%nat /\
       Forall (renders env) (firstn n articles) /\
       bulk_bytes added = (buf ++ payload env (firstn n articles))%string).
Proof.
  induction articles as [| a rest IH]; intros i buf tr; cbn [bulkLoop].
  - exists (Ok tt), buf, []. rewrite app_nil_r. split; [reflexivity | discriminate].
  - destruct (utils.NormalizeToESDate (PublicationDate a)) as [d | e] eqn:Hd.
    2:{ exists (Err e), buf, []. rewrite app_nil_r. split; [reflexivity |].
        intros _. left. reflexivity. }
    destruct (Marshal env (doc a d)) as [body | e] eqn:Hb.
    2:{ eexists (Err e), _, []. rewrite app_nil_r. split; [reflexivity |].
        intros _. left. reflexivity. }
    assert (Hrec : ((buf ++ meta (ID a)) ++ body ++ nl = buf ++ record env a)%string).
    { unfold record. rewrite Hd, Hb. now rewrite !append_assoc. }
    assert (Hren : renders env a) by (exists d, body; auto).
    rewrite Hrec.
    assert (Hgo : forall added',
      (bulk_bytes added' = ""%string \/
       exists n,
         (n <= List.length rest)%nat /\
         Forall (renders env) (firstn n rest) /\
         bulk_bytes added'
         = ((buf ++ record env a) ++ payload env (firstn n rest))%string) ->
      bulk_bytes added' = ""%string \/
      exists n,
        (n <= List.length (a :: rest))%nat /\
        Forall (renders env) (firstn n (a :: rest)) /\
        bulk_bytes added'
        = (buf ++ payload env (firstn n (a :: rest)))%string).
    { intros added' [H0 | (n & Hn & Hf & Hbytes)]; [left; exact H0 |].
      right. exists (S n). cbn [List.length firstn payload].
      split; [lia |]. split; [constructor; assumption |].
      now rewrite Hbytes, append_assoc. }
    destruct (Z.rem (i + 1) B =? 0).
    + destruct (flushBulk_cases env (buf ++ record env a)%string tr)
        as [(Hlen & E) | [(Hlen & Hacc & E) | (Hlen & Hacc & e & E)]]; rewrite E.
      * destruct (IH (i + 1) (buf ++ record env a)%string tr)
          as (r & buf' & added & Hrun & Herr).
        exists r, buf', added. split; [exact Hrun |].
        intros Hr. apply Hgo, Herr, Hr.
      * destruct (IH (i + 1) ""%string (emit tr (EvBulk (buf ++ record env a)%string)))
          as (r & buf' & added & Hrun & Herr).
        exists r, buf', ([EvBulk (buf ++ record env a)%string] ++ added).
        split; [rewrite Hrun; unfold emit; now rewrite <- app_assoc |].
        intros Hr. right. cbn [app bulk_bytes].
        destruct (Herr Hr) as [H0 | (n & Hn & Hf & Hbytes)].
        -- exists 1%nat. cbn [List.length firstn payload].
           split; [lia |]. split; [repeat constructor; assumption |].
           now rewrite H0, !append_nil_r.
        -- exists (S n). cbn [List.length firstn payload].
           split; [lia |]. split; [constructor; assumption |].
           rewrite Hbytes. cbn [append]. now rewrite append_assoc.
      * exists (Err e), (buf ++ record env a)%string,
          [EvBulk (buf ++ record env a)%string].
        split; [reflexivity |]. intros _. right. exists 1%nat.
        cbn [List.length firstn payload bulk_bytes].
        split; [lia |]. split; [repeat constructor; assumption |].
        now rewrite !append_nil_r.
    + destruct (IH (i + 1) (buf ++ record env a)%string tr)
        as (r & buf' & added & Hrun & Herr).
      exists r, buf', added. split; [exact Hrun |].
      intros Hr. apply Hgo, Herr, Hr.
Qed.

(** A run that succeeds has submitted the records of all the articles. *)
Lemma bulkIndexWith_bytes (env : Env) (B : Z) (articles : list Article)
    (tr added : trace) (u : unit) :
  bulkIndexWith env B articles tr = (Ok u, tr ++ added) ->
  bulk_bytes added = payload env articles.
Proof.
  unfold bulkIndexWith. intros H.
  destruct (bulkLoop env B 0 articles ""%string tr) as [[[u1 | e] buf] tr1] eqn:Hl;
    [| discriminate H].
  destruct (flushBulk env buf tr1) as [[r2 buf2] tr2] eqn:Hf.
  injection H as -> ->.
  destruct (bulkLoop_bytes _ _ _ _ _ _ _ _ _ Hl) as (a1 & -> & Hb1).
  destruct (flushBulk_bytes _ _ _ _ _ _ Hf) as (a2 & Ht & -> & ->).
  rewrite <- app_assoc in Ht. apply app_inv_head in Ht. subst added.
  cbn [append] in Hb1. rewrite append_nil_r in Hb1.
  now rewrite bulk_bytes_app, Hb1.
Qed.

Lemma bulk_bytes_emit (tr : trace) (e : event) :
  is_bulk e = false -> bulk_bytes (emit tr e) = bulk_bytes tr.
Proof.
  intros H. unfold emit. rewrite bulk_bytes_app.
  destruct e; try discriminate H; cbn [bulk_bytes]; apply append_nil_r.
Qed.

(** The schema step submits nothing. *)
Lemma createMappingsSettings_no_bulk (env : Env) (index : string) (tr : trace) :
  bulk_bytes (snd (Main.createMappingsSettings env index tr)) = bulk_bytes tr.
Proof.
  unfold Main.createMappingsSettings.
  destruct (Exists_reply env tr index) as [resp |];
    [| now apply bulk_bytes_emit].
  destruct (StatusCode resp =? 200); [now apply bulk_bytes_emit |].
  destruct (Create_reply env _ index settingsAndmappings) as [res | e].
  - destruct (IsError res); cbn [snd];
      rewrite !bulk_bytes_emit by reflexivity; reflexivity.
  - cbn [snd]. rewrite !bulk_bytes_emit by reflexivity. reflexivity.
Qed.

End RunFacts.

(** ** How a run of [main] ends *)
Module AbortFacts.
Import Main Spec Runs BulkFacts RunFacts.
Local Open Scope list_scope.
















End AbortFacts.


Import RunFacts AbortFacts.



(** X1.  Whatever the store answers and whatever the articles are,
    [bulkIndex] adds nothing but bulk submissions to the trace, none of them
    with an empty payload; a submission that the store does not take is the
    last event of the run, and the run then returns an error. *)
Theorem bulkIndex_submits_until_rejected (env : Env) (B : Z)
    (articles : list Article) (tr : trace) :
  exists added,
    snd (Main.bulkIndexWith env B articles tr) = (tr ++ added)%list /\
    forall l1 e l2,
      added = (l1 ++ e :: l2)%list ->
      exists p,
        e = EvBulk p /\ String.length p <> 0%nat /\
        (Spec.accepted (Bulk_reply env (tr ++ l1)%list p) = false ->
         l2 = [] /\ is_ok (fst (Main.bulkIndexWith env B articles tr)) = false).
Proof.
  destruct (bulkIndexWith_chain env B articles tr) as (r & added & Hrun & Hc & _).
  exists added. rewrite Hrun. split; [reflexivity |].
  intros l1 e l2 Heq. exact (chain_events env tr added (is_ok r) Hc l1 e l2 Heq).
Qed.

(** X2.  When [bulkIndex] returns nil, the date of every article
    normalized and the document of every article serialized; the payloads
    of the submissions, put one after the other, are the records of all the
    articles in order: no record is lost, repeated, moved or left in the
    buffer; and every bulk submission of the run got a response that
    decoded and that did not both set the errors flag and hold an item with
    an error.  Nothing else of a response is looked at, so nil does not say
    that the store has stored the documents. *)
Theorem bulkIndex_success_is_sound (env : Env) (B : Z)
    (articles : list Article) (tr tr' : trace) (u : unit) :
  Main.bulkIndexWith env B articles tr = (Ok u, tr') ->
  Forall (Spec.renders env) articles /\
  exists added,
    tr' = (tr ++ added)%list /\
    Runs.bulk_bytes added = Spec.payload env articles /\
    forall l1 p l2,
      added = (l1 ++ EvBulk p :: l2)%list ->
      exists answer,
        Bulk_reply env (tr ++ l1)%list p = ReplyDecoded answer /\
        Errors answer && existsb Spec.has_error (Items answer) = false.
Proof.
  intros H.
  destruct (bulkIndexWith_chain env B articles tr) as (r & added & Hrun & Hc & Hr).
  rewrite Hrun in H. injection H as -> <-.
  split; [apply Hr; reflexivity |].
  exists added. split; [reflexivity |].
  split; [exact (bulkIndexWith_bytes env B articles tr added u Hrun) |].
  intros l1 p l2 Heq.
  destruct (chain_events env tr added true Hc l1 _ l2 Heq) as (q & Hq & _ & Hrej).
  injection Hq as <-. unfold Spec.accepted in Hrej.
  destruct (Bulk_reply env (tr ++ l1)%list p) as [e | e | answer];
    try (destruct (Hrej eq_refl) as [_ Hfalse]; discriminate Hfalse).
  exists answer. split; [reflexivity |].
  destruct (Errors answer && existsb Spec.has_error (Items answer));
    [| reflexivity].
  destruct (Hrej eq_refl) as [_ Hfalse]. discriminate Hfalse.
Qed.

Lemma bulkIndex_success_is_sound_witness :
  Forall (Spec.renders Examples.quiet) [Examples.good "1"] /\
  exists added,
    [EvBulk (Spec.payload Examples.quiet [Examples.good "1"])] = ([] ++ added)%list /\
    Runs.bulk_bytes added = Spec.payload Examples.quiet [Examples.good "1"] /\
    forall l1 p l2,
      added = (l1 ++ EvBulk p :: l2)%list ->
      exists answer,
        Bulk_reply Examples.quiet ([] ++ l1)%list p = ReplyDecoded answer /\
        Errors answer && existsb Spec.has_error (Items answer) = false.
Proof.
  apply (bulkIndex_success_is_sound Examples.quiet Main.bulkSize
           [Examples.good "1"] [] _ tt).
  reflexivity.
Defined.

(** X3.  When every article renders and the store takes every submission,
    the payloads that [bulkIndex] submits, put one after the other, are the
    records of all the articles in order: no record is lost, repeated or
    moved, whatever the batch size. *)
Theorem bulkIndex_submits_every_record_once (env : Env) (B : Z)
    (articles : list Article) (tr : trace) :
  0 < B ->
  Forall (Spec.renders env) articles ->
  Spec.accepts_all env ->
  exists added,
    Main.bulkIndexWith env B articles tr = (Ok tt, (tr ++ added)%list) /\
    Runs.bulk_bytes added = Spec.payload env articles.
Proof.
  intros HB Hren Hacc.
  destruct (bulkIndexWith_renders env B articles tr HB Hren Hacc)
    as (batches & Hrun & Hcat).
  exists (Spec.submissions env batches). split; [exact Hrun |].
  now rewrite bulk_bytes_submissions, Hcat.
Qed.

Lemma bulkIndex_submits_every_record_once_witness :
  exists added,
    Main.bulkIndexWith Examples.quiet 2
      [Examples.good "1"; Examples.good "2"; Examples.good "3"] []
    = (Ok tt, ([] ++ added)%list) /\
    Runs.bulk_bytes added
    = Spec.payload Examples.quiet
        [Examples.good "1"; Examples.good "2"; Examples.good "3"].
Proof.
  apply (bulkIndex_submits_every_record_once Examples.quiet 2
           [Examples.good "1"; Examples.good "2"; Examples.good "3"] []).
  - lia.
  - repeat constructor;
      exists "2024-01-15T10:30:00.000Z", "{}"; split; reflexivity.
  - intros tr p. reflexivity.
Defined.

(** X4.  When the document of record k does not serialize, while its date
    and the records before it are fine and the store takes every
    submission, [bulkIndex] returns the error of [json.Marshal]; it has
    submitted floor((k-1)/B) full batches before, and neither record k nor
    the records appended since the last full batch are submitted. *)
Theorem flushes_before_marshal_failure (env : Env) (B : Z)
    (pre : list Article) (a : Article) (post : list Article) (tr : trace)
    (d : string) (e : error) :
  0 < B ->
  Forall (Spec.renders env) pre ->
  Spec.accepts_all env ->
  utils.NormalizeToESDate (PublicationDate a) = Ok d ->
  Marshal env (Main.doc a d) = Err e ->
  exists (full : list (list Article)) (unsent : list Article),
    Main.bulkIndexWith env B (pre ++ a :: post)%list tr
    = (Err e, (tr ++ Spec.submissions env full)%list) /\
    (List.concat full ++ unsent)%list = pre /\
    Forall (fun b => Z.of_nat (List.length b) = B) full /\
    Z.of_nat (List.length full) = Z.of_nat (List.length pre) / B.
Proof.
  intros HB Hren Hacc Hd He.
  destruct (bulkLoop_renders env B HB Hacc pre (a :: post) [] 0 0 tr)
    as (full & rest & k' & Hrun & Hcat & Hfull & Hrest & Hlt & Hk' & Hi);
    try assumption; try constructor; cbn [List.length]; try lia.
  cbn [app] in Hcat. cbn [Spec.payload] in Hrun.
  exists full, rest. unfold Main.bulkIndexWith. rewrite Hrun.
  cbn [Main.bulkLoop]. rewrite Hd, He.
  repeat split; try assumption.
  pose proof (length_concat_full B full Hfull) as Hlen.
  assert (Hk : Z.of_nat (List.length pre)
               = Z.of_nat (List.length full) * B + Z.of_nat (List.length rest)).
  { rewrite <- Hcat, List.length_app. lia. }
  rewrite Hk. apply (Z.div_unique _ _ _ (Z.of_nat (List.length rest))); lia.
Qed.

Lemma flushes_before_marshal_failure_witness :
  exists (full : list (list Article)) (unsent : list Article),
    Main.bulkIndexWith Runs.no_marshal_3 2
      ([Examples.good "1"; Examples.good "2"] ++ Examples.good "3" :: [])%list []
    = (Err (MarshalError "json: unsupported value: NaN"),
       ([] ++ Spec.submissions Runs.no_marshal_3 full)%list) /\
    (List.concat full ++ unsent)%list = [Examples.good "1"; Examples.good "2"] /\
    Forall (fun b => Z.of_nat (List.length b) = 2) full /\
    Z.of_nat (List.length full) = Z.of_nat 2 / 2.
Proof.
  apply (flushes_before_marshal_failure Runs.no_marshal_3 2
           [Examples.good "1"; Examples.good "2"] (Examples.good "3") [] []
           "2024-01-15T10:30:00.000Z").
  - lia.
  - repeat constructor;
      exists "2024-01-15T10:30:00.000Z", "{}"; split; reflexivity.
  - intros tr p. reflexivity.
  - reflexivity.
  - reflexivity.
Defined.

(** X5.  Every run of [main] keeps the order of the steps: first the
    existence check, then at most one create request, then the stat and the
    read of the input file, then the bulk submissions, then one closing log
    line; a fatal log line ends the run wherever an error is found, and
    nothing follows it.  A run that ends normally or with a failure status
    has written its closing or fatal line; a run that panics stops right
    after the existence check. *)
Theorem main_keeps_the_order (env : Env) :
  Runs.follow Runs.Started (snd (Main.main env))
  = Some (Runs.last_phase (fst (Main.main env))).
Proof.
  unfold Main.main.
  destruct (NewClient env (Main.config env)) as [u | e]; [| reflexivity].
  unfold Main.createMappingsSettings.
  destruct (Exists_reply env [] Main.indexName) as [resp |]; [| reflexivity].
  assert (Hrest : forall tr0 P,
    P = match Main.loadArticles env Main.path tr0 with
        | (Err err, tr) =>
            (Main.ExitFatal,
             emit tr (EvLog FatalLevel (Some err)
                        "error while loading articles from json file"))
        | (Ok articles, tr) =>
            match Main.bulkIndex env articles tr with
            | (Err err, tr) =>
                (Main.ExitFatal,
                 emit tr (EvLog FatalLevel (Some err)
                            "error while inserting articles in es using bulk api"))
            | (Ok _, tr) =>
                (Main.ExitOK, emit tr (EvLogIndexed (List.length articles)))
            end
        end ->
    forall ph0,
    Runs.follow Runs.Started tr0 = Some ph0 ->
    ph0 = Runs.Checked \/ ph0 = Runs.Created ->
    Runs.follow Runs.Started (snd P) = Some (Runs.last_phase (fst P))).
  { intros tr0 P -> ph0 H0 Hph. unfold Main.loadArticles, emit.
    assert (Hstat : Runs.follow Runs.Started (tr0 ++ [EvStat Main.path])%list
                    = Some Runs.Statted).
    { rewrite follow_app, H0. destruct Hph as [-> | ->]; reflexivity. }
    destruct (Stat env Main.path).
    2:{ cbn [snd fst]. rewrite follow_app, Hstat. reflexivity. }
    assert (Hread : Runs.follow Runs.Started
                      ((tr0 ++ [EvStat Main.path]) ++ [EvReadFile Main.path])%list
                    = Some Runs.Loaded)
      by (rewrite follow_app, Hstat; reflexivity).
    destruct (ReadFile env Main.path) as [data |].
    2:{ cbn [snd fst]. rewrite follow_app, Hread. reflexivity. }
    destruct (Unmarshal env data) as [articles |].
    2:{ cbn [snd fst]. rewrite follow_app, Hread. reflexivity. }
    unfold Main.bulkIndex.
    destruct (bulkIndexWith_chain env Main.bulkSize articles
                ((tr0 ++ [EvStat Main.path]) ++ [EvReadFile Main.path])%list)
      as (r & added & Hrun & Hc & _).
    rewrite Hrun.
    assert (Hadd : exists ph1,
              Runs.follow Runs.Started
                (((tr0 ++ [EvStat Main.path]) ++ [EvReadFile Main.path]) ++ added)%list
              = Some ph1 /\ (ph1 = Runs.Loaded \/ ph1 = Runs.Submitting)).
    { rewrite follow_app, Hread.
      destruct (chain_follow env _ added (is_ok r) Runs.Loaded Hc) as [E | E];
        auto; rewrite E; eauto. }
    destruct Hadd as (ph1 & Hph1 & Hcase).
    destruct r; cbn [snd fst]; rewrite follow_app, Hph1;
      destruct Hcase as [-> | ->]; reflexivity. }
  unfold emit.
  destruct (StatusCode resp =? 200);
    [eapply Hrest; [reflexivity | reflexivity | auto] |].
  destruct (Create_reply env _ Main.indexName settingsAndmappings) as [res | e].
  - destruct (IsError res); eapply Hrest; (reflexivity || auto).
  - eapply Hrest; (reflexivity || auto).
Qed.

(** X6.  When [main] ends normally, the input file was read and parsed, the
    date of every article in it normalized and its document serialized, the
    bulk submissions of the run carry the records of all the articles of
    the file, in order and once each, and the closing log line reports the
    number of articles in the file. *)
Theorem main_success_reports_all (env : Env) :
  fst (Main.main env) = Main.ExitOK ->
  exists data articles tr,
    ReadFile env Main.path = Ok data /\
    Unmarshal env data = Ok articles /\
    Forall (Spec.renders env) articles /\
    Runs.bulk_bytes (snd (Main.main env)) = Spec.payload env articles /\
    snd (Main.main env) = emit tr (EvLogIndexed (List.length articles)).
Proof.
  unfold Main.main.
  destruct (NewClient env (Main.config env)) as [u | e]; [| discriminate].
  pose proof (createMappingsSettings_no_bulk env Main.indexName []) as Hschema.
  destruct (Main.createMappingsSettings env Main.indexName []) as [[r |] tr0];
    [| discriminate].
  cbn [snd Runs.bulk_bytes] in Hschema.
  unfold Main.loadArticles.
  destruct (Stat env Main.path); [| discriminate].
  destruct (ReadFile env Main.path) as [data |] eqn:Hread; [| discriminate].
  destruct (Unmarshal env data) as [articles |] eqn:Hjson; [| discriminate].
  unfold Main.bulkIndex.
  match goal with
  | |- context [Main.bulkIndexWith env ?B articles ?t] =>
      assert (Hbefore : Runs.bulk_bytes t = ""%string);
      [| destruct (bulkIndexWith_chain env B articles t)
           as (r' & added & Hrun & _ & Hr)]
  end.
  { rewrite !bulk_bytes_emit by reflexivity.
    destruct r; [exact Hschema |].
    rewrite bulk_bytes_emit by reflexivity. exact Hschema. }
  rewrite Hrun. destruct r' as [u' | e]; [| discriminate].
  intros _. exists data, articles. eexists.
  split; [reflexivity |]. split; [exact Hjson |].
  split; [apply Hr; reflexivity |].
  split; [| reflexivity].
  cbn [snd]. rewrite bulk_bytes_emit by reflexivity.
  rewrite bulk_bytes_app, Hbefore.
  exact (bulkIndexWith_bytes env _ articles _ added u' Hrun).
Qed.

Lemma main_success_reports_all_witness :
  exists data articles tr,
    ReadFile (Runs.with_articles [Examples.good "1"; Examples.good "2"]) Main.path
    = Ok data /\
    Unmarshal (Runs.with_articles [Examples.good "1"; Examples.good "2"]) data
    = Ok articles /\
    Forall (Spec.renders (Runs.with_articles [Examples.good "1"; Examples.good "2"]))
      articles /\
    Runs.bulk_bytes
      (snd (Main.main (Runs.with_articles [Examples.good "1"; Examples.good "2"])))
    = Spec.payload (Runs.with_articles [Examples.good "1"; Examples.good "2"])
        articles /\
    snd (Main.main (Runs.with_articles [Examples.good "1"; Examples.good "2"]))
    = emit tr (EvLogIndexed (List.length articles)).
Proof.
  apply (main_success_reports_all
           (Runs.with_articles [Examples.good "1"; Examples.good "2"])).
  reflexivity.
Defined.

(** X7.  When the existence check gets no response, [main] panics on the
    nil response: the existence check is the only thing that has happened;
    the index is not created, the file is not read and nothing is
    submitted or logged. *)
Theorem main_panics_without_response (env : Env) (u : unit) :
  NewClient env (Main.config env) = Ok u ->
  Exists_reply env [] Main.indexName = None ->
  Main.main env = (Main.ExitPanic, [EvExists Main.indexName]).
Proof.
  intros Hc He. unfold Main.main, Main.createMappingsSettings.
  rewrite Hc, He. reflexivity.
Qed.

Lemma main_panics_without_response_witness :
  Main.main Runs.no_response = (Main.ExitPanic, [EvExists Main.indexName]).
Proof.
  apply (main_panics_without_response Runs.no_response tt); reflexivity.
Defined.

(** X8.  [createMappingsSettings] returns an error exactly when the index
    is not reported present and the create request gets no response; the
    error is the one of the request.  When the create request is answered
    with an error status, that is only written out (an error-level log line
    in [main.go], a printed line in [cmd/main.go], both with the text of the
    response) and nil is returned: the function ends normally and the
    existence check, the create request and that line are all it has
    done. *)
Theorem create_fails_only_without_response (env : Env) (index : string)
    (tr : trace) :
  (forall e,
     fst (Main.createMappingsSettings env index tr) = Returned (Err e) <->
     exists resp,
       Exists_reply env tr index = Some resp /\ StatusCode resp <> 200 /\
       Create_reply env (emit tr (EvExists index)) index settingsAndmappings
       = Err e) /\
  (forall e,
     fst (Cmd.createMappingsSettings env index tr) = Returned (Err e) <->
     exists resp,
       Exists_reply env tr index = Some resp /\ StatusCode resp <> 200 /\
       Create_reply env (emit tr (EvExists index)) index mapping = Err e) /\
  (forall resp res,
     Exists_reply env tr index = Some resp -> StatusCode resp <> 200 ->
     Create_reply env (emit tr (EvExists index)) index settingsAndmappings
     = Ok res ->
     IsError res = true ->
     Main.createMappingsSettings env index tr
     = (Returned (Ok tt),
        (tr ++ [EvExists index; EvCreate index settingsAndmappings;
                EvLog ErrorLevel None ("error response: " ++ Text res ++ nl)])%list)) /\
  (forall resp res,
     Exists_reply env tr index = Some resp -> StatusCode resp <> 200 ->
     Create_reply env (emit tr (EvExists index)) index mapping = Ok res ->
     IsError res = true ->
     Cmd.createMappingsSettings env index tr
     = (Returned (Ok tt),
        (tr ++ [EvExists index; EvCreate index mapping;
                EvPrint ("Error response: " ++ Text res ++ nl)])%list)).
Proof.
  unfold Main.createMappingsSettings, Cmd.createMappingsSettings.
  destruct (Exists_reply env tr index) as [resp |].
  - destruct (Z.eqb_spec (StatusCode resp) 200) as [E | E].
    + repeat split;
        try discriminate;
        try (intros (r & Hr & Hn & _); congruence);
        try (intros r res Hr Hn; congruence).
    + split; [| split; [| split]].
      * intros e.
        destruct (Create_reply env _ index settingsAndmappings) as [res | e'].
        -- split; [destruct (IsError res); discriminate
                  | intros (r & _ & _ & H); discriminate H].
        -- split; [intros H; injection H as ->; eauto
                  | intros (r & _ & _ & H); injection H as ->; reflexivity].
      * intros e.
        destruct (Create_reply env _ index mapping) as [res | e'].
        -- split; [destruct (IsError res); discriminate
                  | intros (r & _ & _ & H); discriminate H].
        -- split; [intros H; injection H as ->; eauto
                  | intros (r & _ & _ & H); injection H as ->; reflexivity].
      * intros r res _ _ -> ->. unfold emit. now rewrite <- !app_assoc.
      * intros r res _ _ -> ->. unfold emit. now rewrite <- !app_assoc.
  - repeat split;
      try discriminate;
      try (intros (r & Hr & _); discriminate Hr);
      try (intros r res Hr; discriminate Hr).
Qed.

Lemma create_fails_only_without_response_witness :
  Main.createMappingsSettings Runs.refused_create Main.indexName []
  = (Returned (Ok tt),
     ([] ++ [EvExists Main.indexName;
             EvCreate Main.indexName settingsAndmappings;
             EvLog ErrorLevel None
               ("error response: "
                  ++ Text (mkResponse 400 "400 Bad Request"
                             "[400 Bad Request] resource_already_exists_exception")
                  ++ nl)])%list) /\
  Cmd.createMappingsSettings Runs.refused_create CmdMain.index []
  = (Returned (Ok tt),
     ([] ++ [EvExists CmdMain.index; EvCreate CmdMain.index mapping;
             EvPrint
               ("Error response: "
                  ++ Text (mkResponse 400 "400 Bad Request"
                             "[400 Bad Request] resource_already_exists_exception")
                  ++ nl)])%list).
Proof.
  split.
  - apply (proj1 (proj2 (proj2 (create_fails_only_without_response
                                  Runs.refused_create Main.indexName [])))
             (mkResponse 404 "404 Not Found" "[404 Not Found]"));
      (reflexivity || discriminate).
  - apply (proj2 (proj2 (proj2 (create_fails_only_without_response
                                  Runs.refused_create CmdMain.index [])))
             (mkResponse 404 "404 Not Found" "[404 Not Found]"));
      (reflexivity || discriminate).
Defined.

(** ** The loop of [loadNewsFromFile] *)
Module CmdFacts.
Import CmdMain Runs.
Local Open Scope list_scope.

Lemma index_body_ok (env : CmdEnv) (a : Article) (d : string) :
  utils.NormalizeToESDate (PublicationDate a) = Ok d ->
  match Marshal (base env) (Main.doc a d) with
  | Ok body => body
  | Err _ => ""%string
  end = index_body env a.
Proof. intros H. unfold index_body. now rewrite H. Qed.

(** Served articles are requested one by one and the loop goes on. *)
Lemma indexLoop_served (env : CmdEnv) (index : string)
    (pre rest : list Article) :
  forall tr,
  served env index tr pre ->
  indexLoop env index (pre ++ rest) tr
  = indexLoop env index rest (tr ++ index_requests env index pre).
Proof.
  induction pre as [| a pre IH]; intros tr Hs.
  - cbn. now rewrite app_nil_r.
  - cbn [served] in Hs. destruct Hs as (Hd & (res & Hr & He) & Hs).
    cbn [app indexLoop].
    destruct (utils.NormalizeToESDate (PublicationDate a)) as [d |] eqn:Ed;
      [| discriminate Hd].
    rewrite (index_body_ok env a d Ed), Hr, He, (IH _ Hs).
    unfold cmd_emit. cbn [index_requests map]. now rewrite <- app_assoc.
Qed.

(** The loop returns nil only when every article was served. *)
Lemma indexLoop_nil (env : CmdEnv) (index : string) (articles : list Article) :
  forall tr,
  fst (indexLoop env index articles tr) = None -> served env index tr articles.
Proof.
  induction articles as [| a rest IH]; intros tr H; cbn [served]; [exact I |].
  cbn [indexLoop] in H.
  destruct (utils.NormalizeToESDate (PublicationDate a)) as [d |] eqn:Ed;
    [| discriminate H].
  rewrite (index_body_ok env a d Ed) in H.
  destruct (Index_reply env tr index (ID a) (index_body env a)) as [res |] eqn:Hr;
    [| discriminate H].
  destruct (IsError res) eqn:He; [discriminate H |].
  split; [reflexivity | split; [eauto | apply IH, H]].
Qed.

(** The requests of the loop are those for the first articles. *)
Lemma indexLoop_prefix (env : CmdEnv) (index : string) (articles : list Article) :
  forall tr,
  exists n,
    (n <= List.length articles)%nat /\
    snd (indexLoop env index articles tr)
    = tr ++ index_requests env index (firstn n articles).
Proof.
  induction articles as [| a rest IH]; intros tr.
  - exists 0%nat. cbn. now rewrite app_nil_r.
  - cbn [indexLoop].
    destruct (utils.NormalizeToESDate (PublicationDate a)) as [d |] eqn:Ed.
    2:{ exists 0%nat. cbn. rewrite app_nil_r. split; [lia | reflexivity]. }
    rewrite (index_body_ok env a d Ed).
    assert (Hone : cmd_emit tr (EvIndex index (ID a) (index_body env a))
                   = tr ++ index_requests env index (firstn 1 (a :: rest)))
      by reflexivity.
    destruct (Index_reply env tr index (ID a) (index_body env a)) as [res |].
    2:{ exists 1%nat. cbn [List.length]. split; [lia | exact Hone]. }
    destruct (IsError res).
    { exists 1%nat. cbn [List.length]. split; [lia | exact Hone]. }
    destruct (IH (cmd_emit tr (EvIndex index (ID a) (index_body env a))))
      as (n & Hn & Hrun).
    exists (S n). cbn [List.length firstn index_requests map].
    split; [lia |]. rewrite Hrun. unfold cmd_emit, index_requests.
    now rewrite <- app_assoc.
Qed.

(** What [loadNewsFromFile] does once the file is read and parsed. *)
Lemma loadNewsFromFile_loaded (env : CmdEnv) (index path : string)
    (tr : cmd_trace) (info : unit) (data : string) (articles : list Article) :
  Stat (base env) path = Ok info ->
  ReadFile (base env) path = Ok data ->
  Unmarshal (base env) data = Ok articles ->
  loadNewsFromFile env index path tr
  = indexLoop env index articles (tr ++ [Ev (EvStat path); Ev (EvReadFile path)]).
Proof.
  intros Hs Hr Hu. unfold loadNewsFromFile. rewrite Hs, Hr, Hu.
  unfold cmd_emit. now rewrite <- app_assoc.
Qed.

End CmdFacts.

Import CmdFacts.

(** X9.  [loadNewsFromFile] of [cmd/main.go], once the file is read and
    parsed, sends one index request per article, in the order of the file
    and with the identifier of the article as document identifier, for
    some first part of the articles and for nothing else. *)
Theorem index_requests_follow_the_file (env : CmdMain.CmdEnv)
    (index path : string) (tr : CmdMain.cmd_trace) (info : unit)
    (data : string) (articles : list Article) :
  Stat (CmdMain.base env) path = Ok info ->
  ReadFile (CmdMain.base env) path = Ok data ->
  Unmarshal (CmdMain.base env) data = Ok articles ->
  exists n,
    (n <= List.length articles)%nat /\
    snd (CmdMain.loadNewsFromFile env index path tr)
    = (tr ++ [CmdMain.Ev (EvStat path); CmdMain.Ev (EvReadFile path)]
          ++ Runs.index_requests env index (firstn n articles))%list.
Proof.
  intros Hs Hr Hu.
  rewrite (loadNewsFromFile_loaded env index path tr info data articles Hs Hr Hu).
  destruct (indexLoop_prefix env index articles
              (tr ++ [CmdMain.Ev (EvStat path); CmdMain.Ev (EvReadFile path)])%list)
    as (n & Hn & Hrun).
  exists n. split; [exact Hn |]. rewrite Hrun. now rewrite <- app_assoc.
Qed.

Lemma index_requests_follow_the_file_witness :
  exists n,
    (n <= List.length [Examples.good "1"; Examples.undated "2"])%nat /\
    snd (CmdMain.loadNewsFromFile
           (Runs.indexing
              (Runs.with_articles [Examples.good "1"; Examples.undated "2"]))
           CmdMain.index CmdMain.path [])
    = ([] ++ [CmdMain.Ev (EvStat CmdMain.path); CmdMain.Ev (EvReadFile CmdMain.path)]
          ++ Runs.index_requests
               (Runs.indexing
                  (Runs.with_articles [Examples.good "1"; Examples.undated "2"]))
               CmdMain.index
               (firstn n [Examples.good "1"; Examples.undated "2"]))%list.
Proof.
  apply (index_requests_follow_the_file
           (Runs.indexing
              (Runs.with_articles [Examples.good "1"; Examples.undated "2"]))
           CmdMain.index CmdMain.path [] tt "[]"
           [Examples.good "1"; Examples.undated "2"]);
    reflexivity.
Defined.

(** X10.  [loadNewsFromFile], once the file is read and parsed, returns nil
    exactly when the date of every article normalized and every index
    request got a response without an error status; it has then sent the
    request of every article.  A document that does not serialize does not
    stop it: the request is sent with an empty body. *)
Theorem load_returns_nil_iff_all_served (env : CmdMain.CmdEnv)
    (index path : string) (tr : CmdMain.cmd_trace) (info : unit)
    (data : string) (articles : list Article) :
  Stat (CmdMain.base env) path = Ok info ->
  ReadFile (CmdMain.base env) path = Ok data ->
  Unmarshal (CmdMain.base env) data = Ok articles ->
  (fst (CmdMain.loadNewsFromFile env index path tr) = None <->
   Runs.served env index
     (tr ++ [CmdMain.Ev (EvStat path); CmdMain.Ev (EvReadFile path)])%list
     articles) /\
  (fst (CmdMain.loadNewsFromFile env index path tr) = None ->
   snd (CmdMain.loadNewsFromFile env index path tr)
   = (tr ++ [CmdMain.Ev (EvStat path); CmdMain.Ev (EvReadFile path)]
         ++ Runs.index_requests env index articles)%list).
Proof.
  intros Hs Hr Hu.
  rewrite (loadNewsFromFile_loaded env index path tr info data articles Hs Hr Hu).
  assert (Hall : Runs.served env index
                   (tr ++ [CmdMain.Ev (EvStat path); CmdMain.Ev (EvReadFile path)])%list
                   articles ->
                 CmdMain.indexLoop env index articles
                   (tr ++ [CmdMain.Ev (EvStat path); CmdMain.Ev (EvReadFile path)])%list
                 = (None,
                    (tr ++ [CmdMain.Ev (EvStat path); CmdMain.Ev (EvReadFile path)]
                        ++ Runs.index_requests env index articles)%list)).
  { intros H. rewrite <- (app_nil_r articles) at 1.
    rewrite (indexLoop_served env index articles [] _ H). cbn [CmdMain.indexLoop].
    now rewrite <- app_assoc. }
  split; [split |].
  - apply indexLoop_nil.
  - intros H. now rewrite (Hall H).
  - intros H. apply indexLoop_nil in H. now rewrite (Hall H).
Qed.

Lemma load_returns_nil_iff_all_served_witness :
  (fst (CmdMain.loadNewsFromFile
          (Runs.indexing (Runs.with_articles [Examples.good "1"; Examples.good "2"]))
          CmdMain.index CmdMain.path []) = None <->
   Runs.served
     (Runs.indexing (Runs.with_articles [Examples.good "1"; Examples.good "2"]))
     CmdMain.index
     ([] ++ [CmdMain.Ev (EvStat CmdMain.path); CmdMain.Ev (EvReadFile CmdMain.path)])%list
     [Examples.good "1"; Examples.good "2"]) /\
  (fst (CmdMain.loadNewsFromFile
          (Runs.indexing (Runs.with_articles [Examples.good "1"; Examples.good "2"]))
          CmdMain.index CmdMain.path []) = None ->
   snd (CmdMain.loadNewsFromFile
          (Runs.indexing (Runs.with_articles [Examples.good "1"; Examples.good "2"]))
          CmdMain.index CmdMain.path [])
   = ([] ++ [CmdMain.Ev (EvStat CmdMain.path); CmdMain.Ev (EvReadFile CmdMain.path)]
         ++ Runs.index_requests
              (Runs.indexing
                 (Runs.with_articles [Examples.good "1"; Examples.good "2"]))
              CmdMain.index [Examples.good "1"; Examples.good "2"])%list).
Proof.
  apply (load_returns_nil_iff_all_served
           (Runs.indexing (Runs.with_articles [Examples.good "1"; Examples.good "2"]))
           CmdMain.index CmdMain.path [] tt "[]"
           [Examples.good "1"; Examples.good "2"]);
    reflexivity.
Defined.

(** X11.  When the date of an article does not normalize and the articles
    before it were served, [loadNewsFromFile] returns the error of the
    parser; the requests of the articles before it have been sent, one by
    one, and no request is sent for this article or a later one. *)
Theorem load_stops_at_bad_date (env : CmdMain.CmdEnv) (index path : string)
    (tr : CmdMain.cmd_trace) (info : unit) (data : string)
    (pre post : list Article) (a : Article) (e : error) :
  Stat (CmdMain.base env) path = Ok info ->
  ReadFile (CmdMain.base env) path = Ok data ->
  Unmarshal (CmdMain.base env) data = Ok (pre ++ a :: post)%list ->
  Runs.served env index
    (tr ++ [CmdMain.Ev (EvStat path); CmdMain.Ev (EvReadFile path)])%list pre ->
  utils.NormalizeToESDate (PublicationDate a) = Err e ->
  CmdMain.loadNewsFromFile env index path tr
  = (Some (CmdMain.Passed e),
     (tr ++ [CmdMain.Ev (EvStat path); CmdMain.Ev (EvReadFile path)]
         ++ Runs.index_requests env index pre)%list).
Proof.
  intros Hs Hr Hu Hpre Hd.
  rewrite (loadNewsFromFile_loaded env index path tr info data _ Hs Hr Hu).
  rewrite (indexLoop_served env index pre (a :: post) _ Hpre).
  cbn [CmdMain.indexLoop]. rewrite Hd. now rewrite <- app_assoc.
Qed.

Lemma load_stops_at_bad_date_witness :
  CmdMain.loadNewsFromFile
    (Runs.indexing
       (Runs.with_articles
          ([Examples.good "1"] ++ Examples.undated "2" :: [Examples.good "3"])%list))
    CmdMain.index CmdMain.path []
  = (Some (CmdMain.Passed
             (ParseError "2006-01-02T15:04:05" "not-a-date" "2006" "not-a-date" "")),
     ([] ++ [CmdMain.Ev (EvStat CmdMain.path); CmdMain.Ev (EvReadFile CmdMain.path)]
         ++ Runs.index_requests
              (Runs.indexing
                 (Runs.with_articles
                    ([Examples.good "1"] ++ Examples.undated "2"
                       :: [Examples.good "3"])%list))
              CmdMain.index [Examples.good "1"])%list).
Proof.
  apply (load_stops_at_bad_date
           (Runs.indexing
              (Runs.with_articles
                 ([Examples.good "1"] ++ Examples.undated "2" :: [Examples.good "3"])%list))
           CmdMain.index CmdMain.path [] tt "[]"
           [Examples.good "1"] [Examples.good "3"] (Examples.undated "2")).
  - reflexivity.
  - reflexivity.
  - reflexivity.
  - cbn [Runs.served]. split; [reflexivity |]. split; [| exact I].
    eexists. split; reflexivity.
  - reflexivity.
Defined.

(** X12.  When an index request is answered with an error status and the
    articles before it were served, [loadNewsFromFile] returns the
    insertion error carrying the text of that response; the request of
    this article is the last one sent. *)
Theorem load_stops_at_refusal (env : CmdMain.CmdEnv) (index path : string)
    (tr : CmdMain.cmd_trace) (info : unit) (data : string)
    (pre post : list Article) (a : Article) (res : Response) :
  Stat (CmdMain.base env) path = Ok info ->
  ReadFile (CmdMain.base env) path = Ok data ->
  Unmarshal (CmdMain.base env) data = Ok (pre ++ a :: post)%list ->
  Runs.served env index
    (tr ++ [CmdMain.Ev (EvStat path); CmdMain.Ev (EvReadFile path)])%list pre ->
  is_ok (utils.NormalizeToESDate (PublicationDate a)) = true ->
  CmdMain.Index_reply env
    (tr ++ [CmdMain.Ev (EvStat path); CmdMain.Ev (EvReadFile path)]
        ++ Runs.index_requests env index pre)%list
    index (ID a) (Runs.index_body env a) = Ok res ->
  IsError res = true ->
  CmdMain.loadNewsFromFile env index path tr
  = (Some (CmdMain.InsertionFailed (Text res)),
     (tr ++ [CmdMain.Ev (EvStat path); CmdMain.Ev (EvReadFile path)]
         ++ Runs.index_requests env index (pre ++ [a]))%list).
Proof.
  intros Hs Hr Hu Hpre Hd Hres He.
  rewrite (loadNewsFromFile_loaded env index path tr info data _ Hs Hr Hu).
  rewrite (indexLoop_served env index pre (a :: post) _ Hpre).
  cbn [CmdMain.indexLoop].
  destruct (utils.NormalizeToESDate (PublicationDate a)) as [d |] eqn:Ed;
    [| discriminate Hd].
  rewrite (index_body_ok env a d Ed).
  rewrite <- app_assoc, Hres, He.
  unfold CmdMain.cmd_emit, Runs.index_requests.
  now rewrite map_app, <- !app_assoc.
Qed.

Lemma load_stops_at_refusal_witness :
  CmdMain.loadNewsFromFile
    (Runs.refusing_2
       (Runs.with_articles
          ([Examples.good "1"] ++ Examples.good "2" :: [Examples.good "3"])%list))
    CmdMain.index CmdMain.path []
  = (Some (CmdMain.InsertionFailed "[400 Bad Request] mapper_parsing_exception"),
     ([] ++ [CmdMain.Ev (EvStat CmdMain.path); CmdMain.Ev (EvReadFile CmdMain.path)]
         ++ Runs.index_requests
              (Runs.refusing_2
                 (Runs.with_articles
                    ([Examples.good "1"] ++ Examples.good "2"
                       :: [Examples.good "3"])%list))
              CmdMain.index ([Examples.good "1"] ++ [Examples.good "2"]))%list).
Proof.
  apply (load_stops_at_refusal
           (Runs.refusing_2
              (Runs.with_articles
                 ([Examples.good "1"] ++ Examples.good "2" :: [Examples.good "3"])%list))
           CmdMain.index CmdMain.path [] tt "[]"
           [Examples.good "1"] [Examples.good "3"] (Examples.good "2")
           (mkResponse 400 "400 Bad Request"
              "[400 Bad Request] mapper_parsing_exception")).
  - reflexivity.
  - reflexivity.
  - reflexivity.
  - cbn [Runs.served]. split; [reflexivity |]. split; [| exact I].
    eexists. split; reflexivity.
  - reflexivity.
  - reflexivity.
  - reflexivity.
Defined.

(** X13.  Once the client exists, [main] of [cmd/main.go] never ends with a
    failure status: when the existence check gets a response the run ends
    normally, whatever the schema step and the load return, and its last
    output is the line with the time taken; when the existence check gets no
    response the run panics right after it. *)
Theorem cmd_main_survives_every_error (env : CmdMain.CmdEnv) (u : unit) :
  NewClient (CmdMain.base env) (Main.config (CmdMain.base env)) = Ok u ->
  match Exists_reply (CmdMain.base env) [] CmdMain.index with
  | Some _ =>
      exists tr,
        CmdMain.main env
        = (Main.ExitOK,
           CmdMain.cmd_emit tr
             (CmdMain.EvPrintln "time taken to insert documents in ES: " None))
  | None =>
      CmdMain.main env = (Main.ExitPanic, [CmdMain.Ev (EvExists CmdMain.index)])
  end.
Proof.
  intros Hc. unfold CmdMain.main, Cmd.createMappingsSettings. rewrite Hc.
  destruct (Exists_reply (CmdMain.base env) [] CmdMain.index) as [resp |];
    [| reflexivity].
  destruct (StatusCode resp =? 200).
  - destruct (CmdMain.loadNewsFromFile env CmdMain.index CmdMain.path _) as [r tr'].
    eexists. reflexivity.
  - destruct (Create_reply (CmdMain.base env) _ CmdMain.index mapping) as [res | e].
    + destruct (IsError res);
        destruct (CmdMain.loadNewsFromFile env CmdMain.index CmdMain.path _)
          as [r tr'];
        eexists; reflexivity.
    + destruct (CmdMain.loadNewsFromFile env CmdMain.index CmdMain.path _) as [r tr'].
      eexists. reflexivity.
Qed.

Lemma cmd_main_survives_every_error_witness :
  match Exists_reply
          (CmdMain.base
             (Runs.refusing_2 (Examples.no_index [Examples.undated "1"])))
          [] CmdMain.index with
  | Some _ =>
      exists tr,
        CmdMain.main (Runs.refusing_2 (Examples.no_index [Examples.undated "1"]))
        = (Main.ExitOK,
           CmdMain.cmd_emit tr
             (CmdMain.EvPrintln "time taken to insert documents in ES: " None))
  | None =>
      CmdMain.main (Runs.refusing_2 (Examples.no_index [Examples.undated "1"]))
      = (Main.ExitPanic, [CmdMain.Ev (EvExists CmdMain.index)])
  end.
Proof.
  apply (cmd_main_survives_every_error
           (Runs.refusing_2 (Examples.no_index [Examples.undated "1"])) tt).
  reflexivity.
Defined.

(** ** Reading and writing fractions of a second *)
Module NormalizeFacts.
Import GoTime Calendar GoTimeFacts ParseFacts BulkFacts JsonFacts Runs.

Lemma take_0 (s : string) : take 0 s = "".
Proof. destruct s; reflexivity. Qed.

Lemma take_cons (n : nat) (c : ascii) (s : string) :
  take (S n) (String c s) = String c (take n s).
Proof. reflexivity. Qed.

Lemma digit_char_digit (d : Z) :
  0 <= d <= 9 -> is_digit (digit_char d) = true /\ digit_val (digit_char d) = d.
Proof.
  intros H.
  assert (Hc : d = 0 \/ d = 1 \/ d = 2 \/ d = 3 \/ d = 4 \/ d = 5 \/ d = 6
               \/ d = 7 \/ d = 8 \/ d = 9) by lia.
  destruct Hc as [-> | [-> | [-> | [-> | [-> | [-> | [-> | [-> | [-> | ->]]]]]]]]];
    split; reflexivity.
Qed.

Lemma fixed_width_S (k : nat) (u : Z) :
  fixed_width (S k) u
  = fixed_width k (u / 10) ++ String (digit_char (u mod 10)) "".
Proof. reflexivity. Qed.

Lemma zeros_snoc (n : nat) : zeros n ++ "0" = zeros (S n).
Proof. induction n as [| n IH]; cbn; [reflexivity | now rewrite IH]. Qed.

Lemma fixed_width_zero (k : nat) : fixed_width k 0 = zeros k.
Proof.
  induction k as [| k IH]; [reflexivity |].
  cbn [fixed_width]. change (0 / 10) with 0. rewrite IH.
  apply zeros_snoc.
Qed.

Lemma utoa_acc (fuel : nat) :
  forall u acc, utoa fuel u acc = utoa fuel u "" ++ acc.
Proof.
  induction fuel as [| fuel IH]; intros u acc; cbn [utoa]; [reflexivity |].
  destruct (u <? 10); [reflexivity |].
  rewrite (IH _ (String _ acc)), (IH _ (String _ "")), append_assoc.
  reflexivity.
Qed.

(** The digits that [utoa] writes, padded with zeros, are the fixed-width
    digits. *)
Lemma utoa_fixed_width (k : nat) :
  forall fuel u,
  0 <= u < 10 ^ Z.of_nat (S k) -> (k < fuel)%nat ->
  (String.length (utoa fuel u "") <= S k)%nat /\
  zeros (S k - String.length (utoa fuel u "")) ++ utoa fuel u ""
  = fixed_width (S k) u.
Proof.
  induction k as [| k IH]; intros fuel u Hu Hf;
    (destruct fuel as [| fuel]; [lia |]); cbn [utoa].
  - change (10 ^ Z.of_nat 1) with 10 in Hu.
    replace (u <? 10) with true by (symmetry; apply Z.ltb_lt; lia).
    split; [cbn; lia | reflexivity].
  - destruct (Z.ltb_spec u 10) as [Hlt | Hge].
    + split; [cbn; lia |].
      cbn [String.length Nat.sub]. rewrite (fixed_width_S (S k)).
      rewrite (Z.div_small u 10) by lia.
      rewrite fixed_width_zero. reflexivity.
    + rewrite utoa_acc.
      assert (Hq : 0 <= u / 10 < 10 ^ Z.of_nat (S k)).
      { rewrite (Nat2Z.inj_succ (S k)), Z.pow_succ_r in Hu by lia.
        split; [apply Z.div_pos; lia |].
        apply Z.div_lt_upper_bound; lia. }
      destruct (IH fuel (u / 10) Hq ltac:(lia)) as (Hlen & Hpad).
      rewrite length_app. cbn [String.length].
      split; [lia |].
      replace (S (S k) - (String.length (utoa fuel (u / 10) "") + 1))%nat
        with (S k - String.length (utoa fuel (u / 10) ""))%nat by lia.
      rewrite <- append_assoc, Hpad. rewrite (fixed_width_S (S k)). reflexivity.
Qed.

Lemma appendInt_nine (ns : Z) :
  0 <= ns < 10 ^ 9 -> appendInt ns 9 = fixed_width 9 ns.
Proof.
  intros H. unfold appendInt. rewrite Z.abs_eq by lia.
  replace (ns <? 0) with false by (symmetry; apply Z.ltb_ge; lia).
  cbn [Nat.eqb andb].
  destruct (utoa_fixed_width 8 20 ns H ltac:(lia)) as (_ & Hpad).
  rewrite Hpad. reflexivity.
Qed.

Lemma fixed_width_scale (j : nat) :
  forall k u,
  fixed_width (k + j) (u * 10 ^ Z.of_nat j) = fixed_width k u ++ zeros j.
Proof.
  induction j as [| j IH]; intros k u.
  - rewrite Nat.add_0_r, Z.mul_1_r, append_nil_r. reflexivity.
  - rewrite Nat.add_succ_r, fixed_width_S.
    rewrite Nat2Z.inj_succ, Z.pow_succ_r by lia.
    replace (u * (10 * 10 ^ Z.of_nat j)) with (u * 10 ^ Z.of_nat j * 10) by lia.
    rewrite Z.div_mul, Z.mod_mul by lia.
    rewrite IH, append_assoc, zeros_snoc. reflexivity.
Qed.

(** [leadingInt] on a short run of digits: no overflow, and the digits of
    the result are the digits read. *)
Lemma leadingInt_digits (s : string) :
  forall x,
  Spec.all_digits s = true -> 0 <= x ->
  (x + 1) * 10 ^ Z.of_nat (String.length s) <= 10 ^ 18 ->
  exists q,
    leadingInt x s = Some (q, "") /\
    0 <= q < (x + 1) * 10 ^ Z.of_nat (String.length s) /\
    forall k, fixed_width (k + String.length s) q = fixed_width k x ++ s.
Proof.
  induction s as [| c s IH]; intros x Hd Hx Hb.
  - exists x. cbn [leadingInt String.length] in *. split; [reflexivity |].
    split; [lia |]. intros k. now rewrite Nat.add_0_r, append_nil_r.
  - cbn [Spec.all_digits] in Hd. apply andb_true_iff in Hd.
    destruct Hd as [Hc Hd]. pose proof (digit_val_range c Hc) as Hv.
    cbn [String.length] in Hb |- *.
    rewrite Nat2Z.inj_succ, Z.pow_succ_r in Hb |- * by lia.
    assert (HP : 0 < 10 ^ Z.of_nat (String.length s)) by (apply Z.pow_pos_nonneg; lia).
    set (P := 10 ^ Z.of_nat (String.length s)) in *.
    assert (Hx17 : x < 10 ^ 17) by (change (10 ^ 18) with (10 * 10 ^ 17) in Hb; nia).
    destruct (IH (x * 10 + digit_val c) Hd ltac:(lia) ltac:(fold P; nia))
      as (q & Hq & Hr & Hw).
    fold P in Hr.
    exists q. cbn [leadingInt]. rewrite Hc.
    assert (E1 : (x >? 2 ^ 63 / 10) = false).
    { rewrite Z.gtb_ltb. apply Z.ltb_ge.
      change (2 ^ 63 / 10) with 922337203685477580.
      change (10 ^ 17) with 100000000000000000 in Hx17. lia. }
    assert (E2 : (x * 10 + digit_val c >? 2 ^ 63) = false).
    { rewrite Z.gtb_ltb. apply Z.ltb_ge.
      change (2 ^ 63) with 9223372036854775808.
      change (10 ^ 17) with 100000000000000000 in Hx17. lia. }
    rewrite E1. cbv zeta. rewrite E2.
    split; [exact Hq |]. split; [nia |].
    intros k. rewrite Nat.add_succ_r.
    change (S (k + String.length s)) with (S k + String.length s)%nat.
    rewrite Hw, fixed_width_S.
    replace ((x * 10 + digit_val c) / 10) with x
      by (symmetry; apply div_between; lia).
    replace ((x * 10 + digit_val c) mod 10) with (digit_val c)
      by (rewrite Z.add_comm, Z.mod_add by lia; symmetry; apply Z.mod_small; lia).
    rewrite digit_char_val by assumption.
    rewrite append_assoc. reflexivity.
Qed.

Lemma all_digits_take (n : nat) :
  forall s, Spec.all_digits s = true -> Spec.all_digits (take n s) = true.
Proof.
  induction n as [| n IH]; intros s H; [now rewrite take_0 |].
  destruct s as [| c s]; [reflexivity |].
  rewrite take_cons. cbn [Spec.all_digits] in *.
  apply andb_true_iff in H. destruct H as [Hc H]. now rewrite Hc, IH.
Qed.

Lemma length_take (n : nat) :
  forall s, (n <= String.length s)%nat -> String.length (take n s) = n.
Proof.
  induction n as [| n IH]; intros s H; [now rewrite take_0 |].
  destruct s as [| c s]; cbn [String.length] in H; [lia |].
  rewrite take_cons. cbn [String.length]. rewrite IH; lia.
Qed.

Lemma digits_end_all (s : string) :
  forall n, Spec.all_digits s = true ->
  digits_end n s = (n + String.length s)%nat.
Proof.
  induction s as [| c s IH]; intros n H; cbn [digits_end String.length];
    [lia |].
  cbn [Spec.all_digits] in H. apply andb_true_iff in H. destruct H as [Hc H].
  rewrite Hc, IH by assumption. lia.
Qed.

Lemma drop_all (s : string) : drop (String.length s) s = "".
Proof. induction s as [| c s IH]; [reflexivity | exact IH]. Qed.

(** The digits of a fraction of a second, as nanoseconds: no error, and
    the first three of the nine digits are the first three digits of the
    fraction, with zeros for missing ones. *)
Lemma parseNanoseconds_digits (c d : ascii) (tail : string) :
  commaOrPeriod c = true -> is_digit d = true ->
  Spec.all_digits tail = true ->
  exists ns,
    parseNanoseconds (String c (String d tail)) (2 + String.length tail)
    = Some ns /\
    0 <= ns < 10 ^ 9 /\
    take 3 (fixed_width 9 ns) = take 3 (String d tail ++ "000").
Proof.
  intros Hc Hd Ht. unfold parseNanoseconds. rewrite Hc.
  cbn [negb Nat.add Nat.min Nat.sub drop].
  set (m := Nat.min (String.length tail) 8).
  assert (Hm : (m <= 8)%nat) by apply Nat.le_min_r.
  assert (Hml : (m <= String.length tail)%nat) by apply Nat.le_min_l.
  rewrite take_cons.
  assert (Hlen : String.length (String d (take m tail)) = S m)
    by (cbn [String.length]; now rewrite length_take).
  assert (Hpow : 10 ^ Z.of_nat (S m) * 10 ^ Z.of_nat (8 - m) = 10 ^ 9).
  { rewrite <- Z.pow_add_r by lia. f_equal. lia. }
  assert (HP : 0 < 10 ^ Z.of_nat (8 - m)) by (apply Z.pow_pos_nonneg; lia).
  destruct (leadingInt_digits (String d (take m tail)) 0) as (q & Hq & Hr & Hw).
  { cbn [Spec.all_digits]. now rewrite Hd, all_digits_take. }
  { lia. }
  { rewrite Hlen. change (10 ^ 18) with (10 ^ 9 * 10 ^ 9). rewrite <- Hpow.
    assert (10 ^ Z.of_nat (8 - m) <= 10 ^ 9) by (apply Z.pow_le_mono_r; lia).
    assert (0 < 10 ^ Z.of_nat (S m)) by (apply Z.pow_pos_nonneg; lia).
    nia. }
  rewrite Hlen in Hr.
  unfold atoi.
  rewrite (is_digit_not d "-"), (is_digit_not d "+") by (assumption || reflexivity).
  rewrite Hq. eexists. split; [reflexivity |].
  split.
  { rewrite <- Hpow. rewrite Z.mul_1_l in Hr. split.
    - apply Z.mul_nonneg_nonneg; lia.
    - apply Z.mul_lt_mono_pos_r; lia. }
  replace 9%nat with (S m + (8 - m))%nat at 1 by lia.
  rewrite fixed_width_scale.
  specialize (Hw 0%nat). rewrite Hlen in Hw. cbn [Nat.add] in Hw.
  change (fixed_width 0 0) with "" in Hw. cbn [append] in Hw.
  rewrite Hw. subst m.
  destruct tail as [| b [| c' rest]]; [reflexivity | reflexivity |].
  cbn [String.length Nat.min take_cons]. rewrite !take_cons.
  cbn [append]. rewrite !take_cons, !take_0. reflexivity.
Qed.

Section steps.
Variables L V stdstr : string.
Variable nxt : std.
Variable f : fields.

(** An hour of one digit, when no digit follows it. *)
Lemma step_hour_one (a c : ascii) (rest : string) :
  is_digit a = true -> is_digit c = false ->
  parseStd L V stdstr stdHour nxt f (String a (String c rest))
  = Ok (mkFields (f_year f) (f_month f) (f_day f) (digit_val a) (f_min f)
          (f_sec f) (f_nsec f), String c rest).
Proof.
  intros Ha Hc. pose proof (digit_val_range a Ha).
  unfold parseStd, getnum, isDigit. cbn [String.get]. rewrite Ha, Hc.
  cbn [negb].
  replace (digit_val a <? 0) with false by (symmetry; apply Z.ltb_ge; lia).
  replace (24 <=? digit_val a) with false by (symmetry; apply Z.leb_gt; lia).
  reflexivity.
Qed.

(** The seconds and what may follow them at the end of the input. *)
Lemma step_second_fraction (a b : ascii) (frac : string) :
  is_digit a = true -> is_digit b = true -> Spec.two a b < 60 ->
  Spec.fraction frac = true -> f_nsec f = 0 ->
  exists ns,
    parseStd L V stdstr stdZeroSecond stdNone f (String a (String b frac))
    = Ok (mkFields (f_year f) (f_month f) (f_day f) (f_hour f) (f_min f)
            (Spec.two a b) ns, "") /\
    0 <= ns < 10 ^ 9 /\
    take 3 (fixed_width 9 ns) = take 3 (drop 1 frac ++ "000").
Proof.
  intros Ha Hb Hr Hf H0. destruct frac as [| c ds].
  - exists 0. rewrite step_second_end by assumption. rewrite H0.
    split; [reflexivity |]. split; [lia | reflexivity].
  - unfold Spec.fraction in Hf.
    apply andb_true_iff in Hf. destruct Hf as [Hf Hds].
    apply andb_true_iff in Hf. destruct Hf as [Hc Hne].
    destruct ds as [| d tail]; [discriminate Hne |].
    cbn [Spec.all_digits] in Hds.
    apply andb_true_iff in Hds. destruct Hds as [Hd Ht].
    destruct (parseNanoseconds_digits c d tail Hc Hd Ht) as (ns & Hns & Hrange & Hw).
    exists ns. pose proof (two_range a b Ha Hb).
    unfold parseStd. rewrite getnum_two by assumption.
    fold (Spec.two a b).
    replace (Spec.two a b <? 0) with false by (symmetry; apply Z.ltb_ge; lia).
    replace (60 <=? Spec.two a b) with false by (symmetry; apply Z.leb_gt; lia).
    cbn [orb String.length Nat.leb andb is_frac drop].
    change (commaOrPeriod c = true) in Hc.
    unfold isDigit. cbn [String.get]. rewrite Hc, Hd.
    cbn [andb]. rewrite (digits_end_all tail 2 Ht), Hns.
    cbn [Nat.add drop]. rewrite drop_all.
    split; [reflexivity |]. split; [exact Hrange | exact Hw].
Qed.
End steps.


(** What [Format] writes for a [Date] whose fields are in range. *)
Lemma Format_Date_nsec (y1 y2 y3 y4 m1 m2 d1 d2 n1 n2 s1 s2 : ascii)
    (h ns : Z) :
  let y := digit_val y1 * 1000 + digit_val y2 * 100
           + digit_val y3 * 10 + digit_val y4 in
  forallb is_digit [y1; y2; y3; y4; m1; m2; d1; d2; n1; n2; s1; s2] = true ->
  validDate y (Spec.two m1 m2) (Spec.two d1 d2) = true ->
  0 <= h < 24 -> Spec.two n1 n2 < 60 -> Spec.two s1 s2 < 60 ->
  0 <= ns < 10 ^ 9 ->
  Format (UTC (Date y (Spec.two m1 m2) (Spec.two d1 d2) h
                 (Spec.two n1 n2) (Spec.two s1 s2) ns)) utils.outputLayout
  = String y1 (String y2 (String y3 (String y4 (String "-"
      (String m1 (String m2 (String "-" (String d1 (String d2 (String "T"
        (String (digit_char (h / 10)) (String (digit_char (h mod 10))
          (String ":" (String n1 (String n2 (String ":"
            (String s1 (String s2
              (String "." (take 3 (fixed_width 9 ns) ++ "Z")))))))))))))))))))).
Proof.
  intros y Hdig Hv Hh Hn Hs Hns. cbn [forallb] in Hdig. split_andb.
  repeat match goal with
  | H : is_digit ?c = true |- _ =>
      lazymatch goal with
      | _ : 0 <= digit_val c <= 9 |- _ => fail
      | _ => pose proof (digit_val_range c H)
      end
  end.
  assert (Hy : 0 <= y) by (unfold y; lia).
  destruct (date_clock_Date y (Spec.two m1 m2) (Spec.two d1 d2)
              h (Spec.two n1 n2) (Spec.two s1 s2) ns)
    as (Hd & Hc & Hnsec); try assumption;
    try (split; [apply two_range; assumption | assumption]).
  assert (Eh : appendInt h 2
               = String (digit_char (h / 10)) (String (digit_char (h mod 10)) "")).
  { rewrite (Z.div_mod h 10) at 1 by lia. rewrite (Z.mul_comm 10).
    apply appendInt_two.
    - split; [apply Z.div_pos; lia | apply Z.lt_succ_r, Z.div_lt_upper_bound; lia].
    - pose proof (Z.mod_pos_bound h 10). lia. }
  unfold Format, UTC. rewrite outputLayout_chunks.
  cbn [formatChunks c_prefix c_std]. unfold formatStd.
  rewrite Hd, Hc, Hnsec, Eh. unfold y, Spec.two.
  rewrite appendInt_four, !appendInt_two by assumption.
  rewrite !digit_char_val by assumption.
  unfold appendNano. rewrite appendInt_nine by assumption.
  reflexivity.
Qed.

(** *** The shape of the inputs that [Spec.lenient_timestamp] takes *)

Lemma date_part_inv (time : string -> bool) (s : string) :
  Spec.date_part time s = true ->
  exists y1 y2 y3 y4 m1 m2 d1 d2 rest,
    s = String y1 (String y2 (String y3 (String y4 (String "-"
          (String m1 (String m2 (String "-" (String d1 (String d2
            (String "T" rest)))))))))) /\
    forallb is_digit [y1; y2; y3; y4; m1; m2; d1; d2] = true /\
    1 <= Spec.two m1 m2 <= 12 /\
    1 <= Spec.two d1 d2
      <= Spec.days_in_month
           (digit_val y1 * 1000 + digit_val y2 * 100 + digit_val y3 * 10
            + digit_val y4) (Spec.two m1 m2) /\
    time rest = true.
Proof.
  intros H. unfold Spec.date_part in H.
  destruct s as [| y1 [| y2 [| y3 [| y4 [| c1 [| m1 [| m2 [| c2 [| d1 [| d2
    [| c3 rest]]]]]]]]]]]; try discriminate H.
  cbv zeta in H. split_andb.
  repeat match goal with
  | H : Ascii.eqb _ _ = true |- _ => apply Ascii.eqb_eq in H; subst
  end.
  to_Z. exists y1, y2, y3, y4, m1, m2, d1, d2, rest.
  cbn [forallb]. rewrite_digits. repeat split; assumption.
Qed.

Lemma minutes_seconds_inv (tail : string -> bool) (s : string) :
  Spec.minutes_seconds tail s = true ->
  exists n1 n2 s1 s2 rest,
    s = String n1 (String n2 (String ":" (String s1 (String s2 rest)))) /\
    forallb is_digit [n1; n2; s1; s2] = true /\
    Spec.two n1 n2 < 60 /\ Spec.two s1 s2 < 60 /\ tail rest = true.
Proof.
  intros H. unfold Spec.minutes_seconds in H.
  destruct s as [| n1 [| n2 [| c [| s1 [| s2 rest]]]]]; try discriminate H.
  split_andb.
  repeat match goal with
  | H : Ascii.eqb _ _ = true |- _ => apply Ascii.eqb_eq in H; subst
  end.
  to_Z. exists n1, n2, s1, s2, rest.
  cbn [forallb]. rewrite_digits. repeat split; assumption.
Qed.

(** [NormalizeToESDate] on an input given by its parts; [hs] is the text of
    the hour, of one or two digits, and [h] its value. *)
Lemma Normalize_parts (y1 y2 y3 y4 m1 m2 d1 d2 n1 n2 s1 s2 : ascii)
    (hs : string) (h : Z) (frac : string) :
  let y := digit_val y1 * 1000 + digit_val y2 * 100
           + digit_val y3 * 10 + digit_val y4 in
  forallb is_digit [y1; y2; y3; y4; m1; m2; d1; d2] = true ->
  forallb is_digit [n1; n2; s1; s2] = true ->
  1 <= Spec.two m1 m2 <= 12 ->
  1 <= Spec.two d1 d2 <= Spec.days_in_month y (Spec.two m1 m2) ->
  0 <= h < 24 -> Spec.two n1 n2 < 60 -> Spec.two s1 s2 < 60 ->
  Spec.fraction frac = true ->
  (forall L V stdstr nxt f rest,
     parseStd L V stdstr stdHour nxt f (hs ++ String ":" rest)
     = Ok (mkFields (f_year f) (f_month f) (f_day f) h (f_min f) (f_sec f)
             (f_nsec f), String ":" rest)) ->
  utils.NormalizeToESDate
    (String y1 (String y2 (String y3 (String y4 (String "-"
       (String m1 (String m2 (String "-" (String d1 (String d2 (String "T"
         (hs ++ String ":" (String n1 (String n2 (String ":"
            (String s1 (String s2 frac)))))))))))))))))
  = Ok (String y1 (String y2 (String y3 (String y4 (String "-"
          (String m1 (String m2 (String "-" (String d1 (String d2 (String "T"
            (String (digit_char (h / 10)) (String (digit_char (h mod 10))
              (String ":" (String n1 (String n2 (String ":"
                (String s1 (String s2
                  (String "." (take 3 (drop 1 frac ++ "000") ++ "Z"))))))))))))))))))))).
Proof.
  intros y Hd1 Hd2 Hm Hd Hh Hn Hs Hfrac Hhour.
  assert (Hall : forallb is_digit [y1; y2; y3; y4; m1; m2; d1; d2; n1; n2; s1; s2]
                 = true).
  { cbn [forallb] in *. split_andb. rewrite_digits. reflexivity. }
  cbn [forallb] in Hd1, Hd2. split_andb.
  assert (Hy : 0 <= y).
  { unfold y.
    repeat match goal with
    | H : is_digit ?c = true |- _ => apply digit_val_range in H
    end. lia. }
  rewrite <- (daysIn_days_in_month y _ Hy) in Hd by lia.
  unfold utils.NormalizeToESDate, Parse, parse.
  rewrite inputLayout_chunks.
  cbn [parseChunks skip c_prefix c_std c_stdstr next_std].
  rewrite step_year by assumption. cbn [skip Ascii.eqb Bool.eqb].
  rewrite step_month by (assumption || lia). cbn [skip Ascii.eqb Bool.eqb].
  rewrite step_day by assumption. cbn [skip Ascii.eqb Bool.eqb].
  rewrite Hhour. cbn [skip Ascii.eqb Bool.eqb].
  rewrite step_minute by assumption. cbn [skip Ascii.eqb Bool.eqb].
  match goal with
  | |- context [parseStd ?L ?V ?str stdZeroSecond stdNone ?f _] =>
      destruct (step_second_fraction L V str f s1 s2 frac)
        as (ns & Hsec & Hns & Hw); try assumption; try reflexivity
  end.
  rewrite Hsec. cbn [skip].
  cbn [String.length Nat.eqb negb f_year f_month f_day f_hour f_min f_sec f_nsec].
  fold y.
  repeat match goal with
  | |- context [?a <? ?b] =>
      replace (a <? b) with false by (symmetry; apply Z.ltb_ge; lia)
  end.
  cbn [orb]. unfold y.
  rewrite Format_Date_nsec; try assumption.
  - rewrite Hw. reflexivity.
  - unfold validDate. fold y. rewrite !andb_true_iff, !Z.leb_le. lia.
Qed.

(** Every input that [Spec.lenient_timestamp] takes is normalized: to a
    timestamp, which is the input with its hour padded to two digits and
    without its fraction, and the first three digits of the fraction. *)
Lemma Normalize_lenient (s : string) :
  Spec.lenient_timestamp s = true ->
  exists body frac,
    pad_hour s = body ++ frac /\
    Spec.timestamp body = true /\ Spec.fraction frac = true /\
    utils.NormalizeToESDate s
    = Ok (body ++ String "." (take 3 (drop 1 frac ++ "000") ++ "Z")).
Proof.
  intros H. unfold Spec.lenient_timestamp in H.
  apply date_part_inv in H.
  destruct H as (y1 & y2 & y3 & y4 & m1 & m2 & d1 & d2 & rest & -> & Hdig
                 & Hm & Hd & H).
  destruct rest as [| h1 [| c rest]]; try discriminate H.
  destruct (is_digit c) eqn:Hc.
  - (* an hour of two digits *)
    destruct rest as [| c' rest]; [discriminate H |].
    apply andb_true_iff in H. destruct H as [H Hms].
    split_andb.
    repeat match goal with
    | H : Ascii.eqb _ _ = true |- _ => apply Ascii.eqb_eq in H; subst
    end.
    to_Z. apply minutes_seconds_inv in Hms.
    destruct Hms as (n1 & n2 & s1 & s2 & frac & -> & Hdig' & Hn & Hs & Hfrac).
    pose proof (two_range h1 c ltac:(assumption) Hc) as Hh.
    pose proof (digit_val_range h1 ltac:(assumption)) as Hh1.
    pose proof (digit_val_range c Hc) as Hh2.
    exists (String y1 (String y2 (String y3 (String y4 (String "-"
              (String m1 (String m2 (String "-" (String d1 (String d2 (String "T"
                (String h1 (String c (String ":" (String n1 (String n2 (String ":"
                  (String s1 (String s2 ""))))))))))))))))))), frac.
    split; [| split; [| split; [exact Hfrac |]]].
    + unfold pad_hour, isDigit. cbn [String.get]. rewrite Hc. reflexivity.
    + unfold Spec.timestamp, Spec.date_part, Spec.minutes_seconds, Spec.empty.
      cbn [forallb] in Hdig, Hdig'. split_andb. rewrite_digits.
      cbn [andb Ascii.eqb Bool.eqb String.length Nat.eqb].
      rewrite !andb_true_iff, !Z.leb_le, !Z.ltb_lt. repeat split; lia.
    + pose proof (Normalize_parts y1 y2 y3 y4 m1 m2 d1 d2 n1 n2 s1 s2
                    (String h1 (String c "")) (Spec.two h1 c) frac) as HN.
      cbv zeta in HN. cbn [append] in HN.
      rewrite HN; try assumption; try lia.
      * unfold Spec.two.
        replace ((digit_val h1 * 10 + digit_val c) / 10) with (digit_val h1)
          by (symmetry; apply div_between; lia).
        replace ((digit_val h1 * 10 + digit_val c) mod 10) with (digit_val c)
          by (rewrite Z.add_comm, Z.mod_add by lia; symmetry;
              apply Z.mod_small; lia).
        rewrite !digit_char_val by assumption. reflexivity.
      * intros L V stdstr nxt f rest.
        apply step_hour; assumption.
  - (* an hour of one digit *)
    apply andb_true_iff in H. destruct H as [H Hms].
    split_andb.
    repeat match goal with
    | H : Ascii.eqb _ _ = true |- _ => apply Ascii.eqb_eq in H; subst
    end.
    apply minutes_seconds_inv in Hms.
    destruct Hms as (n1 & n2 & s1 & s2 & frac & -> & Hdig' & Hn & Hs & Hfrac).
    pose proof (digit_val_range h1 ltac:(assumption)) as Hh1.
    exists (String y1 (String y2 (String y3 (String y4 (String "-"
              (String m1 (String m2 (String "-" (String d1 (String d2 (String "T"
                (String "0" (String h1 (String ":" (String n1 (String n2 (String ":"
                  (String s1 (String s2 ""))))))))))))))))))), frac.
    split; [| split; [| split; [exact Hfrac |]]].
    + reflexivity.
    + unfold Spec.timestamp, Spec.date_part, Spec.minutes_seconds, Spec.empty.
      cbn [forallb] in Hdig, Hdig'. split_andb. rewrite_digits.
      change (is_digit "0") with true.
      replace (Spec.two "0" h1) with (digit_val h1) by reflexivity.
      cbn [andb Ascii.eqb Bool.eqb String.length Nat.eqb].
      rewrite !andb_true_iff, !Z.leb_le, !Z.ltb_lt. repeat split; lia.
    + pose proof (Normalize_parts y1 y2 y3 y4 m1 m2 d1 d2 n1 n2 s1 s2
                    (String h1 "") (digit_val h1) frac) as HN.
      cbv zeta in HN. cbn [append] in HN.
      rewrite HN; try assumption; try lia.
      * rewrite (Z.div_small (digit_val h1) 10), (Z.mod_small (digit_val h1) 10)
          by lia.
        rewrite digit_char_val by assumption. reflexivity.
      * intros L V stdstr nxt f rest.
        apply step_hour_one; [assumption | reflexivity].
Qed.


Lemma Normalize_ok_lenient (s out : string) :
  utils.NormalizeToESDate s = Ok out -> Spec.lenient_timestamp s = true.
Proof.
  unfold utils.NormalizeToESDate. intros H.
  destruct (Parse utils.inputLayout s) as [t |] eqn:E; [| discriminate H].
  apply (parse_ok_lenient s t E).
Qed.

(** A timestamp has nineteen bytes. *)
Lemma timestamp_inv (body : string) :
  Spec.timestamp body = true ->
  exists y1 y2 y3 y4 m1 m2 d1 d2 h1 h2 n1 n2 s1 s2,
    body = String y1 (String y2 (String y3 (String y4 (String "-"
             (String m1 (String m2 (String "-" (String d1 (String d2 (String "T"
               (String h1 (String h2 (String ":" (String n1 (String n2 (String ":"
                 (String s1 (String s2 "")))))))))))))))))) /\
    forallb is_digit [y1; y2; y3; y4; m1; m2; d1; d2; h1; h2; n1; n2; s1; s2]
    = true.
Proof.
  intros H. unfold Spec.timestamp in H. apply date_part_inv in H.
  destruct H as (y1 & y2 & y3 & y4 & m1 & m2 & d1 & d2 & rest & -> & Hdig & _ & _ & H).
  destruct rest as [| h1 [| h2 [| c rest]]]; try discriminate H.
  apply andb_true_iff in H. destruct H as [H Hms]. split_andb.
  apply minutes_seconds_inv in Hms.
  destruct Hms as (n1 & n2 & s1 & s2 & e & -> & Hdig' & _ & _ & He).
  destruct e; [| discriminate He].
  repeat match goal with
  | H : Ascii.eqb _ _ = true |- _ => apply Ascii.eqb_eq in H; subst
  end.
  exists y1, y2, y3, y4, m1, m2, d1, d2, h1, h2, n1, n2, s1, s2.
  split; [reflexivity |].
  cbn [forallb] in *. split_andb. rewrite_digits. reflexivity.
Qed.

(** The three digits written for a fraction. *)
Lemma millis_digits (frac : string) :
  Spec.fraction frac = true ->
  exists f1 f2 f3,
    take 3 (drop 1 frac ++ "000") = String f1 (String f2 (String f3 "")) /\
    forallb is_digit [f1; f2; f3] = true.
Proof.
  intros H. destruct frac as [| c ds]; [exists "0"%char, "0"%char, "0"%char; split; reflexivity |].
  unfold Spec.fraction in H. apply andb_true_iff in H. destruct H as [_ H].
  cbn [drop].
  destruct ds as [| a [| b [| d rest]]]; cbn [Spec.all_digits] in H; split_andb.
  - exists "0"%char, "0"%char, "0"%char. split; reflexivity.
  - exists a, "0"%char, "0"%char. cbn [forallb]. rewrite_digits. split; reflexivity.
  - exists a, b, "0"%char. cbn [forallb]. rewrite_digits. split; reflexivity.
  - exists a, b, d. cbn [forallb append]. rewrite_digits.
    rewrite !take_cons, take_0. split; reflexivity.
Qed.

End NormalizeFacts.

Import GoTime Calendar GoTimeFacts ParseFacts BulkFacts JsonFacts NormalizeFacts.

(** X14.  [NormalizeToESDate] succeeds exactly on the inputs of
    [Spec.lenient_timestamp]: a date of the calendar, an hour of one or two
    digits below 24, minutes and seconds below 60, and then nothing or a
    period or a comma and one or more digits. *)
Theorem normalize_accepts_exactly_lenient (s : string) :
  is_ok (utils.NormalizeToESDate s) = Spec.lenient_timestamp s.
Proof.
  destruct (Spec.lenient_timestamp s) eqn:Hl.
  - destruct (Normalize_lenient s Hl) as (body & frac & _ & _ & _ & ->).
    reflexivity.
  - destruct (utils.NormalizeToESDate s) as [out | e] eqn:E; [| reflexivity].
    apply Normalize_ok_lenient in E. congruence.
Qed.

(** X15.  On every input it accepts, [NormalizeToESDate] returns the date
    and the time of the input with the hour written with two digits, a
    period, the first three digits of the fraction of the input (zeros for
    the missing ones: the fraction is cut, not rounded), and the letter Z. *)
Theorem normalize_result (s : string) :
  Spec.lenient_timestamp s = true ->
  utils.NormalizeToESDate s
  = Ok (take 19 (Runs.pad_hour s) ++ "."
          ++ take 3 (drop 20 (Runs.pad_hour s) ++ "000") ++ "Z").
Proof.
  intros Hl.
  destruct (Normalize_lenient s Hl) as (body & frac & Hpad & Hbody & _ & ->).
  rewrite Hpad.
  destruct (timestamp_inv body Hbody)
    as (y1 & y2 & y3 & y4 & m1 & m2 & d1 & d2 & h1 & h2 & n1 & n2 & s1 & s2
        & -> & _).
  cbn [append drop]. rewrite !take_cons, take_0.
  destruct frac; reflexivity.
Qed.

Lemma normalize_result_witness :
  Spec.lenient_timestamp "2024-01-15T9:30:00,98765" = true /\
  utils.NormalizeToESDate "2024-01-15T9:30:00,98765"
  = Ok "2024-01-15T09:30:00.987Z".
Proof.
  split; [reflexivity |].
  apply (normalize_result "2024-01-15T9:30:00,98765"). reflexivity.
Defined.

(** X16.  Every output of [NormalizeToESDate] has twenty-four bytes: a
    timestamp in the pattern yyyy-MM-dd'T'HH:mm:ss that names a date of the
    calendar and a time of the day, a period, three digits, and the letter
    Z. *)
Theorem normalize_output_is_a_timestamp (s out : string) :
  utils.NormalizeToESDate s = Ok out ->
  exists body f1 f2 f3,
    out = body ++ String "." (String f1 (String f2 (String f3 "Z"))) /\
    Spec.timestamp body = true /\
    forallb is_digit [f1; f2; f3] = true.
Proof.
  intros H. pose proof (Normalize_ok_lenient s out H) as Hl.
  destruct (Normalize_lenient s Hl) as (body & frac & _ & Hbody & Hfrac & E).
  assert (Hout : out = body ++ String "." (take 3 (drop 1 frac ++ "000") ++ "Z"))
    by congruence.
  subst out.
  destruct (millis_digits frac Hfrac) as (f1 & f2 & f3 & -> & Hd).
  exists body, f1, f2, f3. repeat split; assumption.
Qed.

Lemma normalize_output_is_a_timestamp_witness :
  exists body f1 f2 f3,
    "2024-02-29T23:59:59.500Z"
    = body ++ String "." (String f1 (String f2 (String f3 "Z"))) /\
    Spec.timestamp body = true /\
    forallb is_digit [f1; f2; f3] = true.
Proof.
  apply (normalize_output_is_a_timestamp "2024-02-29T23:59:59.5").
  reflexivity.
Defined.

(** X17.  [NormalizeToESDate] never accepts one of its own outputs: a
    normalized date cannot be normalized again. *)
Theorem normalize_refuses_its_output (s out : string) :
  utils.NormalizeToESDate s = Ok out ->
  is_ok (utils.NormalizeToESDate out) = false.
Proof.
  intros H. pose proof (Normalize_ok_lenient s out H) as Hl.
  destruct (Normalize_lenient s Hl) as (body & frac & _ & Hbody & Hfrac & E).
  assert (Hout : out = body ++ String "." (take 3 (drop 1 frac ++ "000") ++ "Z"))
    by congruence.
  subst out.
  destruct (millis_digits frac Hfrac) as (f1 & f2 & f3 & -> & Hd).
  destruct (timestamp_inv body Hbody)
    as (y1 & y2 & y3 & y4 & m1 & m2 & d1 & d2 & h1 & h2 & n1 & n2 & s1 & s2
        & -> & Hdig).
  match goal with
  | |- is_ok ?r = false => destruct r as [out' | e] eqn:E'; [| reflexivity]
  end.
  apply Normalize_ok_lenient in E'. exfalso. revert E'.
  cbn [forallb] in Hdig, Hd. split_andb.
  cbn [append]. unfold Spec.lenient_timestamp, Spec.date_part.
  cbv beta iota zeta. rewrite_digits. cbv beta iota.
  unfold Spec.minutes_seconds, Spec.fraction. cbn [Spec.all_digits].
  change (is_digit "Z") with false.
  rewrite !andb_false_r. discriminate.
Qed.

Lemma normalize_refuses_its_output_witness :
  is_ok (utils.NormalizeToESDate "2024-01-15T10:30:00.000Z") = false.
Proof.
  apply (normalize_refuses_its_output "2024-01-15T10:30:00").
  reflexivity.
Defined.

(** X18.  Whatever happens, the payloads that [bulkIndex] has submitted,
    put one after the other, are the records of a first part of the
    articles, in order, and every article of that part rendered; when
    [bulkIndex] returns nil that part is the whole list.  So also a run
    that fails has submitted no record twice or out of order. *)
Theorem bulkIndex_submits_a_first_part (env : Env) (B : Z)
    (articles : list Article) (tr : trace) :
  exists added n,
    snd (Main.bulkIndexWith env B articles tr) = (tr ++ added)%list /\
    (n <= List.length articles)%nat /\
    Forall (Spec.renders env) (firstn n articles) /\
    Runs.bulk_bytes added = Spec.payload env (firstn n articles) /\
    (is_ok (fst (Main.bulkIndexWith env B articles tr)) = true ->
     n = List.length articles).
Proof.
  unfold Main.bulkIndexWith.
  destruct (bulkLoop_prefix env B articles 0 "" tr) as (r & buf & a1 & Hrun & Herr).
  rewrite Hrun. destruct r as [u | e].
  - destruct (bulkLoop_bytes _ _ _ _ _ _ _ _ _ Hrun) as (a1' & Ht & Hb).
    apply app_inv_head in Ht. subst a1'. cbn [append] in Hb.
    assert (Hall : Forall (Spec.renders env) articles).
    { destruct (bulkLoop_chain env B articles 0 "" tr)
        as (r0 & buf0 & a0 & Hrun0 & _ & Hr0).
      rewrite Hrun in Hrun0. injection Hrun0 as <- _ _. apply Hr0. reflexivity. }
    destruct (flushBulk_cases env buf (tr ++ a1)%list)
      as [(Hlen & E) | [(Hlen & Hacc & E) | (Hlen & Hacc & e & E)]];
      rewrite E; cbn [fst snd].
    + exists a1, (List.length articles). rewrite firstn_all.
      destruct buf; [| discriminate Hlen]. rewrite append_nil_r in Hb.
      repeat split; auto.
    + exists (a1 ++ [EvBulk buf])%list, (List.length articles). rewrite firstn_all.
      unfold emit. rewrite app_assoc, bulk_bytes_app. cbn [Runs.bulk_bytes].
      rewrite append_nil_r. repeat split; auto.
    + exists (a1 ++ [EvBulk buf])%list, (List.length articles). rewrite firstn_all.
      unfold emit. rewrite app_assoc, bulk_bytes_app. cbn [Runs.bulk_bytes].
      rewrite append_nil_r. repeat split; auto.
  - cbn [fst snd]. destruct (Herr eq_refl) as [H0 | (n & Hn & Hf & Hbytes)].
    + exists a1, 0%nat. cbn [firstn Spec.payload].
      repeat split; (lia || auto || discriminate).
    + exists a1, n. repeat split; (assumption || discriminate).
Qed.

